(** * PynamoDB, [pynamodb/connection/base.py]: the lowest level connection

    A shallow embedding of [MetaTable] and [Connection] and the properties
    of the request bodies they build.

    Conventions of the embedding.
    - A Python value that the code only passes through (key values, limits,
      attribute values) is a [value]; a Python [dict] built by the code is a
      [gmap string value], so that two dicts with the same entries are equal;
      a [dict] the code iterates over with [.items()] is the list of its
      items in iteration order.
    - A Python exception is a constructor of [exn] that carries the format
      string of the message and the arguments given to [format].
    - A method of [MetaTable] is a computation over the [MetaTable] object
      (it memoizes the key names in the object); a method of [Connection] is
      a computation over the connection: the table cache [_tables] and the
      list of the calls that went to the transport.
    - Characters are bytes: [upper] acts on the letters a-z only. *)

From Stdlib Require Import ZArith String Ascii List Bool Lia Sorted.
From stdpp Require Import gmap strings list fin_maps.

Set Warnings "-register-all".
Local Open Scope string_scope.
Local Open Scope Z_scope.

(** ** Python values *)

Inductive value : Type :=
| VNone
| VBool (b : bool)
| VInt (z : Z)
| VStr (s : string)
| VList (l : list value)
| VDict (d : gmap string value).

(** A dict as the code builds it. *)
Abbreviation dict := (gmap string value).

(** [if x:] *)
Definition truthy (v : value) : bool :=
  match v with
  | VNone => false
  | VBool b => b
  | VInt z => negb (z =? 0)
  | VStr s => negb (String.eqb s "")
  | VList l => match l with [] => false | _ => true end
  | VDict d => negb (bool_decide (d = ∅))
  end.

(** [if s:] for an argument that is [None] or a string. *)
Definition truthy_str (o : option string) : bool :=
  match o with
  | Some s => negb (String.eqb s "")
  | None => false
  end.

(** [if l:] for an argument that is [None] or a list (or the items of a dict). *)
Definition truthy_list {A} (o : option (list A)) : bool :=
  match o with
  | Some (_ :: _) => true
  | _ => false
  end.

(** [d.get(k)]: [None] when the key is absent. *)
Definition dict_get (d : dict) (k : string) : value :=
  match d !! k with
  | Some v => v
  | None => VNone
  end.

(** [v[k1][k2]...]: the value at the end of a path of keys, if the path is
    there. *)
Fixpoint lookup_path (path : list string) (v : value) : option value :=
  match path with
  | [] => Some v
  | k :: path' =>
      match v with
      | VDict d =>
          match d !! k with
          | Some v' => lookup_path path' v'
          | None => None
          end
      | _ => None
      end
  end.

(** [k in d] *)
Definition dict_in (k : string) (d : dict) : bool :=
  match d !! k with
  | Some _ => true
  | None => false
  end.

(** [x in l] for a list [l] of strings: only a string can be equal to one. *)
Definition value_in (v : value) (l : list string) : bool :=
  match v with
  | VStr s => bool_decide (s ∈ l)
  | _ => false
  end.

(** ** Strings *)

Definition is_upper (c : ascii) : bool :=
  let n := N_of_ascii c in ((65 <=? n) && (n <=? 90))%N.

Definition is_lower (c : ascii) : bool :=
  let n := N_of_ascii c in ((97 <=? n) && (n <=? 122))%N.

Definition upper_ascii (c : ascii) : ascii :=
  if is_lower c then ascii_of_N (N_of_ascii c - 32) else c.

Definition lower_ascii (c : ascii) : ascii :=
  if is_upper c then ascii_of_N (N_of_ascii c + 32) else c.

(** [s.upper()] *)
Fixpoint upper (s : string) : string :=
  match s with
  | EmptyString => EmptyString
  | String c s' => String (upper_ascii c) (upper s')
  end.

Fixpoint pythonic_tail (s : string) : string :=
  match s with
  | EmptyString => EmptyString
  | String c s' =>
      if is_upper c
      then String "_" (String (lower_ascii c) (pythonic_tail s'))
      else String c (pythonic_tail s')
  end.

(** Modelled from the spec: [pynamodb.connection.util.pythonic] is not among
    the sources. It gives the lowercase-with-underscores version of a wire
    name ([TableName] becomes [table_name]): each capital after the first
    character starts a new word. *)
Definition pythonic (var_name : string) : string :=
  match var_name with
  | EmptyString => EmptyString
  | String c s' => String (lower_ascii c) (pythonic_tail s')
  end.

(** [str(x)] for an argument that is [None] or a string. *)
Definition str (o : option string) : string :=
  match o with
  | Some s => s
  | None => "None"
  end.

(** ** Constants

    Modelled from the spec: [pynamodb.constants] and [pynamodb.types] are
    not among the sources. The names are the wire names of the store's
    protocol, the enumerations are those of the spec's table of allowed
    values. The two comparison-operator enumerations, which the spec leaves
    open, are parameters of the connection (see [Section Connection]). *)
Module Constants.
Definition HASH := "HASH".
Definition RANGE := "RANGE".

Definition TABLE_NAME := "TableName".
Definition TABLE_KEY := "Table".
Definition KEY_SCHEMA := "KeySchema".
Definition KEY_TYPE := "KeyType".
Definition ATTR_NAME := "AttributeName".
Definition ATTR_TYPE := "AttributeType".
Definition ATTR_DEFINITIONS := "AttributeDefinitions".
Definition ATTR_UPDATES := "AttributeUpdates".
Definition ATTR_VALUE_LIST := "AttributeValueList".
Definition ATTRS_TO_GET := "AttributesToGet".
Definition COMPARISON_OPERATOR := "ComparisonOperator".
Definition CONSISTENT_READ := "ConsistentRead".
Definition EXCLUSIVE_START_KEY := "ExclusiveStartKey".
Definition SCAN_INDEX_FORWARD := "ScanIndexForward".
Definition KEY_CONDITIONS := "KeyConditions".
Definition SCAN_FILTER := "ScanFilter".
Definition REQUEST_ITEMS := "RequestItems".
Definition PUT_REQUEST := "PutRequest".
Definition DELETE_REQUEST := "DeleteRequest".
Definition INDEX_NAME := "IndexName".
Definition PROJECTION := "Projection".
Definition PROVISIONED_THROUGHPUT := "ProvisionedThroughput".
Definition READ_CAPACITY_UNITS := "ReadCapacityUnits".
Definition WRITE_CAPACITY_UNITS := "WriteCapacityUnits".
Definition GLOBAL_SECONDARY_INDEXES := "GlobalSecondaryIndexes".
Definition LOCAL_SECONDARY_INDEXES := "LocalSecondaryIndexes".
Definition RETURN_VALUES := "ReturnValues".
Definition RETURN_CONSUMED_CAPACITY := "ReturnConsumedCapacity".
Definition RETURN_ITEM_COLL_METRICS := "ReturnItemCollectionMetrics".
Definition SEGMENT := "Segment".
Definition TOTAL_SEGMENTS := "TotalSegments".
Definition SELECT := "Select".
Definition EXPECTED := "Expected".
Definition EXISTS := "Exists".
Definition VALUE := "Value".
Definition ACTION := "Action".
Definition LIMIT := "Limit".
Definition ITEM := "Item".
Definition KEY := "Key".
Definition KEYS := "Keys".
Definition EQ := "EQ".

Definition DESCRIBE_TABLE := "DescribeTable".
Definition CREATE_TABLE := "CreateTable".
Definition UPDATE_ITEM := "UpdateItem".
Definition BATCH_WRITE_ITEM := "BatchWriteItem".
Definition SCAN := "Scan".
Definition QUERY := "Query".

Definition HTTP_OK : Z := 200.
Definition HTTP_BAD_REQUEST : Z := 400.

Definition RETURN_CONSUMED_CAPACITY_VALUES := ["INDEXES"; "TOTAL"; "NONE"].
Definition RETURN_VALUES_VALUES :=
  ["NONE"; "ALL_OLD"; "UPDATED_OLD"; "ALL_NEW"; "UPDATED_NEW"].
Definition RETURN_ITEM_COLL_METRICS_VALUES := ["SIZE"; "NONE"].
Definition ATTR_UPDATE_ACTIONS := ["PUT"; "ADD"; "DELETE"].
Definition SELECT_VALUES :=
  ["ALL_ATTRIBUTES"; "ALL_PROJECTED_ATTRIBUTES"; "SPECIFIC_ATTRIBUTES"; "COUNT"].
End Constants.
Import Constants.

(** A list of strings as a Python value, for the arguments of [format]. *)
Definition VStrs (l : list string) : value := VList (VStr <$> l).

(** ** Exceptions and computations *)

(** The message of an exception: the format string and the arguments of
    [format]. *)
Definition message : Type := string * list value.

Definition format (fmt : string) (args : list value) : message := (fmt, args).

Inductive exn : Type :=
| ValueError (m : message)
| TableError (m : message)
| UpdateError (m : message)
| PutError (m : message)
| ScanError (m : message)
| QueryError (m : message)
| AttributeError (m : message)
| TypeError (m : message).

Inductive result (A : Type) : Type :=
| Ok (a : A)
| Raise (e : exn).
Arguments Ok {A} a.
Arguments Raise {A} e.

(** A computation over an object of type [S] that returns or raises; what it
    did to the object before it raised stays done. *)
Definition St (S A : Type) : Type := S -> result A * S.

Definition ret {S A} (a : A) : St S A := fun s => (Ok a, s).

Definition raise {S A} (e : exn) : St S A := fun s => (Raise e, s).

Definition bind {S A B} (m : St S A) (k : A -> St S B) : St S B :=
  fun s =>
    match m s with
    | (Ok a, s') => k a s'
    | (Raise e, s') => (Raise e, s')
    end.

Definition lift {S A} (r : result A) : St S A := fun s => (r, s).

#[global] Instance St_bind {S} : MBind (St S) := fun A B k m => bind m k.

(** [for x in l: acc = body(acc, x)], left to right; a raise ends the loop. *)
Fixpoint for_each {S A B} (l : list A) (acc : B) (body : B -> A -> St S B)
  : St S B :=
  match l with
  | [] => ret acc
  | x :: l' => acc' ← body acc x; for_each l' acc' body
  end.

(** [for value in v]: a list gives its elements, a string its characters, a
    dict its keys; anything else is not iterable. *)
Definition iter (v : value) : result (list value) :=
  match v with
  | VList l => Ok l
  | VStr s => Ok ((fun c => VStr (String c EmptyString)) <$> list_ascii_of_string s)
  | VDict d => Ok ((fun kv => VStr kv.1) <$> map_to_list d)
  | _ => Raise (TypeError (format "object is not iterable" []))
  end.

(** ** Table metadata *)

Record KeySchemaElement := {
  ks_AttributeName : string;
  ks_KeyType : string
}.

Record AttributeDefinition := {
  ad_AttributeName : string;
  ad_AttributeType : string
}.

(** The [Table] entry of a DescribeTable response. *)
Record TableData := {
  TableName : string;
  KeySchema : list KeySchemaElement;
  AttributeDefinitions : list AttributeDefinition
}.

Record MetaTable := {
  data : TableData;
  _range_keyname : option string;
  _hash_keyname : option string
}.

Module MetaTableM.

(** [MetaTable.__init__] *)
Definition init (d : TableData) : MetaTable :=
  {| data := d; _range_keyname := None; _hash_keyname := None |}.

Definition set_range_keyname (self : MetaTable) (o : option string) : MetaTable :=
  {| data := data self; _range_keyname := o; _hash_keyname := _hash_keyname self |}.

Definition set_hash_keyname (self : MetaTable) (o : option string) : MetaTable :=
  {| data := data self; _range_keyname := _range_keyname self; _hash_keyname := o |}.

(** The loop of [range_keyname]: no [break], the last RANGE entry stays. *)
Fixpoint range_scan (l : list KeySchemaElement) (found : option string)
  : option string :=
  match l with
  | [] => found
  | attr :: l' =>
      if String.eqb (ks_KeyType attr) RANGE
      then range_scan l' (Some (ks_AttributeName attr))
      else range_scan l' found
  end.

(** The loop of [hash_keyname]: [break] at the first HASH entry. *)
Fixpoint hash_scan (l : list KeySchemaElement) (found : option string)
  : option string :=
  match l with
  | [] => found
  | attr :: l' =>
      if String.eqb (ks_KeyType attr) HASH
      then Some (ks_AttributeName attr)
      else hash_scan l' found
  end.

Definition range_keyname : St MetaTable (option string) :=
  fun self =>
    let self' :=
      match _range_keyname self with
      | None => set_range_keyname self (range_scan (KeySchema (data self)) None)
      | Some _ => self
      end in
    (Ok (_range_keyname self'), self').

Definition hash_keyname : St MetaTable (option string) :=
  fun self =>
    let self' :=
      match _hash_keyname self with
      | None => set_hash_keyname self (hash_scan (KeySchema (data self)) None)
      | Some _ => self
      end in
    (Ok (_hash_keyname self'), self').

Definition attr_names (self : MetaTable) : list string :=
  ad_AttributeName <$> AttributeDefinitions (data self).

Fixpoint find_type (l : list AttributeDefinition) (attribute_name : option string)
  : option string :=
  match l with
  | [] => None
  | attr :: l' =>
      if bool_decide (Some (ad_AttributeName attr) = attribute_name)
      then Some (ad_AttributeType attr)
      else find_type l' attribute_name
  end.

(** An argument of [format] that is [None] or a string. *)
Definition VName (o : option string) : value :=
  match o with
  | Some s => VStr s
  | None => VNone
  end.

(** [get_attribute_type]; the name is [None] when it is the name of a key
    that the table does not have. *)
Definition get_attribute_type (attribute_name : option string)
  : St MetaTable string :=
  fun self =>
    match find_type (AttributeDefinitions (data self)) attribute_name with
    | Some t => (Ok t, self)
    | None =>
        (Raise (ValueError (format "No attribute {0} in {1}"
                              [VName attribute_name; VStrs (attr_names self)])),
         self)
    end.

(** The key of a dict entry named by a key name. [get_attribute_type]
    raises on [None] before such an entry is built. *)
Definition key_of (o : option string) : string := str o.

Definition get_item_attribute_map (attributes : list (string * value))
    (item_key : string) (pythonic_key : bool) : St MetaTable dict :=
  let item_key := if pythonic_key then pythonic item_key else item_key in
  inner ← for_each attributes (∅ : dict) (fun inner kv =>
    match kv.2 with
    | VDict _ => ret (<[kv.1 := kv.2]> inner)
    | _ =>
        t ← get_attribute_type (Some kv.1);
        ret (<[kv.1 := VDict {[ t := kv.2 ]}]> inner)
    end);
  ret {[ item_key := VDict inner ]}.

Definition get_identifier_map (hash_key range_key : value) (key : string)
  : St MetaTable dict :=
  h ← hash_keyname;
  ht ← get_attribute_type h;
  let ident : dict := {[ key_of h := VDict {[ ht := hash_key ]} ]} in
  if truthy range_key then
    r ← range_keyname;
    rt ← get_attribute_type r;
    ret {[ pythonic key := VDict (<[key_of r := VDict {[ rt := range_key ]}]> ident) ]}
  else ret {[ pythonic key := VDict ident ]}.

Definition get_expected_map (expected : list (string * dict)) : St MetaTable dict :=
  inner ← for_each expected (∅ : dict) (fun inner kc =>
    let condition := kc.2 in
    if dict_in EXISTS condition then
      ret (<[kc.1 := VDict {[ EXISTS := dict_get condition EXISTS ]}]> inner)
    else if dict_in VALUE condition then
      t ← get_attribute_type (Some kc.1);
      ret (<[kc.1 := VDict {[ VALUE := VDict {[ t := dict_get condition VALUE ]} ]}]> inner)
    else ret inner);
  ret {[ pythonic EXPECTED := VDict inner ]}.

Definition get_exclusive_start_key_map (exclusive_start_key : value)
  : St MetaTable dict :=
  h ← hash_keyname;
  ht ← get_attribute_type h;
  ret {[ pythonic EXCLUSIVE_START_KEY :=
           VDict {[ key_of h := VDict {[ ht := exclusive_start_key ]} ]} ]}.

End MetaTableM.


(** ** The transport and the connection *)

(** What a call to the transport gives back, the pair [response, data] of
    the source: the response ([ok], [status_code], [content]) and the decoded
    data, [body]; [table_key] is [data.get(TABLE_KEY)], the table description
    in the data of a DescribeTable call. *)
Record response := {
  ok : bool;
  status_code : Z;
  content : string;
  body : value;
  table_key : TableData
}.

(** A request as the transport sees it: the operation name and the keyword
    arguments. *)
Definition call : Type := string * dict.

(** The connection: the cache [_tables] of table metadata, and [sent], the
    requests that its endpoint has received so far, oldest first. *)
Record Connection := {
  _tables : gmap string MetaTable;
  sent : list call
}.

(** [Connection.__init__] *)
Definition Connection_init : Connection := {| _tables := ∅; sent := [] |}.

(** [d.update(e)]: the entries of [e] replace those of [d]. *)
Definition dict_update (d e : dict) : dict := e ∪ d.

(** [a < b] on the keys of a sort. The keys sorted in this file are strings,
    compared character by character. *)
Definition value_ltb (a b : value) : bool :=
  match a, b with
  | VStr s, VStr t => String.ltb s t
  | VInt x, VInt y => x <? y
  | _, _ => false
  end.

Fixpoint insert_by {A} (key : A -> value) (x : A) (l : list A) : list A :=
  match l with
  | [] => [x]
  | y :: l' =>
      if value_ltb (key y) (key x) then y :: insert_by key x l'
      else x :: y :: l'
  end.

(** [sorted(l, key=key)]: the stable sort, by insertion from the right. *)
Fixpoint sorted {A} (l : list A) (key : A -> value) : list A :=
  match l with
  | [] => []
  | x :: l' => insert_by key x (sorted l' key)
  end.

(** [[{attr_type: value for value in values}]]: the value list that [scan]
    and [query] emit for a condition. The comprehension builds ONE dict, in
    which every value overwrites the one before under the key [attr_type]. *)
Definition attribute_value_list (attr_type : string) (values : value)
  : result value :=
  match iter values with
  | Ok l => Ok (VList [VDict (foldl (fun d v => <[attr_type := v]> d) (∅ : dict) l)])
  | Raise e => Raise e
  end.

(** An argument of [create_table]: an entry of [key_schema], whose
    [key_type] is [None] or a string. *)
Record KeySchemaArg := {
  attribute_name : value;
  key_type : option string
}.

(** The entry that [create_table] appends to [key_schema_list] for an entry
    [item] of [key_schema]. *)
Definition key_schema_entry (item : KeySchemaArg) : dict :=
  {[ ATTR_NAME := attribute_name item;
     KEY_TYPE := VStr (upper (str (key_type item))) ]}.

(** [get_consumed_capacity_map]; the message names
    [RETURN_ITEM_COLL_METRICS], as the source does. *)
Definition get_consumed_capacity_map (return_consumed_capacity : string)
  : result dict :=
  if negb (bool_decide (upper return_consumed_capacity ∈ RETURN_CONSUMED_CAPACITY_VALUES))
  then Raise (ValueError (format "{0} must be one of {1}"
                [VStr RETURN_ITEM_COLL_METRICS; VStrs RETURN_CONSUMED_CAPACITY_VALUES]))
  else Ok {[ pythonic RETURN_CONSUMED_CAPACITY := VStr (upper return_consumed_capacity) ]}.

(** [get_return_values_map] *)
Definition get_return_values_map (return_values : string) : result dict :=
  if negb (bool_decide (upper return_values ∈ RETURN_VALUES_VALUES))
  then Raise (ValueError (format "{0} must be one of {1}"
                [VStr RETURN_VALUES; VStrs RETURN_VALUES_VALUES]))
  else Ok {[ pythonic RETURN_VALUES := VStr (upper return_values) ]}.

(** [get_item_collection_map] *)
Definition get_item_collection_map (return_item_collection_metrics : string)
  : result dict :=
  if negb (bool_decide (upper return_item_collection_metrics ∈ RETURN_ITEM_COLL_METRICS_VALUES))
  then Raise (ValueError (format "{0} must be one of {1}"
                [VStr RETURN_ITEM_COLL_METRICS; VStrs RETURN_ITEM_COLL_METRICS_VALUES]))
  else Ok {[ pythonic RETURN_ITEM_COLL_METRICS := VStr (upper return_item_collection_metrics) ]}.

(** [if o: kwargs.update(f(o))] for an option [o] that is [None] or a
    string. *)
Definition update_if_str {S} (o : option string) (f : string -> result dict)
    (kwargs : dict) : St S dict :=
  if truthy_str o then d ← lift (f (str o)); ret (dict_update kwargs d)
  else ret kwargs.

(** [if v: kwargs[k] = v] *)
Definition set_if_truthy (k : string) (v : value) (kwargs : dict) : dict :=
  if truthy v then <[k := v]> kwargs else kwargs.

(** [if v is not None: kwargs[k] = v] *)
Definition set_if_not_None (k : string) (v : value) (kwargs : dict) : dict :=
  match v with
  | VNone => kwargs
  | _ => <[k := v]> kwargs
  end.

(** ** A table and transports to run the connection on *)
Module Stub.

(** A table [users] with hash key [pk] and range key [sk]. *)
Definition users : TableData :=
  {| TableName := "users";
     KeySchema := [ {| ks_AttributeName := "pk"; ks_KeyType := "HASH" |};
                    {| ks_AttributeName := "sk"; ks_KeyType := "RANGE" |} ];
     AttributeDefinitions :=
       [ {| ad_AttributeName := "pk"; ad_AttributeType := "S" |};
         {| ad_AttributeName := "sk"; ad_AttributeType := "S" |};
         {| ad_AttributeName := "age"; ad_AttributeType := "N" |} ] |}.

(** A table whose key schema has no HASH entry. *)
Definition no_hash : TableData :=
  {| TableName := "broken";
     KeySchema := [ {| ks_AttributeName := "sk"; ks_KeyType := "RANGE" |} ];
     AttributeDefinitions := [ {| ad_AttributeName := "sk"; ad_AttributeType := "S" |} ] |}.

(** The store answers every request with success and describes [users]. *)
Definition accept : list call -> string -> dict -> response :=
  fun _ _ _ =>
    {| ok := true; status_code := 200; content := ""; body := VDict ∅;
       table_key := users |}.

(** The store refuses every request with the given status. *)
Definition refuse (status : Z) : list call -> string -> dict -> response :=
  fun _ _ _ =>
    {| ok := false; status_code := status; content := "refused"; body := VNone;
       table_key := users |}.

(** A connection that has the metadata of [users] in its cache. *)
Definition warm : Connection :=
  {| _tables := {[ "users" := MetaTableM.init users ]}; sent := [] |}.

(** The comparison operators the spec names. *)
Definition operators : list string :=
  ["EQ"; "LE"; "LT"; "GE"; "GT"; "BEGINS_WITH"; "BETWEEN"].

(** The condition [BETWEEN a AND b], as a caller writes it. *)
Definition between_a_b : dict :=
  {[ COMPARISON_OPERATOR := VStr "BETWEEN";
     ATTR_VALUE_LIST := VList [VStr "a"; VStr "b"] ]}.


End Stub.

Section Connection.

(** The transport: what the endpoint answers to an operation and its
    keyword arguments, given the requests it has received before. *)
Variable transport : list call -> string -> dict -> response.

(** The comparison operators of a key condition and of a scan filter. *)
Variable COMPARISON_OPERATOR_VALUES : list string.
Variable SCAN_FILTER_VALUES : list string.

(** [operation.call(self.endpoint, **operation_kwargs)] *)
Definition operation_call (operation : string) (operation_kwargs : dict)
  : St Connection response :=
  fun self =>
    (Ok (transport (sent self) operation operation_kwargs),
     {| _tables := _tables self;
        sent := (sent self ++ [(operation, operation_kwargs)])%list |}).

(** [self._tables[table_name] = t] *)
Definition set_table (table_name : string) (t : MetaTable) : St Connection unit :=
  fun self =>
    (Ok tt, {| _tables := <[table_name := t]> (_tables self); sent := sent self |}).

Definition get_meta_table (table_name : string) (refresh : bool)
  : St Connection (option MetaTable) :=
  fun self =>
    match _tables self !! table_name, refresh with
    | Some t, false => (Ok (Some t), self)
    | _, _ =>
        (r ← operation_call DESCRIBE_TABLE {[ pythonic TABLE_NAME := VStr table_name ]};
         if negb (ok r) then
           if status_code r =? HTTP_BAD_REQUEST then ret None
           else raise (TableError (format "Unable to describe table: {0}"
                                     [VStr (content r)]))
         else
           let t := MetaTableM.init (table_key r) in
           set_table table_name t;; ret (Some t)) self
    end.

(** [self.get_meta_table(table_name).m(...)]: the method runs on the cached
    object, which keeps what the method memoized; on [None] the attribute
    access fails. *)
Definition on_meta_table {A} (table_name : string) (m : St MetaTable A)
  : St Connection A :=
  o ← get_meta_table table_name false;
  match o with
  | None => raise (AttributeError (format "'NoneType' object has no attribute" []))
  | Some t =>
      let (r, t') := m t in
      set_table table_name t';; lift r
  end.

Definition get_item_attribute_map (table_name : string)
    (attributes : list (string * value)) (item_key : string)
    (pythonic_key : bool) : St Connection dict :=
  on_meta_table table_name
    (MetaTableM.get_item_attribute_map attributes item_key pythonic_key).

Definition get_attribute_type (table_name : string)
    (attribute_name : option string) : St Connection string :=
  on_meta_table table_name (MetaTableM.get_attribute_type attribute_name).

Definition get_identifier_map (table_name : string) (hash_key range_key : value)
    (key : string) : St Connection dict :=
  on_meta_table table_name (MetaTableM.get_identifier_map hash_key range_key key).

Definition get_expected_map (table_name : string)
    (expected : list (string * dict)) : St Connection dict :=
  on_meta_table table_name (MetaTableM.get_expected_map expected).

Definition get_exclusive_start_key_map (table_name : string)
    (exclusive_start_key : value) : St Connection dict :=
  on_meta_table table_name
    (MetaTableM.get_exclusive_start_key_map exclusive_start_key).

(** [self.get_meta_table(table_name).hash_keyname] *)
Definition hash_keyname (table_name : string) : St Connection (option string) :=
  on_meta_table table_name MetaTableM.hash_keyname.

(** The items of a dict argument that may be [None]. *)
Definition items {A} (o : option (list A)) : list A := default [] o.

Definition create_table (table_name : string)
    (attribute_definitions : option (list dict))
    (key_schema : option (list KeySchemaArg))
    (read_capacity_units write_capacity_units : value)
    (global_secondary_indexes local_secondary_indexes : option (list dict))
  : St Connection value :=
  let operation_kwargs : dict :=
    {[ pythonic TABLE_NAME := VStr table_name;
       pythonic PROVISIONED_THROUGHPUT :=
         VDict {[ READ_CAPACITY_UNITS := read_capacity_units;
                  WRITE_CAPACITY_UNITS := write_capacity_units ]} ]} in
  match attribute_definitions with
  | None => raise (ValueError (format "attribute_definitions argument is required" []))
  | Some attribute_definitions =>
      let attrs_list :=
        (fun attr : dict =>
           VDict {[ ATTR_NAME := dict_get attr (pythonic ATTR_NAME);
                    ATTR_TYPE := dict_get attr (pythonic ATTR_TYPE) ]})
          <$> attribute_definitions in
      let operation_kwargs :=
        <[pythonic ATTR_DEFINITIONS := VList attrs_list]> operation_kwargs in
      let operation_kwargs :=
        if truthy_list global_secondary_indexes then
          <[pythonic GLOBAL_SECONDARY_INDEXES :=
              VList ((fun index : dict =>
                        VDict {[ INDEX_NAME := dict_get index (pythonic INDEX_NAME);
                                 KEY_SCHEMA := dict_get index (pythonic KEY_SCHEMA);
                                 PROJECTION := dict_get index (pythonic PROJECTION);
                                 PROVISIONED_THROUGHPUT :=
                                   dict_get index (pythonic PROVISIONED_THROUGHPUT) ]})
                       <$> items global_secondary_indexes)]> operation_kwargs
        else operation_kwargs in
      match key_schema with
      | None => raise (ValueError (format "key_schema is required" []))
      | Some key_schema =>
          let key_schema_list : list dict := key_schema_entry <$> key_schema in
          let operation_kwargs :=
            <[pythonic KEY_SCHEMA :=
                VList (VDict <$> sorted key_schema_list (fun x => dict_get x KEY_TYPE))]>
              operation_kwargs in
          let operation_kwargs :=
            if truthy_list local_secondary_indexes then
              <[pythonic LOCAL_SECONDARY_INDEXES :=
                  VList ((fun index : dict =>
                            VDict {[ INDEX_NAME := dict_get index (pythonic INDEX_NAME);
                                     KEY_SCHEMA := dict_get index (pythonic KEY_SCHEMA);
                                     PROJECTION := dict_get index (pythonic PROJECTION) ]})
                           <$> items local_secondary_indexes)]> operation_kwargs
            else operation_kwargs in
          r ← operation_call CREATE_TABLE operation_kwargs;
          if negb (status_code r =? HTTP_OK) then
            raise (TableError (format "Failed to create table: {0}" [VStr (content r)]))
          else ret (body r)
      end
  end.

Definition describe_table (table_name : string) : St Connection (option TableData) :=
  tbl ← get_meta_table table_name true;
  match tbl with
  | Some tbl => ret (Some (data tbl))
  | None => ret None
  end.

Definition update_item (table_name : string) (hash_key range_key : value)
    (attribute_updates expected : option (list (string * dict)))
    (return_consumed_capacity return_item_collection_metrics
       return_values : option string)
  : St Connection value :=
  let operation_kwargs : dict := {[ pythonic TABLE_NAME := VStr table_name ]} in
  ident ← get_identifier_map table_name hash_key range_key KEY;
  let operation_kwargs := dict_update operation_kwargs ident in
  operation_kwargs ←
    (if truthy_list expected then
       e ← get_expected_map table_name (items expected);
       ret (dict_update operation_kwargs e)
     else ret operation_kwargs);
  operation_kwargs ←
    update_if_str return_consumed_capacity get_consumed_capacity_map operation_kwargs;
  operation_kwargs ←
    update_if_str return_item_collection_metrics get_item_collection_map operation_kwargs;
  operation_kwargs ←
    update_if_str return_values get_return_values_map operation_kwargs;
  if negb (truthy_list attribute_updates) then
    raise (ValueError (format "{0} cannot be empty" [VStr ATTR_UPDATES]))
  else
    updates ← for_each (items attribute_updates) (∅ : dict) (fun updates ku =>
      attr_type ← get_attribute_type table_name (Some ku.1);
      let action := dict_get ku.2 ACTION in
      if negb (value_in action ATTR_UPDATE_ACTIONS) then
        raise (ValueError (format "{0} must be one of {1}"
                             [VStr ACTION; VStrs ATTR_UPDATE_ACTIONS]))
      else
        ret (<[ku.1 := VDict {[ ACTION := action;
                                VALUE := VDict {[ attr_type := dict_get ku.2 VALUE ]} ]}]>
               updates));
    let operation_kwargs :=
      <[pythonic ATTR_UPDATES := VDict updates]> operation_kwargs in
    r ← operation_call UPDATE_ITEM operation_kwargs;
    if negb (ok r) then
      raise (UpdateError (format "Failed to update item: {0}" [VStr (content r)]))
    else ret (body r).

Definition batch_write_item (table_name : string)
    (put_items delete_items : option (list (list (string * value))))
    (return_consumed_capacity return_item_collection_metrics : option string)
  : St Connection value :=
  match put_items, delete_items with
  | None, None =>
      raise (ValueError (format "Either put_items or delete_items must be specified" []))
  | _, _ =>
      let operation_kwargs : dict :=
        {[ pythonic REQUEST_ITEMS := VDict {[ table_name := VList [] ]} ]} in
      operation_kwargs ←
        update_if_str return_consumed_capacity get_consumed_capacity_map operation_kwargs;
      operation_kwargs ←
        update_if_str return_item_collection_metrics get_item_collection_map operation_kwargs;
      put_items_list ←
        (if truthy_list put_items then
           for_each (items put_items) [] (fun put_items_list item =>
             m ← get_item_attribute_map table_name item ITEM false;
             ret (put_items_list ++ [VDict {[ PUT_REQUEST := VDict m ]}])%list)
         else ret []);
      delete_items_list ←
        (if truthy_list delete_items then
           for_each (items delete_items) [] (fun delete_items_list item =>
             m ← get_item_attribute_map table_name item KEY false;
             ret (delete_items_list ++ [VDict {[ DELETE_REQUEST := VDict m ]}])%list)
         else ret []);
      let operation_kwargs :=
        <[pythonic REQUEST_ITEMS :=
            VDict {[ table_name := VList (delete_items_list ++ put_items_list)%list ]}]>
          operation_kwargs in
      r ← operation_call BATCH_WRITE_ITEM operation_kwargs;
      if negb (ok r) then
        raise (PutError (format "Failed to batch write items: {0}" [VStr (content r)]))
      else ret (body r)
  end.

(** The body of the loop over a scan filter or over key conditions: the
    entry for attribute [key], checked against the operators [allowed]. *)
Definition condition_entry (allowed : list string) (table_name : string)
    (conditions : dict) (kc : string * dict) : St Connection dict :=
  let condition := kc.2 in
  attr_type ← get_attribute_type table_name (Some kc.1);
  let operator := dict_get condition COMPARISON_OPERATOR in
  if negb (value_in operator allowed) then
    raise (ValueError (format "{0} must be one of {1}"
                         [VStr COMPARISON_OPERATOR; VStrs allowed]))
  else
    avl ← lift (attribute_value_list attr_type (dict_get condition ATTR_VALUE_LIST));
    ret (<[kc.1 := VDict {[ ATTR_VALUE_LIST := avl;
                            COMPARISON_OPERATOR := operator ]}]> conditions).

Definition scan (table_name : string) (attributes_to_get limit : value)
    (scan_filter : option (list (string * dict)))
    (return_consumed_capacity : option string)
    (exclusive_start_key segment total_segments : value)
  : St Connection value :=
  let operation_kwargs : dict := {[ pythonic TABLE_NAME := VStr table_name ]} in
  let operation_kwargs :=
    set_if_not_None (pythonic ATTRS_TO_GET) attributes_to_get operation_kwargs in
  let operation_kwargs := set_if_truthy (pythonic LIMIT) limit operation_kwargs in
  operation_kwargs ←
    update_if_str return_consumed_capacity get_consumed_capacity_map operation_kwargs;
  operation_kwargs ←
    (if truthy exclusive_start_key then
       e ← get_exclusive_start_key_map table_name exclusive_start_key;
       ret (dict_update operation_kwargs e)
     else ret operation_kwargs);
  let operation_kwargs := set_if_truthy (pythonic SEGMENT) segment operation_kwargs in
  let operation_kwargs :=
    set_if_truthy (pythonic TOTAL_SEGMENTS) total_segments operation_kwargs in
  operation_kwargs ←
    (if truthy_list scan_filter then
       f ← for_each (items scan_filter) (∅ : dict)
             (condition_entry SCAN_FILTER_VALUES table_name);
       ret (<[pythonic SCAN_FILTER := VDict f]> operation_kwargs)
     else ret operation_kwargs);
  r ← operation_call SCAN operation_kwargs;
  if negb (ok r) then
    raise (ScanError (format "Failed to scan table: {0}" [VStr (content r)]))
  else ret (body r).

Definition query (table_name : string) (hash_key attributes_to_get
    consistent_read exclusive_start_key index_name : value)
    (key_conditions : option (list (string * dict))) (limit : value)
    (return_consumed_capacity : option string) (scan_index_forward : value)
    (select : option string)
  : St Connection value :=
  let operation_kwargs : dict := {[ pythonic TABLE_NAME := VStr table_name ]} in
  let operation_kwargs :=
    set_if_truthy (pythonic ATTRS_TO_GET) attributes_to_get operation_kwargs in
  let operation_kwargs :=
    if truthy consistent_read
    then <[pythonic CONSISTENT_READ := VBool true]> operation_kwargs
    else operation_kwargs in
  operation_kwargs ←
    (if truthy exclusive_start_key then
       e ← get_exclusive_start_key_map table_name exclusive_start_key;
       ret (dict_update operation_kwargs e)
     else ret operation_kwargs);
  let operation_kwargs := set_if_truthy (pythonic INDEX_NAME) index_name operation_kwargs in
  let operation_kwargs := set_if_truthy (pythonic LIMIT) limit operation_kwargs in
  operation_kwargs ←
    update_if_str return_consumed_capacity get_consumed_capacity_map operation_kwargs;
  operation_kwargs ←
    (if truthy_str select then
       if negb (bool_decide (upper (str select) ∈ SELECT_VALUES)) then
         raise (ValueError (format "{0} must be one of {1}"
                              [VStr SELECT; VStrs SELECT_VALUES]))
       else ret (<[pythonic SELECT := VStr (upper (str select))]> operation_kwargs)
     else ret operation_kwargs);
  let operation_kwargs :=
    set_if_not_None (pythonic SCAN_INDEX_FORWARD) scan_index_forward operation_kwargs in
  hash_keyname ← hash_keyname table_name;
  hash_type ← get_attribute_type table_name hash_keyname;
  let conditions : dict :=
    {[ MetaTableM.key_of hash_keyname :=
         VDict {[ ATTR_VALUE_LIST := VList [VDict {[ hash_type := hash_key ]}];
                  COMPARISON_OPERATOR := VStr EQ ]} ]} in
  conditions ←
    (if truthy_list key_conditions then
       for_each (items key_conditions) conditions
         (condition_entry COMPARISON_OPERATOR_VALUES table_name)
     else ret conditions);
  let operation_kwargs :=
    <[pythonic KEY_CONDITIONS := VDict conditions]> operation_kwargs in
  r ← operation_call QUERY operation_kwargs;
  if negb (ok r) then
    raise (QueryError (format "Failed to query items: {0}" [VStr (content r)]))
  else ret (body r).

End Connection.

(** ** The other operations of the connection *)

(** Modelled from the spec: further names of [pynamodb.constants], which is
    not among the sources; again the wire names of the store's protocol. *)
Module OperationNames.
Definition DELETE_TABLE := "DeleteTable".
Definition UPDATE_TABLE := "UpdateTable".
Definition LIST_TABLES := "ListTables".
Definition GET_ITEM := "GetItem".
Definition PUT_ITEM := "PutItem".
Definition DELETE_ITEM := "DeleteItem".
Definition BATCH_GET_ITEM := "BatchGetItem".
Definition UPDATE := "Update".
Definition EXCLUSIVE_START_TABLE_NAME := "ExclusiveStartTableName".
Definition GLOBAL_SECONDARY_INDEX_UPDATES := "GlobalSecondaryIndexUpdates".
End OperationNames.
Import OperationNames.

Section Operations.

Variable transport : list call -> string -> dict -> response.

(** The exception classes [DeleteError] and [GetError] of
    [pynamodb.connection.exceptions], which is not among the sources: each
    builds an exception from a message. *)
Variable DeleteError : message -> exn.
Variable GetError : message -> exn.

Definition delete_table (table_name : string) : St Connection unit :=
  let operation_kwargs : dict := {[ pythonic TABLE_NAME := VStr table_name ]} in
  r ← operation_call transport DELETE_TABLE operation_kwargs;
  if negb (status_code r =? HTTP_OK) then
    raise (TableError (format "Failed to delete table: {0}" [VStr (content r)]))
  else ret tt.

Definition update_table (table_name : string)
    (read_capacity_units write_capacity_units : value)
    (global_secondary_index_updates : option (list dict))
  : St Connection unit :=
  let operation_kwargs : dict := {[ pythonic TABLE_NAME := VStr table_name ]} in
  if (truthy read_capacity_units && negb (truthy write_capacity_units))
     || (truthy write_capacity_units && negb (truthy read_capacity_units))
  then
    raise (ValueError (format
             "read_capacity_units and write_capacity_units are required together" []))
  else
    let operation_kwargs :=
      if truthy read_capacity_units && truthy write_capacity_units then
        <[pythonic PROVISIONED_THROUGHPUT :=
            VDict {[ READ_CAPACITY_UNITS := read_capacity_units;
                     WRITE_CAPACITY_UNITS := write_capacity_units ]}]> operation_kwargs
      else operation_kwargs in
    let operation_kwargs :=
      if truthy_list global_secondary_index_updates then
        <[pythonic GLOBAL_SECONDARY_INDEX_UPDATES :=
            VList ((fun index : dict =>
                      VDict {[ UPDATE :=
                        VDict {[ INDEX_NAME := dict_get index (pythonic INDEX_NAME);
                                 PROVISIONED_THROUGHPUT :=
                                   VDict {[ READ_CAPACITY_UNITS :=
                                              dict_get index (pythonic READ_CAPACITY_UNITS);
                                            WRITE_CAPACITY_UNITS :=
                                              dict_get index (pythonic WRITE_CAPACITY_UNITS) ]} ]} ]})
                     <$> items global_secondary_index_updates)]> operation_kwargs
      else operation_kwargs in
    r ← operation_call transport UPDATE_TABLE operation_kwargs;
    if negb (ok r) then
      raise (TableError (format "Failed to update table: {0}" [VStr (content r)]))
    else ret tt.

Definition list_tables (exclusive_start_table_name limit : value)
  : St Connection value :=
  let operation_kwargs : dict := ∅ in
  let operation_kwargs :=
    set_if_truthy (pythonic EXCLUSIVE_START_TABLE_NAME) exclusive_start_table_name
      operation_kwargs in
  let operation_kwargs := set_if_truthy (pythonic LIMIT) limit operation_kwargs in
  r ← operation_call transport LIST_TABLES operation_kwargs;
  if negb (ok r) then
    raise (TableError (format "Unable to list tables: {0}" [VStr (content r)]))
  else ret (body r).

Definition delete_item (table_name : string) (hash_key range_key : value)
    (expected : option (list (string * dict)))
    (return_values return_consumed_capacity
       return_item_collection_metrics : option string)
  : St Connection value :=
  let operation_kwargs : dict := {[ pythonic TABLE_NAME := VStr table_name ]} in
  ident ← get_identifier_map transport table_name hash_key range_key KEY;
  let operation_kwargs := dict_update operation_kwargs ident in
  operation_kwargs ←
    (if truthy_list expected then
       e ← get_expected_map transport table_name (items expected);
       ret (dict_update operation_kwargs e)
     else ret operation_kwargs);
  operation_kwargs ←
    update_if_str return_values get_return_values_map operation_kwargs;
  operation_kwargs ←
    update_if_str return_consumed_capacity get_consumed_capacity_map operation_kwargs;
  operation_kwargs ←
    update_if_str return_item_collection_metrics get_item_collection_map operation_kwargs;
  r ← operation_call transport DELETE_ITEM operation_kwargs;
  if negb (ok r) then
    raise (DeleteError (format "Failed to delete item: {0}" [VStr (content r)]))
  else ret (body r).

(** [operation_kwargs[pythonic(ITEM)].update(attrs[pythonic(ITEM)])]: both
    are the dicts that the two maps were built with. *)
Definition merge_item (operation_kwargs attrs : dict) : St Connection dict :=
  match dict_get operation_kwargs (pythonic ITEM), dict_get attrs (pythonic ITEM) with
  | VDict item, VDict a =>
      ret (<[pythonic ITEM := VDict (dict_update item a)]> operation_kwargs)
  | _, _ => raise (AttributeError (format "object has no attribute 'update'" []))
  end.

Definition put_item (table_name : string) (hash_key range_key : value)
    (attributes : option (list (string * value)))
    (expected : option (list (string * dict)))
    (return_values return_consumed_capacity
       return_item_collection_metrics : option string)
  : St Connection value :=
  let operation_kwargs : dict := {[ pythonic TABLE_NAME := VStr table_name ]} in
  ident ← get_identifier_map transport table_name hash_key range_key ITEM;
  let operation_kwargs := dict_update operation_kwargs ident in
  operation_kwargs ←
    (if truthy_list attributes then
       attrs ← get_item_attribute_map transport table_name (items attributes) ITEM true;
       merge_item operation_kwargs attrs
     else ret operation_kwargs);
  operation_kwargs ←
    update_if_str return_consumed_capacity get_consumed_capacity_map operation_kwargs;
  operation_kwargs ←
    update_if_str return_item_collection_metrics get_item_collection_map operation_kwargs;
  operation_kwargs ←
    update_if_str return_values get_return_values_map operation_kwargs;
  operation_kwargs ←
    (if truthy_list expected then
       e ← get_expected_map transport table_name (items expected);
       ret (dict_update operation_kwargs e)
     else ret operation_kwargs);
  r ← operation_call transport PUT_ITEM operation_kwargs;
  if negb (ok r) then
    raise (PutError (format "Failed to put item: {0}" [VStr (content r)]))
  else ret (body r).

Definition batch_get_item (table_name : string)
    (keys : list (list (string * value))) (consistent_read : value)
    (return_consumed_capacity : option string) (attributes_to_get : value)
  : St Connection value :=
  let operation_kwargs : dict :=
    {[ pythonic REQUEST_ITEMS := VDict {[ table_name := VDict ∅ ]} ]} in
  let args_map : dict :=
    set_if_truthy (pythonic CONSISTENT_READ) consistent_read ∅ in
  operation_kwargs ←
    update_if_str return_consumed_capacity get_consumed_capacity_map operation_kwargs;
  let args_map := set_if_not_None (pythonic ATTRS_TO_GET) attributes_to_get args_map in
  keys_list ← for_each keys [] (fun keys_list key =>
    m ← get_item_attribute_map transport table_name key ITEM true;
    ret (keys_list ++ [dict_get m (pythonic ITEM)])%list);
  let operation_kwargs :=
    <[pythonic REQUEST_ITEMS :=
        VDict {[ table_name := VDict (<[KEYS := VList keys_list]> args_map) ]}]>
      operation_kwargs in
  r ← operation_call transport BATCH_GET_ITEM operation_kwargs;
  if negb (ok r) then
    raise (GetError (format "Failed to batch get items: {0}" [VStr (content r)]))
  else ret (body r).

Definition get_item (table_name : string) (hash_key range_key consistent_read
    attributes_to_get : value) : St Connection value :=
  let operation_kwargs : dict := ∅ in
  let operation_kwargs :=
    set_if_not_None (pythonic ATTRS_TO_GET) attributes_to_get operation_kwargs in
  let operation_kwargs :=
    <[pythonic CONSISTENT_READ := consistent_read]> operation_kwargs in
  let operation_kwargs :=
    <[pythonic TABLE_NAME := VStr table_name]> operation_kwargs in
  ident ← get_identifier_map transport table_name hash_key range_key KEY;
  let operation_kwargs := dict_update operation_kwargs ident in
  r ← operation_call transport GET_ITEM operation_kwargs;
  if negb (ok r) then
    raise (GetError (format "Failed to get item: {0}" [VStr (content r)]))
  else ret (body r).

End Operations.

(** * What the properties are stated with *)

(** What a computation can raise. *)
Definition raises_only {S A} (E : exn -> Prop) (m : St S A) : Prop :=
  forall s e, (m s).1 = Raise e -> E e.

(** [run Inv Sent Err m Q]: from a connection that satisfies the invariant
    [Inv], [m] ends in one that does, has sent only requests that satisfy
    [Sent], and has returned a value that satisfies [Q] or raised an
    exception that satisfies [Err]. *)
Definition run (Inv : Connection -> Prop) (Sent : call -> Prop) (Err : exn -> Prop)
    {A} (m : St Connection A) (Q : A -> Prop) : Prop :=
  forall s, Inv s ->
    Inv (m s).2
    /\ (exists new, sent (m s).2 = (sent s ++ new)%list /\ Forall Sent new)
    /\ match (m s).1 with Ok a => Q a | Raise e => Err e end.

(** What a run needs of a table whose metadata may have to be fetched: when
    the invariant does not keep it in the cache, the DescribeTable request
    and the two failures of the fetch are within [Sent] and [Err]. *)
Definition may_fetch (Inv : Connection -> Prop) (Sent : call -> Prop)
    (Err : exn -> Prop) (table_name : string) : Prop :=
  (forall s, Inv s -> is_Some (_tables s !! table_name))
  \/ (Sent (DESCRIBE_TABLE, {[ pythonic TABLE_NAME := VStr table_name ]})
      /\ (forall m, Err (TableError m))
      /\ (forall m, Err (AttributeError m))).

(** The only exception of a method of [MetaTable]: an attribute that the
    table does not declare. *)
Definition no_attribute (e : exn) : Prop :=
  exists args, e = ValueError (format "No attribute {0} in {1}" args).

(** The exception of an option map for a value that is not allowed. *)
Definition must_be_one_of (e : exn) : Prop :=
  exists args, e = ValueError (format "{0} must be one of {1}" args).

Definition is_ValueError (e : exn) : Prop := exists m, e = ValueError m.

(** The exception of [batch_write_item] for arguments left out. *)
Definition unspecified : exn :=
  ValueError (format "Either put_items or delete_items must be specified" []).

Definition specified (e : exn) : Prop := e ≠ unspecified.



Definition any_error (_ : exn) : Prop := True.

(** The metadata of [table_name] is in the cache. *)
Definition cached (table_name : string) (s : Connection) : Prop :=
  is_Some (_tables s !! table_name).

Definition anywhere (_ : Connection) : Prop := True.

Definition nothing (_ : call) : Prop := False.

Definition anything (_ : call) : Prop := True.




(** An entry of a key schema with the given role. *)
Definition is_role (role : string) (item : KeySchemaArg) : Prop :=
  key_type item = Some role.

#[global] Instance is_role_dec role item : Decision (is_role role item) :=
  decide (key_type item = Some role).

(** No entry of the list comes after an entry of a greater role. *)
Definition role_ascending (out : list dict) : Prop :=
  StronglySorted
    (fun a b => value_ltb (dict_get b KEY_TYPE) (dict_get a KEY_TYPE) = false) out.


Ltac not_in_list :=
  let H := fresh "H" in
  intros H; repeat (apply elem_of_cons in H as [H|H]; [discriminate H|]);
  apply elem_of_nil in H; exact H.

(** The key names that a table has memoized are those of its key schema. *)
Definition consistent (t : MetaTable) : Prop :=
  (forall h, _hash_keyname t = Some h ->
             MetaTableM.hash_scan (KeySchema (data t)) None = Some h)
  /\ (forall r, _range_keyname t = Some r ->
                MetaTableM.range_scan (KeySchema (data t)) None = Some r).

(** A table object for the description [d], in whatever state of its
    memory. *)
Definition describes_table (d : TableData) (t : MetaTable) : Prop :=
  consistent t /\ data t = d.

(** What a computation keeps. *)
Definition keeps {S A} (P : S -> Prop) (m : St S A) : Prop :=
  forall s, P s -> P (m s).2.

(** The declared type of an attribute, if it is declared. *)
Definition declared_type (self : MetaTable) (name : string) : option string :=
  MetaTableM.find_type (AttributeDefinitions (data self)) (Some name).

(** The entry of an item attribute map for an attribute: a dict as it is,
    another value under its declared type. *)
Definition tagged (self : MetaTable) (kv : string * value) : option value :=
  match kv.2 with
  | VDict _ => Some kv.2
  | v => (fun t => VDict {[ t := v ]}) <$> declared_type self kv.1
  end.

(** A value that is a dict. *)
Definition is_dict (v : value) : Prop := exists d, v = VDict d.

(** The entry of an expected map for a condition, if it has one; [None] for
    a condition on the value of an attribute that is not declared. *)
Definition expectation (self : MetaTable) (kc : string * dict)
  : option (option value) :=
  if dict_in EXISTS kc.2 then
    Some (Some (VDict {[ EXISTS := dict_get kc.2 EXISTS ]}))
  else if dict_in VALUE kc.2 then
    (fun t => Some (VDict {[ VALUE := VDict {[ t := dict_get kc.2 VALUE ]} ]}))
      <$> declared_type self kc.1
  else Some None.

(** A request of a batch: [{tag: {...}}]. *)
Definition tagged_request (tag : string) (v : value) : Prop :=
  exists m, v = VDict {[ tag := VDict m ]}.

(** The keyword arguments of a BatchWriteItem request for a table: [nd]
    delete requests, then [np] put requests. *)
Definition deletes_then_puts (table_name : string) (nd np : nat) (kwargs : dict)
  : Prop :=
  exists D P : list value,
    lookup_path [pythonic REQUEST_ITEMS; table_name] (VDict kwargs)
    = Some (VList (D ++ P)%list)
    /\ length D = nd /\ length P = np
    /\ Forall (tagged_request DELETE_REQUEST) D
    /\ Forall (tagged_request PUT_REQUEST) P.

(** A request that describes a table, or a request for [operation] whose
    keyword arguments satisfy [P]. *)
Definition sends_only (operation : string) (P : dict -> Prop) (c : call) : Prop :=
  c.1 = DESCRIBE_TABLE \/ (c.1 = operation /\ P c.2).

(** A condition whose operator is not, as it is written, one of the allowed
    operators. *)
Definition bad_operator (allowed : list string) (kc : string * dict) : Prop :=
  value_in (dict_get kc.2 COMPARISON_OPERATOR) allowed = false.

(** The entries of the [attribute_updates] of an UpdateItem request: each is
    [{Action: a, Value: {type: value}}] with an allowed action [a]. *)
Definition allowed_updates (updates : dict) : Prop :=
  forall k v, updates !! k = Some v ->
    exists a t x,
      v = VDict {[ ACTION := VStr a; VALUE := VDict {[ t := x ]} ]}
      /\ a ∈ ATTR_UPDATE_ACTIONS.

Definition carries_allowed_updates (kwargs : dict) : Prop :=
  exists updates,
    kwargs !! pythonic ATTR_UPDATES = Some (VDict updates)
    /\ allowed_updates updates.

Definition never (_ : dict) : Prop := False.

(** The keyword arguments of a BatchGetItem request for a table: [n] keys
    under [Keys]. *)
Definition carries_keys (table_name : string) (n : nat) (kwargs : dict) : Prop :=
  exists ks : list value,
    lookup_path [pythonic REQUEST_ITEMS; table_name; KEYS] (VDict kwargs)
    = Some (VList ks)
    /\ length ks = n.






(** * Properties *)

(** ** Table metadata *)

Section MetaTableFacts.

Import MetaTableM.

Lemma hash_scan_first (pre post : list KeySchemaElement) (e : KeySchemaElement)
    (found : option string) :
  Forall (fun x => ks_KeyType x ≠ HASH) pre ->
  ks_KeyType e = HASH ->
  hash_scan (pre ++ e :: post) found = Some (ks_AttributeName e).
Proof.
  intros Hpre He. induction Hpre as [|x pre Hx _ IH]; simpl.
  - rewrite He. reflexivity.
  - destruct (String.eqb_spec (ks_KeyType x) HASH) as [Heq|_]; [contradiction|].
    exact IH.
Qed.

Lemma hash_scan_none (l : list KeySchemaElement) (found : option string) :
  Forall (fun x => ks_KeyType x ≠ HASH) l ->
  hash_scan l found = found.
Proof.
  induction 1 as [|x l Hx _ IH]; simpl; [reflexivity|].
  destruct (String.eqb_spec (ks_KeyType x) HASH) as [Heq|_]; [contradiction|].
  exact IH.
Qed.

Lemma find_type_first (pre post : list AttributeDefinition)
    (a : AttributeDefinition) :
  ad_AttributeName a ∉ ad_AttributeName <$> pre ->
  find_type (pre ++ a :: post) (Some (ad_AttributeName a)) = Some (ad_AttributeType a).
Proof.
  induction pre as [|x pre IH]; cbn [find_type app fmap list_fmap]; intros Hpre.
  - rewrite bool_decide_eq_true_2; reflexivity.
  - rewrite bool_decide_eq_false_2.
    + apply IH. intros Hin. apply Hpre. right. exact Hin.
    + intros [= Heq]. apply Hpre. rewrite Heq. left.
Qed.

Lemma find_type_absent (l : list AttributeDefinition) (name : string) :
  name ∉ ad_AttributeName <$> l ->
  find_type l (Some name) = None.
Proof.
  induction l as [|x l IH]; cbn [find_type fmap list_fmap]; intros Hl; [reflexivity|].
  rewrite bool_decide_eq_false_2.
  - apply IH. intros Hin. apply Hl. right. exact Hin.
  - intros [= Heq]. apply Hl. rewrite Heq. left.
Qed.

Lemma find_type_None (l : list AttributeDefinition) :
  find_type l None = None.
Proof.
  induction l as [|x l IH]; cbn [find_type]; [reflexivity|].
  rewrite bool_decide_eq_false_2 by discriminate. exact IH.
Qed.

(** C2, as the code has it: on a table whose key schema has a HASH entry,
    [hash_keyname] returns the attribute name of the first such entry; on a
    table whose key schema has no HASH entry it returns [None], and raises
    nothing. In both cases the object remembers the answer. *)
Theorem hash_keyname_first_HASH_or_None (d : TableData) :
  (forall (pre post : list KeySchemaElement) (e : KeySchemaElement),
      KeySchema d = (pre ++ e :: post)%list ->
      Forall (fun x => ks_KeyType x ≠ HASH) pre ->
      ks_KeyType e = HASH ->
      hash_keyname (init d)
      = (Ok (Some (ks_AttributeName e)),
         set_hash_keyname (init d) (Some (ks_AttributeName e))))
  /\ (Forall (fun x => ks_KeyType x ≠ HASH) (KeySchema d) ->
      hash_keyname (init d) = (Ok None, init d)).
Proof.
  split.
  - intros pre post e Hks Hpre He.
    unfold hash_keyname; simpl. rewrite Hks.
    rewrite (hash_scan_first pre post e None Hpre He). reflexivity.
  - intros Hno. unfold hash_keyname; simpl.
    rewrite (hash_scan_none _ None Hno). reflexivity.
Qed.

(** C6: for a name that the attribute definitions do not declare,
    [get_attribute_type] raises the [ValueError] whose message is made of
    the name and of the list of the declared names, in their order; for a
    declared name it returns the type of its (first) declaration. *)
Theorem get_attribute_type_declared_or_error (self : MetaTable) (name : string) :
  (name ∉ attr_names self ->
   get_attribute_type (Some name) self
   = (Raise (ValueError (format "No attribute {0} in {1}"
                           [VStr name; VStrs (attr_names self)])), self))
  /\ (forall (pre post : list AttributeDefinition) (a : AttributeDefinition),
         AttributeDefinitions (data self) = (pre ++ a :: post)%list ->
         ad_AttributeName a = name ->
         name ∉ ad_AttributeName <$> pre ->
         get_attribute_type (Some name) self = (Ok (ad_AttributeType a), self)).
Proof.
  split.
  - intros Habs. unfold get_attribute_type.
    rewrite (find_type_absent _ _ Habs). reflexivity.
  - intros pre post a Hdefs <- Hpre. unfold get_attribute_type.
    rewrite Hdefs, (find_type_first pre post a Hpre). reflexivity.
Qed.

End MetaTableFacts.

(** C2, witness: [users] has its HASH entry first; [no_hash] has none. *)
Lemma hash_keyname_first_HASH_or_None_witness :
  MetaTableM.hash_keyname (MetaTableM.init Stub.users)
  = (Ok (Some "pk"), MetaTableM.set_hash_keyname (MetaTableM.init Stub.users) (Some "pk"))
  /\ MetaTableM.hash_keyname (MetaTableM.init Stub.no_hash)
     = (Ok None, MetaTableM.init Stub.no_hash).
Proof.
  split.
  - apply (proj1 (hash_keyname_first_HASH_or_None Stub.users)
             [] [ {| ks_AttributeName := "sk"; ks_KeyType := "RANGE" |} ]
             {| ks_AttributeName := "pk"; ks_KeyType := "HASH" |}).
    + reflexivity.
    + constructor.
    + reflexivity.
  - apply (proj2 (hash_keyname_first_HASH_or_None Stub.no_hash)).
    repeat constructor. discriminate.
Defined.

(** C2, as the spec has it, fails: the key schema of [no_hash] has no HASH
    entry, and [hash_keyname] returns [None] where the spec wants an
    error. *)
Lemma hash_keyname_without_HASH_returns_None :
  Forall (fun x => ks_KeyType x ≠ HASH) (KeySchema Stub.no_hash)
  /\ (MetaTableM.hash_keyname (MetaTableM.init Stub.no_hash)).1 = Ok None
  /\ ~ (exists e, (MetaTableM.hash_keyname (MetaTableM.init Stub.no_hash)).1 = Raise e).
Proof.
  split; [|split].
  - repeat constructor. discriminate.
  - reflexivity.
  - intros [e He]. discriminate He.
Qed.

(** C6, witness: [color] is not declared in [users], [age] is, as a
    number. *)
Lemma get_attribute_type_declared_or_error_witness :
  MetaTableM.get_attribute_type (Some "color") (MetaTableM.init Stub.users)
  = (Raise (ValueError (format "No attribute {0} in {1}"
                          [VStr "color"; VStrs ["pk"; "sk"; "age"]])),
     MetaTableM.init Stub.users)
  /\ MetaTableM.get_attribute_type (Some "age") (MetaTableM.init Stub.users)
     = (Ok "N", MetaTableM.init Stub.users).
Proof.
  split.
  - apply (proj1 (get_attribute_type_declared_or_error
                    (MetaTableM.init Stub.users) "color")).
    vm_compute. intros H. repeat (apply elem_of_cons in H as [H|H]; [discriminate H|]).
    apply elem_of_nil in H. exact H.
  - apply (proj2 (get_attribute_type_declared_or_error
                    (MetaTableM.init Stub.users) "age")
             [ {| ad_AttributeName := "pk"; ad_AttributeType := "S" |};
               {| ad_AttributeName := "sk"; ad_AttributeType := "S" |} ]
             []
             {| ad_AttributeName := "age"; ad_AttributeType := "N" |}).
    + reflexivity.
    + reflexivity.
    + vm_compute. intros H. repeat (apply elem_of_cons in H as [H|H]; [discriminate H|]).
      apply elem_of_nil in H. exact H.
Defined.

(** ** Runs of the connection *)

Lemma raises_only_ret {S A} (E : exn -> Prop) (a : A) :
  raises_only E (ret a : St S A).
Proof. intros s e H. discriminate H. Qed.

Lemma raises_only_bind {S A B} (E : exn -> Prop) (m : St S A) (k : A -> St S B) :
  raises_only E m -> (forall a, raises_only E (k a)) ->
  raises_only E (m ≫= k).
Proof.
  intros Hm Hk s e. unfold mbind, St_bind, bind.
  specialize (Hm s). destruct (m s) as [[a|e'] s']; simpl in *.
  - apply Hk.
  - intros [= <-]. apply Hm. reflexivity.
Qed.

Lemma raises_only_for_each {S A B} (E : exn -> Prop) (l : list A) (acc : B)
    (body : B -> A -> St S B) :
  (forall acc x, raises_only E (body acc x)) ->
  raises_only E (for_each l acc body).
Proof.
  intros Hbody. revert acc. induction l as [|x l IH]; intros acc; simpl.
  - apply raises_only_ret.
  - apply raises_only_bind; [apply Hbody | intros a; apply IH].
Qed.

Section MetaTableRaises.

Import MetaTableM.

Lemma raises_hash_keyname : raises_only no_attribute hash_keyname.
Proof. intros s e H. discriminate H. Qed.

Lemma raises_range_keyname : raises_only no_attribute range_keyname.
Proof. intros s e H. discriminate H. Qed.

Lemma raises_get_attribute_type (o : option string) :
  raises_only no_attribute (get_attribute_type o).
Proof.
  intros s e. unfold get_attribute_type.
  destruct (find_type _ _); simpl; [discriminate|].
  intros [= <-]. eexists. reflexivity.
Qed.

Lemma raises_get_item_attribute_map attributes item_key pythonic_key :
  raises_only no_attribute (get_item_attribute_map attributes item_key pythonic_key).
Proof.
  unfold get_item_attribute_map.
  apply raises_only_bind; [|intros; apply raises_only_ret].
  apply raises_only_for_each. intros acc [k v]; simpl.
  destruct v; try apply raises_only_ret;
    (apply raises_only_bind;
     [apply raises_get_attribute_type | intros; apply raises_only_ret]).
Qed.

Lemma raises_get_identifier_map hash_key range_key key :
  raises_only no_attribute (get_identifier_map hash_key range_key key).
Proof.
  unfold get_identifier_map.
  apply raises_only_bind; [apply raises_hash_keyname | intros h].
  apply raises_only_bind; [apply raises_get_attribute_type | intros ht].
  destruct (truthy range_key); [|apply raises_only_ret].
  apply raises_only_bind; [apply raises_range_keyname | intros r].
  apply raises_only_bind; [apply raises_get_attribute_type | intros rt].
  apply raises_only_ret.
Qed.

Lemma raises_get_expected_map expected :
  raises_only no_attribute (get_expected_map expected).
Proof.
  unfold get_expected_map.
  apply raises_only_bind; [|intros; apply raises_only_ret].
  apply raises_only_for_each. intros acc [k c]; simpl.
  destruct (dict_in EXISTS c); [apply raises_only_ret|].
  destruct (dict_in VALUE c); [|apply raises_only_ret].
  apply raises_only_bind; [apply raises_get_attribute_type | intros; apply raises_only_ret].
Qed.


End MetaTableRaises.

Section Runs.

Variable transport : list call -> string -> dict -> response.

(** What is kept along a run: an invariant [Inv] of the connection, a
    property [Sent] of every request that goes to the transport, a
    property [Err] of every exception raised. *)
Variable Inv : Connection -> Prop.
Variable Sent : call -> Prop.
Variable Err : exn -> Prop.

Hypothesis Inv_sent : forall s c,
  Inv s -> Inv {| _tables := _tables s; sent := (sent s ++ [c])%list |}.
Hypothesis Inv_table : forall s n t,
  Inv s -> Inv {| _tables := <[n := t]> (_tables s); sent := sent s |}.

Lemma run_ret {A} (a : A) (Q : A -> Prop) : Q a -> run Inv Sent Err (ret a) Q.
Proof.
  intros HQ s Hs; simpl. repeat split; [exact Hs| |exact HQ].
  exists []. rewrite app_nil_r. split; [reflexivity|constructor].
Qed.

Lemma run_raise {A} (e : exn) (Q : A -> Prop) : Err e -> run Inv Sent Err (raise e) Q.
Proof.
  intros HE s Hs; simpl. repeat split; [exact Hs| |exact HE].
  exists []. rewrite app_nil_r. split; [reflexivity|constructor].
Qed.

Lemma run_lift {A} (r : result A) (Q : A -> Prop) :
  match r with Ok a => Q a | Raise e => Err e end -> run Inv Sent Err (lift r) Q.
Proof.
  intros Hr s Hs; simpl. repeat split; [exact Hs| |exact Hr].
  exists []. rewrite app_nil_r. split; [reflexivity|constructor].
Qed.

Lemma run_bind {A B} (m : St Connection A) (k : A -> St Connection B)
    (Q1 : A -> Prop) (Q2 : B -> Prop) :
  run Inv Sent Err m Q1 -> (forall a, Q1 a -> run Inv Sent Err (k a) Q2) -> run Inv Sent Err (m ≫= k) Q2.
Proof.
  intros Hm Hk s Hs. unfold mbind, St_bind, bind.
  destruct (Hm s Hs) as (Hi & (new & Hnew & Hall) & Hr).
  destruct (m s) as [[a|e] s']; simpl in *.
  - destruct (Hk a Hr s' Hi) as (Hi' & (new' & Hnew' & Hall') & Hr').
    repeat split; [exact Hi'| |exact Hr'].
    exists (new ++ new')%list. split.
    + rewrite Hnew', Hnew, app_assoc. reflexivity.
    + apply Forall_app. split; assumption.
  - repeat split; [exact Hi| |exact Hr].
    exists new. split; assumption.
Qed.

Lemma run_weaken {A} (m : St Connection A) (Q Q' : A -> Prop) :
  run Inv Sent Err m Q -> (forall a, Q a -> Q' a) -> run Inv Sent Err m Q'.
Proof.
  intros Hm HQ s Hs. destruct (Hm s Hs) as (Hi & Hnew & Hr).
  repeat split; [exact Hi|exact Hnew|].
  destruct ((m s).1); [apply HQ|]; exact Hr.
Qed.

Lemma run_for_each {A B} (l : list A) (acc : B) (body : B -> A -> St Connection B)
    (J : B -> Prop) :
  J acc -> (forall acc x, J acc -> run Inv Sent Err (body acc x) J) ->
  run Inv Sent Err (for_each l acc body) J.
Proof.
  intros Hacc Hbody. revert acc Hacc. induction l as [|x l IH]; intros acc Hacc; simpl.
  - apply run_ret. exact Hacc.
  - apply (run_bind _ _ J); [apply Hbody; exact Hacc | intros a Ha; apply IH; exact Ha].
Qed.

Lemma run_operation_call (operation : string) (kwargs : dict) :
  Sent (operation, kwargs) ->
  run Inv Sent Err (operation_call transport operation kwargs) (fun _ => True).
Proof.
  intros HS s Hs; simpl. repeat split.
  - apply Inv_sent. exact Hs.
  - exists [(operation, kwargs)]. split; [reflexivity|].
    constructor; [exact HS|constructor].
Qed.

Lemma run_set_table (table_name : string) (t : MetaTable) :
  run Inv Sent Err (set_table table_name t) (fun _ => True).
Proof.
  intros s Hs; simpl. repeat split.
  - apply Inv_table. exact Hs.
  - exists []. rewrite app_nil_r. split; [reflexivity|constructor].
Qed.

Lemma run_get_meta_table (table_name : string) :
  may_fetch Inv Sent Err table_name ->
  (forall m, Err (AttributeError m)) \/
  (forall s, Inv s -> is_Some (_tables s !! table_name)) ->
  run Inv Sent Err (get_meta_table transport table_name false)
      (fun o => (forall m, Err (AttributeError m)) \/ is_Some o).
Proof.
  intros Hfetch Hattr s Hs. unfold get_meta_table.
  destruct (_tables s !! table_name) as [t|] eqn:Hlook.
  - simpl. repeat split; [exact Hs| |right; eexists; reflexivity].
    exists []. rewrite app_nil_r. split; [reflexivity|constructor].
  - destruct Hfetch as [Hcached|(HS & HT & HA)].
    { destruct (Hcached s Hs) as [t Ht]. congruence. }
    revert s Hs Hlook.
    assert (Hrun : run Inv Sent Err
      (r ← operation_call transport DESCRIBE_TABLE {[ pythonic TABLE_NAME := VStr table_name ]};
       if negb (ok r) then
         if status_code r =? HTTP_BAD_REQUEST then ret None
         else raise (TableError (format "Unable to describe table: {0}"
                                   [VStr (content r)]))
       else
         let t := MetaTableM.init (table_key r) in
         set_table table_name t;; ret (Some t))
      (fun o => (forall m, Err (AttributeError m)) \/ is_Some o)).
    { apply (run_bind _ _ (fun _ => True)); [apply run_operation_call; exact HS|].
      intros r _. destruct (negb (ok r)).
      - destruct (status_code r =? HTTP_BAD_REQUEST).
        + apply run_ret. left. exact HA.
        + apply run_raise. apply HT.
      - apply (run_bind _ _ (fun _ => True)); [apply run_set_table|].
        intros _ _. apply run_ret. right. eexists; reflexivity. }
    intros s Hs _. apply Hrun. exact Hs.
Qed.

Lemma run_on_meta_table {A} (table_name : string) (m : St MetaTable A) :
  may_fetch Inv Sent Err table_name ->
  raises_only Err m ->
  run Inv Sent Err (on_meta_table transport table_name m) (fun _ => True).
Proof.
  intros Hfetch Hm. unfold on_meta_table.
  eapply run_bind.
  - apply run_get_meta_table; [exact Hfetch|].
    destruct Hfetch as [Hc|(_ & _ & HA)]; [right; exact Hc|left; exact HA].
  - intros [t|] Ho; simpl.
    + specialize (Hm t). destruct (m t) as [r t']; simpl in Hm.
      apply (run_bind _ _ (fun _ => True)); [apply run_set_table|].
      intros _ _. apply run_lift. destruct r; [exact Logic.I|].
      apply Hm. reflexivity.
    + apply run_raise. destruct Ho as [HA|[x Hx]]; [apply HA|discriminate Hx].
Qed.

Lemma run_update_if_str (o : option string) (f : string -> result dict)
    (kwargs : dict) (J : dict -> Prop) :
  J kwargs ->
  (forall s d, f s = Ok d -> J (dict_update kwargs d)) ->
  (forall s e, f s = Raise e -> Err e) ->
  run Inv Sent Err (update_if_str o f kwargs) J.
Proof.
  intros HJ Hok Herr. unfold update_if_str.
  destruct (truthy_str o); [|apply run_ret; exact HJ].
  apply (run_bind _ _ (fun d => f (str o) = Ok d)).
  - apply run_lift. destruct (f (str o)) eqn:Hf; [reflexivity|].
    eapply Herr. exact Hf.
  - intros d Hd. apply run_ret. eapply Hok. exact Hd.
Qed.

End Runs.

(** ** Tables: [describe_table] and [create_table] *)

(** C7: when the transport answers the DescribeTable request of
    [describe_table] with a response that is not ok, the call returns [None]
    if the status is [HTTP_BAD_REQUEST], and otherwise raises the
    [TableError] that carries the content of the response. *)
Theorem describe_table_not_ok
    (transport : list call -> string -> dict -> response)
    (table_name : string) (c : Connection) :
  let r := transport (sent c) DESCRIBE_TABLE {[ pythonic TABLE_NAME := VStr table_name ]} in
  ok r = false ->
  (status_code r = HTTP_BAD_REQUEST ->
   (describe_table transport table_name c).1 = Ok None)
  /\ (status_code r ≠ HTTP_BAD_REQUEST ->
      (describe_table transport table_name c).1
      = Raise (TableError (format "Unable to describe table: {0}" [VStr (content r)]))).
Proof.
  intros r Hok.
  assert (Hrun : (describe_table transport table_name c).1
                 = if status_code r =? HTTP_BAD_REQUEST then Ok None
                   else Raise (TableError (format "Unable to describe table: {0}"
                                             [VStr (content r)]))).
  { unfold describe_table, get_meta_table, mbind, St_bind, bind, operation_call.
    fold r. clearbody r.
    destruct (_tables c !! table_name); simpl; rewrite Hok; simpl;
      destruct (status_code r =? HTTP_BAD_REQUEST); reflexivity. }
  split; intros Hst; rewrite Hrun.
  - rewrite (proj2 (Z.eqb_eq _ _) Hst). reflexivity.
  - rewrite (proj2 (Z.eqb_neq _ _) Hst). reflexivity.
Qed.

(** C7, witness: a store that refuses with status 400, and one that refuses
    with status 500. *)
Lemma describe_table_not_ok_witness :
  (describe_table (Stub.refuse 400) "users" Connection_init).1 = Ok None
  /\ (describe_table (Stub.refuse 500) "users" Connection_init).1
     = Raise (TableError (format "Unable to describe table: {0}" [VStr "refused"])).
Proof.
  split.
  - apply (describe_table_not_ok (Stub.refuse 400) "users" Connection_init);
      reflexivity.
  - apply (describe_table_not_ok (Stub.refuse 500) "users" Connection_init);
      [reflexivity | discriminate].
Defined.

(** C4, as the code has it: [create_table] raises a [ValueError], and sends
    nothing, when [attribute_definitions] or [key_schema] is left out
    ([None]); when both are given, be it as empty lists, it raises no
    [ValueError] and sends the CreateTable request. *)
Theorem create_table_requires_arguments
    (transport : list call -> string -> dict -> response)
    (table_name : string) (attribute_definitions : option (list dict))
    (key_schema : option (list KeySchemaArg))
    (read_capacity_units write_capacity_units : value)
    (global_secondary_indexes local_secondary_indexes : option (list dict))
    (c : Connection) :
  let run := create_table transport table_name attribute_definitions key_schema
               read_capacity_units write_capacity_units
               global_secondary_indexes local_secondary_indexes c in
  (attribute_definitions = None \/ key_schema = None ->
   exists m, run = (Raise (ValueError m), c))
  /\ (attribute_definitions ≠ None -> key_schema ≠ None ->
      (exists kwargs, sent run.2 = (sent c ++ [(CREATE_TABLE, kwargs)])%list)
      /\ forall m, run.1 ≠ Raise (ValueError m)).
Proof.
  intros run. subst run. unfold create_table. split.
  - intros [-> | ->].
    + eexists. reflexivity.
    + destruct attribute_definitions; eexists; reflexivity.
  - intros Ha Hk.
    destruct attribute_definitions as [ads|]; [|contradiction].
    destruct key_schema as [ks|]; [|contradiction].
    unfold mbind, St_bind, bind, operation_call, raise, ret. cbv beta iota.
    destruct (negb _); cbn [fst snd sent].
    + split; [eexists; reflexivity|discriminate].
    + split; [eexists; reflexivity|discriminate].
Qed.

(** C4, witness: no arguments at all, and both lists given and empty. *)
Lemma create_table_requires_arguments_witness :
  (exists m, create_table Stub.accept "users" None None VNone VNone None None
               Connection_init = (Raise (ValueError m), Connection_init))
  /\ (exists kwargs,
         sent (create_table Stub.accept "users" (Some []) (Some []) VNone VNone
                 None None Connection_init).2 = [(CREATE_TABLE, kwargs)]).
Proof.
  split.
  - apply (proj1 (create_table_requires_arguments Stub.accept "users" None None
                    VNone VNone None None Connection_init)).
    left. reflexivity.
  - apply (proj2 (create_table_requires_arguments Stub.accept "users" (Some [])
                    (Some []) VNone VNone None None Connection_init));
      discriminate.
Defined.

(** C4, as the spec has it, fails: with [attribute_definitions] and
    [key_schema] both supplied as empty lists, [create_table] raises nothing
    and the transport receives the CreateTable request. *)
Lemma create_table_accepts_empty_lists :
  (create_table Stub.accept "users" (Some []) (Some []) VNone VNone None None
     Connection_init).1 = Ok (VDict ∅)
  /\ fst <$> sent (create_table Stub.accept "users" (Some []) (Some []) VNone VNone
                     None None Connection_init).2 = [CREATE_TABLE].
Proof. split; reflexivity. Qed.

(** The stable sort of two kinds of keys. *)
Lemma insert_by_front {A} (key : A -> value) (x : A) (l : list A) :
  Forall (fun y => value_ltb (key y) (key x) = false) l ->
  insert_by key x l = x :: l.
Proof.
  destruct 1 as [|y l Hy _]; simpl; [reflexivity|].
  rewrite Hy. reflexivity.
Qed.

Lemma insert_by_app {A} (key : A -> value) (x : A) (l1 l2 : list A) :
  Forall (fun y => value_ltb (key y) (key x) = true) l1 ->
  insert_by key x (l1 ++ l2)%list = (l1 ++ insert_by key x l2)%list.
Proof.
  induction 1 as [|y l1 Hy _ IH]; simpl; [reflexivity|].
  rewrite Hy, IH. reflexivity.
Qed.

Lemma key_schema_entry_key (item : KeySchemaArg) :
  dict_get (key_schema_entry item) KEY_TYPE = VStr (upper (str (key_type item))).
Proof.
  unfold dict_get, key_schema_entry.
  rewrite lookup_insert_ne by discriminate.
  rewrite lookup_singleton_eq. reflexivity.
Qed.

Lemma sorted_key_schema (key_schema : list KeySchemaArg) :
  Forall (fun item => is_role HASH item \/ is_role RANGE item) key_schema ->
  sorted (key_schema_entry <$> key_schema) (fun x => dict_get x KEY_TYPE)
  = key_schema_entry <$> (filter (is_role HASH) key_schema
                          ++ filter (is_role RANGE) key_schema)%list.
Proof.
  induction 1 as [|item l Hitem Hl IH]; [reflexivity|].
  cbn [fmap list_fmap sorted]. fold (@fmap list _ _ _ key_schema_entry l).
  rewrite IH, fmap_app, !filter_cons.
  destruct Hitem as [Hr|Hr].
  - rewrite (decide_True _ _ Hr).
    rewrite decide_False by (unfold is_role in *; rewrite Hr; discriminate).
    rewrite insert_by_front; [rewrite fmap_app, fmap_cons; reflexivity|].
    rewrite <- fmap_app. apply Forall_fmap, Forall_forall. intros y Hy; simpl.
    rewrite !key_schema_entry_key, Hr.
    apply elem_of_app in Hy as [Hy|Hy]; apply list_elem_of_filter in Hy as [Hy _];
      unfold is_role in Hy; rewrite Hy; reflexivity.
  - rewrite decide_False by (unfold is_role in *; rewrite Hr; discriminate).
    rewrite (decide_True _ _ Hr).
    rewrite insert_by_app.
    + rewrite insert_by_front; [rewrite fmap_app, fmap_cons; reflexivity|].
      apply Forall_fmap, Forall_forall. intros y Hy; simpl.
      rewrite !key_schema_entry_key, Hr.
      apply list_elem_of_filter in Hy as [Hy _].
      unfold is_role in Hy; rewrite Hy; reflexivity.
    + apply Forall_fmap, Forall_forall. intros y Hy; simpl.
      rewrite !key_schema_entry_key, Hr.
      apply list_elem_of_filter in Hy as [Hy _].
      unfold is_role in Hy; rewrite Hy; reflexivity.
Qed.

Lemma role_ascending_HASH_RANGE (hs rs : list KeySchemaArg) :
  Forall (is_role HASH) hs -> Forall (is_role RANGE) rs ->
  role_ascending (key_schema_entry <$> (hs ++ rs)%list).
Proof.
  intros Hhs Hrs. unfold role_ascending.
  induction Hhs as [|h hs Hh Hhs IH]; simpl.
  - induction Hrs as [|r rs Hr Hrs IH]; simpl; constructor; [exact IH|].
    apply Forall_fmap, Forall_forall. intros y Hy; simpl.
    rewrite !key_schema_entry_key.
    apply (proj1 (Forall_forall _ _) Hrs) in Hy.
    unfold is_role in *. rewrite Hr, Hy. reflexivity.
  - constructor; [exact IH|].
    apply Forall_fmap, Forall_forall. intros y Hy; simpl.
    rewrite !key_schema_entry_key.
    unfold is_role in Hh. rewrite Hh.
    apply elem_of_app in Hy as [Hy|Hy].
    + apply (proj1 (Forall_forall _ _) Hhs) in Hy.
      unfold is_role in Hy. rewrite Hy. reflexivity.
    + apply (proj1 (Forall_forall _ _) Hrs) in Hy.
      unfold is_role in Hy. rewrite Hy. reflexivity.
Qed.

(** C5: for every key schema whose entries have the roles HASH and RANGE, in
    whatever order, the request that [create_table] sends has under
    [key_schema] the entries sorted by role, ascending: the HASH entries
    first, then the RANGE entries, each group in the order it came in. *)
Theorem create_table_key_schema_sorted
    (transport : list call -> string -> dict -> response)
    (table_name : string) (attribute_definitions : list dict)
    (key_schema : list KeySchemaArg)
    (read_capacity_units write_capacity_units : value)
    (global_secondary_indexes local_secondary_indexes : option (list dict))
    (c : Connection) :
  Forall (fun item => key_type item = Some HASH \/ key_type item = Some RANGE)
    key_schema ->
  exists (kwargs : dict) (out : list dict),
    sent (create_table transport table_name (Some attribute_definitions)
            (Some key_schema) read_capacity_units write_capacity_units
            global_secondary_indexes local_secondary_indexes c).2
    = (sent c ++ [(CREATE_TABLE, kwargs)])%list
    /\ kwargs !! pythonic KEY_SCHEMA = Some (VList (VDict <$> out))
    /\ out = key_schema_entry <$>
               (filter (fun item => key_type item = Some HASH) key_schema
                ++ filter (fun item => key_type item = Some RANGE) key_schema)%list
    /\ role_ascending out.
Proof.
  intros Hroles.
  unfold create_table, mbind, St_bind, bind, operation_call, raise, ret.
  cbv beta iota zeta.
  rewrite (sorted_key_schema key_schema Hroles).
  eexists. eexists. split; [|split; [|split; [reflexivity|]]].
  - destruct (negb _); cbn [fst snd sent]; reflexivity.
  - destruct (truthy_list local_secondary_indexes).
    + rewrite lookup_insert_ne
        by (intros Heq; vm_compute in Heq; discriminate Heq).
      rewrite lookup_insert_eq. reflexivity.
    + rewrite lookup_insert_eq. reflexivity.
  - apply role_ascending_HASH_RANGE; apply Forall_forall; intros y Hy;
      apply list_elem_of_filter in Hy as [Hy _]; exact Hy.
Qed.

(** C5, witness: the key schema of the spec's example, RANGE entry first. *)
Lemma create_table_key_schema_sorted_witness :
  exists (kwargs : dict) (out : list dict),
    sent (create_table Stub.accept "users" (Some [])
            (Some [ {| attribute_name := VStr "sk"; key_type := Some "RANGE" |};
                    {| attribute_name := VStr "pk"; key_type := Some "HASH" |} ])
            VNone VNone None None Connection_init).2
    = [(CREATE_TABLE, kwargs)]
    /\ kwargs !! "key_schema" = Some (VList (VDict <$> out))
    /\ out = [ {[ ATTR_NAME := VStr "pk"; KEY_TYPE := VStr "HASH" ]};
               {[ ATTR_NAME := VStr "sk"; KEY_TYPE := VStr "RANGE" ]} ]
    /\ role_ascending out.
Proof.
  apply (create_table_key_schema_sorted Stub.accept "users" []
           [ {| attribute_name := VStr "sk"; key_type := Some "RANGE" |};
             {| attribute_name := VStr "pk"; key_type := Some "HASH" |} ]
           VNone VNone None None Connection_init).
  constructor; [right; reflexivity|].
  constructor; [left; reflexivity|].
  constructor.
Defined.

(** ** Items: [update_item] and [batch_write_item] *)

Lemma raises_only_weaken {S A} (E E' : exn -> Prop) (m : St S A) :
  raises_only E m -> (forall e, E e -> E' e) -> raises_only E' m.
Proof. intros Hm HE s e He. apply HE. eapply Hm. exact He. Qed.

Lemma get_consumed_capacity_map_raises s e :
  get_consumed_capacity_map s = Raise e -> must_be_one_of e.
Proof.
  unfold get_consumed_capacity_map. destruct (negb _); [|discriminate].
  intros [= <-]. eexists. reflexivity.
Qed.

Lemma get_return_values_map_raises s e :
  get_return_values_map s = Raise e -> must_be_one_of e.
Proof.
  unfold get_return_values_map. destruct (negb _); [|discriminate].
  intros [= <-]. eexists. reflexivity.
Qed.

Lemma get_item_collection_map_raises s e :
  get_item_collection_map s = Raise e -> must_be_one_of e.
Proof.
  unfold get_item_collection_map. destruct (negb _); [|discriminate].
  intros [= <-]. eexists. reflexivity.
Qed.

Section CachedTable.

Variable transport : list call -> string -> dict -> response.
Variable table_name : string.

Lemma cached_sent s c :
  cached table_name s ->
  cached table_name {| _tables := _tables s; sent := (sent s ++ [c])%list |}.
Proof. intros H. exact H. Qed.

Lemma cached_table s n t :
  cached table_name s ->
  cached table_name {| _tables := <[n := t]> (_tables s); sent := sent s |}.
Proof.
  unfold cached; simpl. intros H. apply lookup_insert_is_Some'. right. exact H.
Qed.

Lemma cached_may_fetch : may_fetch (cached table_name) nothing is_ValueError table_name.
Proof. left. intros s Hs. exact Hs. Qed.

Lemma no_attribute_is_ValueError e : no_attribute e -> is_ValueError e.
Proof. intros [args ->]. eexists. reflexivity. Qed.

Lemma must_be_one_of_is_ValueError e : must_be_one_of e -> is_ValueError e.
Proof. intros [args ->]. eexists. reflexivity. Qed.

Lemma update_item_empty_run hash_key range_key attribute_updates expected
    return_consumed_capacity return_item_collection_metrics return_values :
  truthy_list attribute_updates = false ->
  run (cached table_name) nothing is_ValueError
    (update_item transport table_name hash_key range_key attribute_updates
       expected return_consumed_capacity return_item_collection_metrics
       return_values)
    (fun _ => False).
Proof.
  intros Hempty. unfold update_item.
  apply (run_bind _ _ _ _ _ (fun _ => True)).
  { apply (run_on_meta_table _ _ _ _ cached_sent cached_table);
      [apply cached_may_fetch|].
    eapply raises_only_weaken;
      [apply raises_get_identifier_map | apply no_attribute_is_ValueError]. }
  intros ident _.
  apply (run_bind _ _ _ _ _ (fun _ => True)).
  { destruct (truthy_list expected); [|apply run_ret; exact Logic.I].
    apply (run_bind _ _ _ _ _ (fun _ => True)); [|intros; apply run_ret; exact Logic.I].
    apply (run_on_meta_table _ _ _ _ cached_sent cached_table);
      [apply cached_may_fetch|].
    eapply raises_only_weaken;
      [apply raises_get_expected_map | apply no_attribute_is_ValueError]. }
  intros kwargs1 _.
  apply (run_bind _ _ _ _ _ (fun _ => True)).
  { apply run_update_if_str; [exact Logic.I | intros; exact Logic.I |].
    intros s e He. apply must_be_one_of_is_ValueError.
    eapply get_consumed_capacity_map_raises. exact He. }
  intros kwargs2 _.
  apply (run_bind _ _ _ _ _ (fun _ => True)).
  { apply run_update_if_str; [exact Logic.I | intros; exact Logic.I |].
    intros s e He. apply must_be_one_of_is_ValueError.
    eapply get_item_collection_map_raises. exact He. }
  intros kwargs3 _.
  apply (run_bind _ _ _ _ _ (fun _ => True)).
  { apply run_update_if_str; [exact Logic.I | intros; exact Logic.I |].
    intros s e He. apply must_be_one_of_is_ValueError.
    eapply get_return_values_map_raises. exact He. }
  intros kwargs4 _.
  rewrite Hempty. simpl. apply run_raise. eexists. reflexivity.
Qed.

End CachedTable.

(** C3, as the code has it: when the metadata of the table is in the cache
    of the connection, [update_item] with an empty or absent
    [attribute_updates] raises a [ValueError] whatever the other arguments
    are, and the transport receives no request. *)
Theorem update_item_empty_updates_cached
    (transport : list call -> string -> dict -> response)
    (table_name : string) (hash_key range_key : value)
    (attribute_updates expected : option (list (string * dict)))
    (return_consumed_capacity return_item_collection_metrics
       return_values : option string)
    (c : Connection) :
  truthy_list attribute_updates = false ->
  is_Some (_tables c !! table_name) ->
  let out := update_item transport table_name hash_key range_key attribute_updates
               expected return_consumed_capacity return_item_collection_metrics
               return_values c in
  (exists m, out.1 = Raise (ValueError m)) /\ sent out.2 = sent c.
Proof.
  intros Hempty Hcached out.
  destruct (update_item_empty_run transport table_name hash_key range_key
              attribute_updates expected return_consumed_capacity
              return_item_collection_metrics return_values Hempty c Hcached)
    as (_ & (new & Hnew & Hall) & Hr).
  fold out in Hnew, Hr. split.
  - destruct (out.1) as [a|e]; [contradiction|].
    destruct Hr as [m ->]. exists m. reflexivity.
  - destruct Hall as [|x new Hx _]; [|contradiction].
    rewrite Hnew, app_nil_r. reflexivity.
Qed.

(** C3, witness: the metadata of [users] is in the cache, no updates are
    given, and the return values asked for are not among the allowed. *)
Lemma update_item_empty_updates_cached_witness :
  (exists m, (update_item (Stub.refuse 500) "users" (VStr "h") VNone (Some []) None
                None None (Some "BOGUS") Stub.warm).1 = Raise (ValueError m))
  /\ sent (update_item (Stub.refuse 500) "users" (VStr "h") VNone (Some []) None
             None None (Some "BOGUS") Stub.warm).2 = [].
Proof.
  apply (update_item_empty_updates_cached (Stub.refuse 500) "users" (VStr "h") VNone
           (Some []) None None None (Some "BOGUS") Stub.warm).
  - reflexivity.
  - vm_compute. eexists. reflexivity.
Defined.

(** C3, as the spec has it, fails: on a connection that has not seen the
    table, [update_item] with no updates first asks the transport to
    describe the table. When the store answers, the [ValueError] comes after
    that request; when the store refuses, the call ends in a [TableError],
    not in a [ValueError]. *)
Lemma update_item_empty_updates_describes_first :
  ((update_item Stub.accept "users" (VStr "h") VNone None None None None None
      Connection_init).1
   = Raise (ValueError (format "{0} cannot be empty" [VStr ATTR_UPDATES]))
   /\ fst <$> sent (update_item Stub.accept "users" (VStr "h") VNone None None
                      None None None Connection_init).2 = [DESCRIBE_TABLE])
  /\ ((update_item (Stub.refuse 500) "users" (VStr "h") VNone None None None None None
         Connection_init).1
      = Raise (TableError (format "Unable to describe table: {0}" [VStr "refused"]))
      /\ fst <$> sent (update_item (Stub.refuse 500) "users" (VStr "h") VNone None None
                         None None None Connection_init).2 = [DESCRIBE_TABLE]).
Proof. repeat split; vm_compute; reflexivity. Qed.

Section AnyTable.

Variable transport : list call -> string -> dict -> response.

Lemma anywhere_sent s c :
  anywhere s -> anywhere {| _tables := _tables s; sent := (sent s ++ [c])%list |}.
Proof. intros _. exact Logic.I. Qed.

Lemma anywhere_table s n t :
  anywhere s -> anywhere {| _tables := <[n := t]> (_tables s); sent := sent s |}.
Proof. intros _. exact Logic.I. Qed.

Lemma no_attribute_specified e : no_attribute e -> specified e.
Proof. intros [args ->]. discriminate. Qed.

Lemma must_be_one_of_specified e : must_be_one_of e -> specified e.
Proof. intros [args ->]. discriminate. Qed.

Lemma specified_may_fetch table_name :
  may_fetch anywhere anything specified table_name.
Proof. right. repeat split; intros; discriminate. Qed.

Lemma batch_write_item_run table_name put_items delete_items
    return_consumed_capacity return_item_collection_metrics :
  put_items ≠ None \/ delete_items ≠ None ->
  run anywhere anything specified
    (batch_write_item transport table_name put_items delete_items
       return_consumed_capacity return_item_collection_metrics)
    (fun _ => True).
Proof.
  intros Hsome. unfold batch_write_item.
  assert (Hrest : forall kwargs0 : dict, run anywhere anything specified
    (operation_kwargs ←
        update_if_str return_consumed_capacity get_consumed_capacity_map kwargs0;
      operation_kwargs ←
        update_if_str return_item_collection_metrics get_item_collection_map operation_kwargs;
      put_items_list ←
        (if truthy_list put_items then
           for_each (items put_items) [] (fun put_items_list item =>
             m ← get_item_attribute_map transport table_name item ITEM false;
             ret (put_items_list ++ [VDict {[ PUT_REQUEST := VDict m ]}])%list)
         else ret []);
      delete_items_list ←
        (if truthy_list delete_items then
           for_each (items delete_items) [] (fun delete_items_list item =>
             m ← get_item_attribute_map transport table_name item KEY false;
             ret (delete_items_list ++ [VDict {[ DELETE_REQUEST := VDict m ]}])%list)
         else ret []);
      let operation_kwargs :=
        <[pythonic REQUEST_ITEMS :=
            VDict {[ table_name := VList (delete_items_list ++ put_items_list)%list ]}]>
          operation_kwargs in
      r ← operation_call transport BATCH_WRITE_ITEM operation_kwargs;
      if negb (ok r) then
        raise (PutError (format "Failed to batch write items: {0}" [VStr (content r)]))
      else ret (body r))
    (fun _ => True)).
  { intros kwargs0.
    apply (run_bind _ _ _ _ _ (fun _ => True)).
    { apply run_update_if_str; [exact Logic.I | intros; exact Logic.I |].
      intros s e He. apply must_be_one_of_specified.
      eapply get_consumed_capacity_map_raises. exact He. }
    intros kwargs1 _.
    apply (run_bind _ _ _ _ _ (fun _ => True)).
    { apply run_update_if_str; [exact Logic.I | intros; exact Logic.I |].
      intros s e He. apply must_be_one_of_specified.
      eapply get_item_collection_map_raises. exact He. }
    intros kwargs2 _.
    assert (Hitems : forall (l : list (list (string * value))) (key tag : string),
      run anywhere anything specified
        (for_each l [] (fun acc item =>
           m ← get_item_attribute_map transport table_name item key false;
           ret (acc ++ [VDict {[ tag := VDict m ]}])%list))
        (fun _ => True)).
    { intros l key tag. apply run_for_each; [exact Logic.I|].
      intros acc item _.
      apply (run_bind _ _ _ _ _ (fun _ => True)); [|intros; apply run_ret; exact Logic.I].
      apply (run_on_meta_table _ _ _ _ anywhere_sent anywhere_table);
        [apply specified_may_fetch|].
      eapply raises_only_weaken;
        [apply raises_get_item_attribute_map | apply no_attribute_specified]. }
    apply (run_bind _ _ _ _ _ (fun _ => True)).
    { destruct (truthy_list put_items); [apply Hitems | apply run_ret; exact Logic.I]. }
    intros puts _.
    apply (run_bind _ _ _ _ _ (fun _ => True)).
    { destruct (truthy_list delete_items); [apply Hitems | apply run_ret; exact Logic.I]. }
    intros deletes _. cbv zeta.
    apply (run_bind _ _ _ _ _ (fun _ => True)).
    { apply (run_operation_call _ _ _ _ anywhere_sent). exact Logic.I. }
    intros r _. destruct (negb (ok r)).
    - apply run_raise. discriminate.
    - apply run_ret. exact Logic.I. }
  destruct put_items as [puts|], delete_items as [deletes|];
    try apply Hrest.
  destruct Hsome as [H|H]; contradiction.
Qed.

End AnyTable.

(** C8, as the code has it: [batch_write_item] raises its [ValueError], and
    sends nothing, when [put_items] and [delete_items] are both left out
    ([None]). When one of them is given, be it as an empty list, that check
    passes: the call never ends in that [ValueError]; and when neither has an
    item and no option is asked for, the BatchWriteItem request goes to the
    transport with an empty list of requests. *)
Theorem batch_write_item_requires_an_argument
    (transport : list call -> string -> dict -> response)
    (table_name : string)
    (put_items delete_items : option (list (list (string * value))))
    (return_consumed_capacity return_item_collection_metrics : option string)
    (c : Connection) :
  let out := batch_write_item transport table_name put_items delete_items
               return_consumed_capacity return_item_collection_metrics c in
  (put_items = None /\ delete_items = None -> out = (Raise unspecified, c))
  /\ (put_items ≠ None \/ delete_items ≠ None -> out.1 ≠ Raise unspecified)
  /\ (put_items ≠ None \/ delete_items ≠ None ->
      truthy_list put_items = false -> truthy_list delete_items = false ->
      truthy_str return_consumed_capacity = false ->
      truthy_str return_item_collection_metrics = false ->
      sent out.2
      = (sent c ++ [(BATCH_WRITE_ITEM,
                     {[ pythonic REQUEST_ITEMS :=
                          VDict {[ table_name := VList [] ]} ]})])%list).
Proof.
  intros out. split; [|split].
  - intros [-> ->]. reflexivity.
  - intros Hsome Hout.
    destruct (batch_write_item_run transport table_name put_items delete_items
                return_consumed_capacity return_item_collection_metrics Hsome c
                Logic.I) as (_ & _ & Hr).
    fold out in Hr. rewrite Hout in Hr. apply Hr. reflexivity.
  - intros Hsome Hp Hd Hc Hm. subst out. unfold batch_write_item.
    assert (Hgo : forall k : St Connection value,
               match put_items, delete_items with
               | None, None => raise unspecified
               | _, _ => k
               end = k).
    { intros k. destruct put_items, delete_items; try reflexivity.
      destruct Hsome; contradiction. }
    unfold unspecified in Hgo. rewrite Hgo.
    unfold update_if_str. rewrite Hp, Hd, Hc, Hm.
    unfold mbind, St_bind, bind, operation_call, raise, ret. cbv beta iota zeta.
    rewrite insert_singleton_eq.
    destruct (negb _); reflexivity.
Qed.

(** C8, witness: nothing given; and both lists given and empty, on a
    connection that has not seen the table. *)
Lemma batch_write_item_requires_an_argument_witness :
  batch_write_item Stub.accept "users" None None None None Connection_init
  = (Raise unspecified, Connection_init)
  /\ (batch_write_item Stub.accept "users" (Some []) (Some []) None None
        Connection_init).1 ≠ Raise unspecified
  /\ sent (batch_write_item Stub.accept "users" (Some []) (Some []) None None
             Connection_init).2
     = [(BATCH_WRITE_ITEM, {[ "request_items" := VDict {[ "users" := VList [] ]} ]})].
Proof.
  split; [|split].
  - apply (proj1 (batch_write_item_requires_an_argument Stub.accept "users" None None
                    None None Connection_init)).
    split; reflexivity.
  - apply (proj1 (proj2 (batch_write_item_requires_an_argument Stub.accept "users"
                           (Some []) (Some []) None None Connection_init))).
    left. discriminate.
  - apply (proj2 (proj2 (batch_write_item_requires_an_argument Stub.accept "users"
                           (Some []) (Some []) None None Connection_init)));
      [left; discriminate | reflexivity ..].
Defined.

(** C8, as the spec has it, fails: with [put_items] and [delete_items] both
    supplied as empty lists, [batch_write_item] raises nothing and the
    transport receives the BatchWriteItem request. *)
Lemma batch_write_item_accepts_empty_lists :
  (batch_write_item Stub.accept "users" (Some []) (Some []) None None
     Connection_init).1 = Ok (VDict ∅)
  /\ fst <$> sent (batch_write_item Stub.accept "users" (Some []) (Some []) None None
                     Connection_init).2 = [BATCH_WRITE_ITEM].
Proof. split; vm_compute; reflexivity. Qed.

(** ** Enumerated options *)




Section QuerySelect.

Variable transport : list call -> string -> dict -> response.
Variable COMPARISON_OPERATOR_VALUES : list string.
Variable s : string.






End QuerySelect.

Section UpdateAction.

Variable transport : list call -> string -> dict -> response.





End UpdateAction.

(** ** Scans and queries *)

(** C9, on the code: a [scan] for segment 0 of 4 sends a Scan request that
    has [total_segments] and no [segment] (the test [if segment:] takes 0 for
    an absent value), whereas segment 1 of 4 is sent with both. *)
Theorem scan_drops_segment_zero
    (transport : list call -> string -> dict -> response)
    (SCAN_FILTER_VALUES : list string) (table_name : string) (c : Connection) :
  (exists kwargs,
      sent (scan transport SCAN_FILTER_VALUES table_name VNone VNone None None VNone
              (VInt 0) (VInt 4) c).2 = (sent c ++ [(SCAN, kwargs)])%list
      /\ kwargs !! pythonic SEGMENT = None
      /\ kwargs !! pythonic TOTAL_SEGMENTS = Some (VInt 4))
  /\ (exists kwargs,
         sent (scan transport SCAN_FILTER_VALUES table_name VNone VNone None None VNone
                 (VInt 1) (VInt 4) c).2 = (sent c ++ [(SCAN, kwargs)])%list
         /\ kwargs !! pythonic SEGMENT = Some (VInt 1)
         /\ kwargs !! pythonic TOTAL_SEGMENTS = Some (VInt 4)).
Proof.
  split; eexists; (split; [|split]).
  - unfold scan, update_if_str, mbind, St_bind, bind, operation_call, raise, ret.
    cbv beta iota zeta. simpl (truthy_str _). simpl (truthy _). simpl (truthy_list _).
    cbv beta iota. unfold set_if_truthy, set_if_not_None. simpl (truthy _).
    cbv beta iota. destruct (negb _); reflexivity.
  - reflexivity.
  - reflexivity.
  - unfold scan, update_if_str, mbind, St_bind, bind, operation_call, raise, ret.
    cbv beta iota zeta. simpl (truthy_str _). simpl (truthy _). simpl (truthy_list _).
    cbv beta iota. unfold set_if_truthy, set_if_not_None. simpl (truthy _).
    cbv beta iota. destruct (negb _); reflexivity.
  - reflexivity.
  - reflexivity.
Qed.

(** The dict of a comprehension that binds every value of a list to one key:
    the last value under that key, or nothing. *)
Lemma comprehension_keeps_last (attr_type : string) (l : list value) :
  foldl (fun (d : dict) v => <[attr_type := v]> d) ∅ l
  = match last l with
    | Some v => {[ attr_type := v ]}
    | None => ∅
    end.
Proof.
  induction l as [|v l IH] using rev_ind; [reflexivity|].
  rewrite foldl_app, last_snoc, IH. simpl.
  destruct (last l).
  - apply insert_singleton_eq.
  - apply insert_empty.
Qed.

(** C1, on the code: whatever the number of values of a condition, the
    [AttributeValueList] that [scan] and [query] emit has ONE entry, which
    holds the last value only (and is empty when there is no value). For the
    condition [BETWEEN a AND b] over the range key of [users], the Query and
    the Scan request carry the list [[{S: b}]], not [[{S: a}, {S: b}]]. *)
Theorem condition_value_list_collapses :
  (forall (attr_type : string) (l : list value),
      attribute_value_list attr_type (VList l)
      = Ok (VList [VDict (match last l with
                          | Some v => {[ attr_type := v ]}
                          | None => ∅
                          end)]))
  /\ (exists kwargs,
         sent (query Stub.accept Stub.operators "users" (VStr "h") VNone VNone VNone
                 VNone (Some [("sk", Stub.between_a_b)]) VNone None VNone None
                 Stub.warm).2 = [(QUERY, kwargs)]
         /\ lookup_path ["key_conditions"; "sk"; "AttributeValueList"] (VDict kwargs)
            = Some (VList [VDict {[ "S" := VStr "b" ]}]))
  /\ (exists kwargs,
         sent (scan Stub.accept Stub.operators "users" VNone VNone
                 (Some [("sk", Stub.between_a_b)]) None VNone VNone VNone
                 Stub.warm).2 = [(SCAN, kwargs)]
         /\ lookup_path ["scan_filter"; "sk"; "AttributeValueList"] (VDict kwargs)
            = Some (VList [VDict {[ "S" := VStr "b" ]}])).
Proof.
  split; [|split].
  - intros attr_type l. unfold attribute_value_list, iter.
    rewrite comprehension_keeps_last. reflexivity.
  - eexists. split; vm_compute; reflexivity.
  - eexists. split; vm_compute; reflexivity.
Qed.

(** * Further properties *)

(** ** Key names *)

Section KeyNames.

Import MetaTableM.

Lemma range_scan_none (l : list KeySchemaElement) (found : option string) :
  Forall (fun x => ks_KeyType x ≠ RANGE) l ->
  range_scan l found = found.
Proof.
  intros Hl. revert found. induction Hl as [|x l Hx _ IH]; intros found; simpl.
  - reflexivity.
  - destruct (String.eqb_spec (ks_KeyType x) RANGE) as [Heq|_]; [contradiction|].
    apply IH.
Qed.

Lemma range_scan_last (pre post : list KeySchemaElement) (e : KeySchemaElement)
    (found : option string) :
  ks_KeyType e = RANGE ->
  Forall (fun x => ks_KeyType x ≠ RANGE) post ->
  range_scan (pre ++ e :: post) found = Some (ks_AttributeName e).
Proof.
  intros He Hpost. revert found. induction pre as [|x pre IH]; intros found; simpl.
  - rewrite He. simpl. apply range_scan_none. exact Hpost.
  - destruct (String.eqb (ks_KeyType x) RANGE); apply IH.
Qed.

(** X1: [range_keyname] has no [break]: on a table whose key schema has
    RANGE entries it returns the attribute name of the LAST of them, and on
    a table without a RANGE entry it returns [None]. *)
Theorem range_keyname_last_RANGE_or_None (d : TableData) :
  (forall (pre post : list KeySchemaElement) (e : KeySchemaElement),
      KeySchema d = (pre ++ e :: post)%list ->
      ks_KeyType e = RANGE ->
      Forall (fun x => ks_KeyType x ≠ RANGE) post ->
      range_keyname (init d)
      = (Ok (Some (ks_AttributeName e)),
         set_range_keyname (init d) (Some (ks_AttributeName e))))
  /\ (Forall (fun x => ks_KeyType x ≠ RANGE) (KeySchema d) ->
      range_keyname (init d) = (Ok None, init d)).
Proof.
  split.
  - intros pre post e Hks He Hpost.
    unfold range_keyname; simpl. rewrite Hks.
    rewrite (range_scan_last pre post e None He Hpost). reflexivity.
  - intros Hno. unfold range_keyname; simpl.
    rewrite (range_scan_none _ None Hno). reflexivity.
Qed.

Lemma keeps_ret {S A} (P : S -> Prop) (a : A) : keeps P (ret a : St S A).
Proof. intros s Hs. exact Hs. Qed.

Lemma keeps_bind {S A B} (P : S -> Prop) (m : St S A) (k : A -> St S B) :
  keeps P m -> (forall a, keeps P (k a)) -> keeps P (m ≫= k).
Proof.
  intros Hm Hk s Hs. unfold mbind, St_bind, bind.
  specialize (Hm s Hs). destruct (m s) as [[a|e] s']; simpl in *.
  - apply Hk. exact Hm.
  - exact Hm.
Qed.

Lemma keeps_for_each {S A B} (P : S -> Prop) (l : list A) (acc : B)
    (body : B -> A -> St S B) :
  (forall acc x, keeps P (body acc x)) -> keeps P (for_each l acc body).
Proof.
  intros Hbody. revert acc. induction l as [|x l IH]; intros acc; simpl.
  - apply keeps_ret.
  - apply keeps_bind; [apply Hbody | intros a; apply IH].
Qed.

Lemma keeps_hash_keyname d : keeps (describes_table d) hash_keyname.
Proof.
  intros t Ht. pose proof Ht as [[Hh Hr] Hd]. unfold hash_keyname.
  destruct (_hash_keyname t) as [h|] eqn:Hmemo; simpl.
  - exact Ht.
  - split; [split|exact Hd]; simpl.
    + intros h ->. reflexivity.
    + exact Hr.
Qed.

Lemma keeps_range_keyname d : keeps (describes_table d) range_keyname.
Proof.
  intros t Ht. pose proof Ht as [[Hh Hr] Hd]. unfold range_keyname.
  destruct (_range_keyname t) as [r|] eqn:Hmemo; simpl.
  - exact Ht.
  - split; [split|exact Hd]; simpl.
    + exact Hh.
    + intros r ->. reflexivity.
Qed.

Lemma keeps_get_attribute_type (P : MetaTable -> Prop) o :
  keeps P (get_attribute_type o).
Proof.
  intros t Ht. unfold get_attribute_type. destruct (find_type _ _); exact Ht.
Qed.

Lemma keeps_get_item_attribute_map d attributes item_key pythonic_key :
  keeps (describes_table d) (get_item_attribute_map attributes item_key pythonic_key).
Proof.
  unfold get_item_attribute_map.
  apply keeps_bind; [|intros; apply keeps_ret].
  apply keeps_for_each. intros acc [k v]; simpl.
  destruct v; try apply keeps_ret;
    (apply keeps_bind;
     [apply keeps_get_attribute_type | intros; apply keeps_ret]).
Qed.

Lemma keeps_get_identifier_map d hash_key range_key key :
  keeps (describes_table d) (get_identifier_map hash_key range_key key).
Proof.
  unfold get_identifier_map.
  apply keeps_bind; [apply keeps_hash_keyname | intros h].
  apply keeps_bind; [apply keeps_get_attribute_type | intros ht].
  destruct (truthy range_key); [|apply keeps_ret].
  apply keeps_bind; [apply keeps_range_keyname | intros r].
  apply keeps_bind; [apply keeps_get_attribute_type | intros rt].
  apply keeps_ret.
Qed.

Lemma keeps_get_expected_map d expected :
  keeps (describes_table d) (get_expected_map expected).
Proof.
  unfold get_expected_map.
  apply keeps_bind; [|intros; apply keeps_ret].
  apply keeps_for_each. intros acc [k c]; simpl.
  destruct (dict_in EXISTS c); [apply keeps_ret|].
  destruct (dict_in VALUE c); [|apply keeps_ret].
  apply keeps_bind; [apply keeps_get_attribute_type | intros; apply keeps_ret].
Qed.

Lemma keeps_get_exclusive_start_key_map d exclusive_start_key :
  keeps (describes_table d) (get_exclusive_start_key_map exclusive_start_key).
Proof.
  unfold get_exclusive_start_key_map.
  apply keeps_bind; [apply keeps_hash_keyname | intros h].
  apply keeps_bind; [apply keeps_get_attribute_type | intros ht].
  apply keeps_ret.
Qed.

Lemma hash_keyname_answer d t :
  describes_table d t ->
  (hash_keyname t).1 = Ok (hash_scan (KeySchema d) None).
Proof.
  intros [[Hh _] <-]. unfold hash_keyname.
  destruct (_hash_keyname t) as [h|] eqn:Hmemo; simpl.
  - rewrite Hmemo, (Hh h eq_refl). reflexivity.
  - reflexivity.
Qed.

Lemma range_keyname_answer d t :
  describes_table d t ->
  (range_keyname t).1 = Ok (range_scan (KeySchema d) None).
Proof.
  intros [[_ Hr] <-]. unfold range_keyname.
  destruct (_range_keyname t) as [r|] eqn:Hmemo; simpl.
  - rewrite Hmemo, (Hr r eq_refl). reflexivity.
  - reflexivity.
Qed.

Lemma describes_table_init (d : TableData) : describes_table d (init d).
Proof.
  split; [split; intros x Hx; discriminate Hx | reflexivity].
Qed.

(** X2: the methods of [MetaTable] never change the table description, and
    what they memoize stays true to the key schema: on the object built from
    a description, after whatever methods in whatever order, [hash_keyname]
    answers the first HASH entry of the key schema and [range_keyname] the
    last RANGE entry (or [None]). *)
Theorem key_names_stay_true (d : TableData) :
  describes_table d (init d)
  /\ keeps (describes_table d) hash_keyname
  /\ keeps (describes_table d) range_keyname
  /\ (forall o, keeps (describes_table d) (get_attribute_type o))
  /\ (forall attributes item_key pythonic_key,
         keeps (describes_table d)
           (get_item_attribute_map attributes item_key pythonic_key))
  /\ (forall hash_key range_key key,
         keeps (describes_table d) (get_identifier_map hash_key range_key key))
  /\ (forall expected, keeps (describes_table d) (get_expected_map expected))
  /\ (forall exclusive_start_key,
         keeps (describes_table d) (get_exclusive_start_key_map exclusive_start_key))
  /\ (forall t, describes_table d t ->
        (hash_keyname t).1 = Ok (hash_scan (KeySchema d) None)
        /\ (range_keyname t).1 = Ok (range_scan (KeySchema d) None)).
Proof.
  split; [apply describes_table_init|].
  split; [apply keeps_hash_keyname|].
  split; [apply keeps_range_keyname|].
  split; [intros; apply keeps_get_attribute_type|].
  split; [intros; apply keeps_get_item_attribute_map|].
  split; [intros; apply keeps_get_identifier_map|].
  split; [intros; apply keeps_get_expected_map|].
  split; [intros; apply keeps_get_exclusive_start_key_map|].
  intros t Ht. split; [apply hash_keyname_answer | apply range_keyname_answer]; exact Ht.
Qed.

End KeyNames.

(** X1, witness: a key schema with two RANGE entries, and [users] cut down
    to its hash key. *)
Lemma range_keyname_last_RANGE_or_None_witness :
  MetaTableM.range_keyname
    (MetaTableM.init
       {| TableName := "t";
          KeySchema := [ {| ks_AttributeName := "a"; ks_KeyType := "RANGE" |};
                         {| ks_AttributeName := "b"; ks_KeyType := "RANGE" |};
                         {| ks_AttributeName := "c"; ks_KeyType := "HASH" |} ];
          AttributeDefinitions := [] |})
  = (Ok (Some "b"),
     MetaTableM.set_range_keyname
       (MetaTableM.init
          {| TableName := "t";
             KeySchema := [ {| ks_AttributeName := "a"; ks_KeyType := "RANGE" |};
                            {| ks_AttributeName := "b"; ks_KeyType := "RANGE" |};
                            {| ks_AttributeName := "c"; ks_KeyType := "HASH" |} ];
             AttributeDefinitions := [] |}) (Some "b"))
  /\ MetaTableM.range_keyname
       (MetaTableM.init
          {| TableName := "t";
             KeySchema := [ {| ks_AttributeName := "c"; ks_KeyType := "HASH" |} ];
             AttributeDefinitions := [] |})
     = (Ok None,
        MetaTableM.init
          {| TableName := "t";
             KeySchema := [ {| ks_AttributeName := "c"; ks_KeyType := "HASH" |} ];
             AttributeDefinitions := [] |}).
Proof.
  split.
  - apply (proj1 (range_keyname_last_RANGE_or_None _)
             [ {| ks_AttributeName := "a"; ks_KeyType := "RANGE" |} ]
             [ {| ks_AttributeName := "c"; ks_KeyType := "HASH" |} ]
             {| ks_AttributeName := "b"; ks_KeyType := "RANGE" |}).
    + reflexivity.
    + reflexivity.
    + repeat constructor. discriminate.
  - apply (proj2 (range_keyname_last_RANGE_or_None _)).
    repeat constructor. discriminate.
Defined.

(** X2, witness: after an identifier map and an expected map were built on
    the object of [users], the key names are still [pk] and [sk]. *)
Lemma key_names_stay_true_witness :
  (MetaTableM.hash_keyname
     (MetaTableM.get_expected_map []
        (MetaTableM.get_identifier_map (VStr "h") (VStr "r") KEY
           (MetaTableM.init Stub.users)).2).2).1 = Ok (Some "pk")
  /\ (MetaTableM.range_keyname
        (MetaTableM.get_expected_map []
           (MetaTableM.get_identifier_map (VStr "h") (VStr "r") KEY
              (MetaTableM.init Stub.users)).2).2).1 = Ok (Some "sk").
Proof.
  destruct (key_names_stay_true Stub.users)
    as (Hinit & _ & _ & _ & _ & Hident & Hexp & _ & Hanswer).
  apply (Hanswer _).
  apply (Hexp []). apply (Hident (VStr "h") (VStr "r") KEY). exact Hinit.
Defined.

(** ** Attribute maps *)

Lemma for_each_ok {S A B} (l : list A) (acc : B) (body : B -> A -> St S B)
    (step : B -> A -> B) (s : S) :
  (forall acc x, x ∈ l -> body acc x s = (Ok (step acc x), s)) ->
  for_each l acc body s = (Ok (foldl step acc l), s).
Proof.
  revert acc. induction l as [|x l IH]; intros acc Hbody; simpl; [reflexivity|].
  unfold mbind, St_bind, bind. rewrite Hbody by left.
  apply IH. intros acc' y Hy. apply Hbody. right. exact Hy.
Qed.

Lemma for_each_raise {S A B} (pre post : list A) (x : A) (acc : B)
    (body : B -> A -> St S B) (step : B -> A -> B) (e : exn) (s : S) :
  (forall acc y, y ∈ pre -> body acc y s = (Ok (step acc y), s)) ->
  (forall acc, body acc x s = (Raise e, s)) ->
  for_each (pre ++ x :: post) acc body s = (Raise e, s).
Proof.
  revert acc. induction pre as [|y pre IH]; intros acc Hpre Hx; simpl.
  - unfold mbind, St_bind, bind. rewrite Hx. reflexivity.
  - unfold mbind, St_bind, bind. rewrite Hpre by left.
    apply IH; [|exact Hx]. intros acc' z Hz. apply Hpre. right. exact Hz.
Qed.

Lemma bind_ok {S A B} (m : St S A) (k : A -> St S B) (s s' : S) (a : A) :
  m s = (Ok a, s') -> (m ≫= k) s = k a s'.
Proof. intros H. unfold mbind, St_bind, bind. rewrite H. reflexivity. Qed.

Lemma bind_raise {S A B} (m : St S A) (k : A -> St S B) (s s' : S) (e : exn) :
  m s = (Raise e, s') -> (m ≫= k) s = (Raise e, s').
Proof. intros H. unfold mbind, St_bind, bind. rewrite H. reflexivity. Qed.

(** The dict that a loop builds by setting, for each item of a dict, the
    entry that [g] gives for it, if any. *)
Lemma foldl_insert_lookup {A} (g : string * A -> option value)
    (l : list (string * A)) (acc : dict) (k : string) :
  NoDup l.*1 ->
  let built :=
    foldl (fun (acc : dict) kv =>
             match g kv with Some w => <[kv.1 := w]> acc | None => acc end) acc l in
  (forall v, (k, v) ∈ l -> acc !! k = None -> built !! k = g (k, v))
  /\ (k ∉ l.*1 -> built !! k = acc !! k).
Proof.
  revert acc. induction l as [|[k' v'] l IH]; intros acc Hnd; simpl.
  - split; [intros v Hv; apply elem_of_nil in Hv; contradiction | reflexivity].
  - apply NoDup_cons in Hnd as [Hk' Hnd].
    destruct (IH (match g (k', v') with Some w => <[k' := w]> acc | None => acc end) Hnd)
      as [IHin IHout].
    split.
    + intros v Hv Hacc. apply elem_of_cons in Hv as [Hv|Hv].
      * injection Hv as <- <-. rewrite IHout by exact Hk'.
        destruct (g (k, v)); [apply lookup_insert_eq | exact Hacc].
      * assert (k ≠ k').
        { intros ->. apply Hk'. apply list_elem_of_fmap. exists (k', v). split; [reflexivity|exact Hv]. }
        apply IHin; [exact Hv|].
        destruct (g (k', v')); [rewrite lookup_insert_ne by congruence|]; exact Hacc.
    + intros Hk. apply not_elem_of_cons in Hk as [Hne Hk].
      rewrite IHout by exact Hk.
      destruct (g (k', v')); [rewrite lookup_insert_ne by congruence|]; reflexivity.
Qed.

Section AttributeMaps.

Import MetaTableM.

Lemma item_step (self : MetaTable) (acc : dict) (kv : string * value) :
  match kv.2 with
  | VDict _ => ret (<[kv.1 := kv.2]> acc)
  | _ =>
      t ← get_attribute_type (Some kv.1);
      ret (<[kv.1 := VDict {[ t := kv.2 ]}]> acc)
  end self
  = match tagged self kv with
    | Some w => (Ok (<[kv.1 := w]> acc), self)
    | None =>
        (Raise (ValueError (format "No attribute {0} in {1}"
                              [VStr kv.1; VStrs (attr_names self)])), self)
    end.
Proof.
  unfold tagged, declared_type, mbind, St_bind, bind, get_attribute_type.
  destruct kv as [k v]; simpl.
  destruct v; try reflexivity;
    destruct (find_type (AttributeDefinitions (data self)) (Some k)); reflexivity.
Qed.

Lemma tagged_raw (self : MetaTable) (k t : string) (v : value) :
  ~ is_dict v -> declared_type self k = Some t ->
  tagged self (k, v) = Some (VDict {[ t := v ]}).
Proof.
  intros Hv Ht. unfold tagged; simpl. rewrite Ht.
  destruct v; try reflexivity. exfalso. apply Hv. eexists; reflexivity.
Qed.

Lemma get_item_attribute_map_inner (self : MetaTable)
    (attributes : list (string * value)) (item_key : string) (pythonic_key : bool) :
  NoDup attributes.*1 ->
  Forall (fun kv => is_dict kv.2 \/ is_Some (declared_type self kv.1)) attributes ->
  exists inner : dict,
    get_item_attribute_map attributes item_key pythonic_key self
    = (Ok {[ (if pythonic_key then pythonic item_key else item_key) := VDict inner ]},
       self)
    /\ (forall k, k ∉ attributes.*1 -> inner !! k = None)
    /\ (forall k v, (k, v) ∈ attributes -> inner !! k = tagged self (k, v)).
Proof.
  intros Hnd Hall.
  assert (Htag : forall kv, kv ∈ attributes -> is_Some (tagged self kv)).
  { intros [k v] Hin. apply (proj1 (Forall_forall _ _) Hall) in Hin as [[d Hd]|[t Ht]];
      simpl in *; unfold tagged; simpl.
    - rewrite Hd. eexists; reflexivity.
    - rewrite Ht. destruct v; eexists; reflexivity. }
  exists (foldl (fun (acc : dict) kv =>
                   match tagged self kv with Some w => <[kv.1 := w]> acc | None => acc end)
            ∅ attributes).
  split; [|split].
  - unfold get_item_attribute_map.
    rewrite (bind_ok _ _ self self
               (foldl (fun (acc : dict) kv =>
                         match tagged self kv with
                         | Some w => <[kv.1 := w]> acc
                         | None => acc
                         end) ∅ attributes)); [reflexivity|].
    apply for_each_ok. intros acc kv Hin. cbv beta. rewrite item_step.
    destruct (Htag kv Hin) as [w ->]. reflexivity.
  - intros k Hk.
    rewrite (proj2 (foldl_insert_lookup (tagged self) attributes ∅ k Hnd) Hk).
    apply lookup_empty.
  - intros k v Hin.
    apply (proj1 (foldl_insert_lookup (tagged self) attributes ∅ k Hnd)
             v Hin (lookup_empty _)).
Qed.

(** X3: for the items of a dict of attributes (each name once) that are
    dicts or have a declared name, [get_item_attribute_map] raises nothing,
    leaves the table object as it is, and returns under the item key a map
    with exactly the given names: a dict stands as it was given, any other
    value [v] stands under its declared type, so that the value read back at
    [name][type] is [v] itself. *)
Theorem get_item_attribute_map_tags (self : MetaTable)
    (attributes : list (string * value)) (item_key : string) (pythonic_key : bool) :
  NoDup attributes.*1 ->
  Forall (fun kv => is_dict kv.2 \/ is_Some (declared_type self kv.1)) attributes ->
  exists inner : dict,
    get_item_attribute_map attributes item_key pythonic_key self
    = (Ok {[ (if pythonic_key then pythonic item_key else item_key) := VDict inner ]},
       self)
    /\ (forall k, k ∉ attributes.*1 -> inner !! k = None)
    /\ (forall k d, (k, VDict d) ∈ attributes -> inner !! k = Some (VDict d))
    /\ (forall k v t, (k, v) ∈ attributes -> ~ is_dict v ->
          declared_type self k = Some t ->
          inner !! k = Some (VDict {[ t := v ]})
          /\ lookup_path [k; t] (VDict inner) = Some v).
Proof.
  intros Hnd Hall.
  destruct (get_item_attribute_map_inner self attributes item_key pythonic_key Hnd Hall)
    as (inner & Hrun & Hout & Hin).
  exists inner.
  split; [exact Hrun|]. split; [exact Hout|]. split.
  - intros k d Hk. rewrite (Hin k (VDict d) Hk). reflexivity.
  - intros k v t Hk Hv Ht.
    assert (Hlook : inner !! k = Some (VDict {[ t := v ]})).
    { rewrite (Hin k v Hk). apply tagged_raw; assumption. }
    split; [exact Hlook|].
    simpl. rewrite Hlook. rewrite lookup_singleton_eq. reflexivity.
Qed.

(** X4: [get_item_attribute_map] stops at the first attribute, in the order
    of the items, that is not a dict and whose name is not declared: it
    raises the [ValueError] that names this attribute and lists the declared
    names, whatever comes after. *)
Theorem get_item_attribute_map_undeclared (self : MetaTable)
    (pre post : list (string * value)) (k : string) (v : value)
    (item_key : string) (pythonic_key : bool) :
  Forall (fun kv => is_dict kv.2 \/ is_Some (declared_type self kv.1)) pre ->
  ~ is_dict v ->
  declared_type self k = None ->
  get_item_attribute_map (pre ++ (k, v) :: post) item_key pythonic_key self
  = (Raise (ValueError (format "No attribute {0} in {1}"
                          [VStr k; VStrs (attr_names self)])), self).
Proof.
  intros Hpre Hv Hk.
  unfold get_item_attribute_map.
  apply bind_raise.
  apply (for_each_raise pre post (k, v) ∅ _
           (fun (acc : dict) kv =>
              match tagged self kv with Some w => <[kv.1 := w]> acc | None => acc end)).
  - intros acc [k' v'] Hin. cbv beta. rewrite item_step.
    apply (proj1 (Forall_forall _ _) Hpre) in Hin as [[d Hd]|[t Ht]];
      simpl in *; unfold tagged; simpl.
    + rewrite Hd. reflexivity.
    + rewrite Ht. destruct v'; reflexivity.
  - intros acc. cbv beta. rewrite item_step. unfold tagged; simpl. rewrite Hk.
    destruct v; try reflexivity. exfalso. apply Hv. eexists; reflexivity.
Qed.

End AttributeMaps.

(** X3, witness: a raw value and a tagged value for [users]. *)
Lemma get_item_attribute_map_tags_witness :
  exists inner : dict,
    MetaTableM.get_item_attribute_map
      [("age", VInt 7); ("note", VDict {[ "S" := VStr "x" ]})] ITEM false
      (MetaTableM.init Stub.users)
    = (Ok {[ ITEM := VDict inner ]}, MetaTableM.init Stub.users)
    /\ inner !! "note" = Some (VDict {[ "S" := VStr "x" ]})
    /\ lookup_path ["age"; "N"] (VDict inner) = Some (VInt 7).
Proof.
  destruct (get_item_attribute_map_tags (MetaTableM.init Stub.users)
              [("age", VInt 7); ("note", VDict {[ "S" := VStr "x" ]})] ITEM false)
    as (inner & Hrun & _ & Hdict & Hraw).
  - repeat constructor; not_in_list.
  - constructor; [right; eexists; reflexivity|].
    constructor; [left; eexists; reflexivity|constructor].
  - exists inner. split; [exact Hrun|]. split.
    + apply Hdict. right. left.
    + apply (Hraw "age" (VInt 7) "N"); [left | intros [d Hd]; discriminate Hd | reflexivity].
Defined.

(** X4, witness: [color] is not declared in [users]. *)
Lemma get_item_attribute_map_undeclared_witness :
  MetaTableM.get_item_attribute_map
    [("age", VInt 7); ("color", VStr "red"); ("pk", VStr "p")] ITEM true
    (MetaTableM.init Stub.users)
  = (Raise (ValueError (format "No attribute {0} in {1}"
                          [VStr "color"; VStrs ["pk"; "sk"; "age"]])),
     MetaTableM.init Stub.users).
Proof.
  apply (get_item_attribute_map_undeclared (MetaTableM.init Stub.users)
           [("age", VInt 7)] [("pk", VStr "p")] "color" (VStr "red") ITEM true).
  - constructor; [right; eexists; reflexivity|constructor].
  - intros [d Hd]. discriminate Hd.
  - reflexivity.
Defined.

Section ExpectedAndIdentifier.

Import MetaTableM.

Lemma expected_step (self : MetaTable) (acc : dict) (kc : string * dict) :
  (if dict_in EXISTS kc.2 then
     ret (<[kc.1 := VDict {[ EXISTS := dict_get kc.2 EXISTS ]}]> acc)
   else if dict_in VALUE kc.2 then
     t ← get_attribute_type (Some kc.1);
     ret (<[kc.1 := VDict {[ VALUE := VDict {[ t := dict_get kc.2 VALUE ]} ]}]> acc)
   else ret acc) self
  = match expectation self kc with
    | Some (Some w) => (Ok (<[kc.1 := w]> acc), self)
    | Some None => (Ok acc, self)
    | None =>
        (Raise (ValueError (format "No attribute {0} in {1}"
                              [VStr kc.1; VStrs (attr_names self)])), self)
    end.
Proof.
  unfold expectation, declared_type, mbind, St_bind, bind, get_attribute_type.
  destruct (dict_in EXISTS kc.2); [reflexivity|].
  destruct (dict_in VALUE kc.2); [|reflexivity].
  destruct (find_type (AttributeDefinitions (data self)) (Some kc.1)); reflexivity.
Qed.

(** X5: for the items of a dict of conditions (each name once),
    [get_expected_map] looks up a type only for a condition that has [Value]
    and no [Exists]. When those names are declared it raises nothing and
    returns under [expected] a map in which a condition with [Exists] is
    [{Exists: ...}] (its [Value], if any, is ignored), a condition with
    [Value] only is [{Value: {type: ...}}], and a condition with neither has
    no entry at all. *)
Theorem get_expected_map_entries (self : MetaTable)
    (expected : list (string * dict)) :
  NoDup expected.*1 ->
  Forall (fun kc => dict_in EXISTS kc.2 = false -> dict_in VALUE kc.2 = true ->
                    is_Some (declared_type self kc.1)) expected ->
  exists inner : dict,
    get_expected_map expected self
    = (Ok {[ pythonic EXPECTED := VDict inner ]}, self)
    /\ (forall k, k ∉ expected.*1 -> inner !! k = None)
    /\ (forall k c, (k, c) ∈ expected -> dict_in EXISTS c = true ->
          inner !! k = Some (VDict {[ EXISTS := dict_get c EXISTS ]}))
    /\ (forall k c t, (k, c) ∈ expected -> dict_in EXISTS c = false ->
          dict_in VALUE c = true -> declared_type self k = Some t ->
          inner !! k = Some (VDict {[ VALUE := VDict {[ t := dict_get c VALUE ]} ]}))
    /\ (forall k c, (k, c) ∈ expected -> dict_in EXISTS c = false ->
          dict_in VALUE c = false -> inner !! k = None).
Proof.
  intros Hnd Hall.
  set (g := fun kc : string * dict =>
              match expectation self kc with Some o => o | None => None end).
  assert (Hexp : forall kc, kc ∈ expected -> is_Some (expectation self kc)).
  { intros kc Hin. pose proof (proj1 (Forall_forall _ _) Hall kc Hin) as Hkc.
    cbv beta in Hkc. unfold expectation.
    destruct (dict_in EXISTS kc.2); [eexists; reflexivity|].
    destruct (dict_in VALUE kc.2); [|eexists; reflexivity].
    destruct (Hkc eq_refl eq_refl) as [t ->]. eexists; reflexivity. }
  exists (foldl (fun (acc : dict) kc =>
                   match g kc with Some w => <[kc.1 := w]> acc | None => acc end)
            ∅ expected).
  split; [|split; [|split; [|split]]].
  - unfold get_expected_map.
    rewrite (bind_ok _ _ self self
               (foldl (fun (acc : dict) kc =>
                         match g kc with Some w => <[kc.1 := w]> acc | None => acc end)
                  ∅ expected)); [reflexivity|].
    apply for_each_ok. intros acc kc Hin. cbv beta zeta. rewrite expected_step.
    unfold g. destruct (Hexp kc Hin) as [[w|] ->]; reflexivity.
  - intros k Hk.
    rewrite (proj2 (foldl_insert_lookup g expected ∅ k Hnd) Hk). apply lookup_empty.
  - intros k c Hin He.
    rewrite (proj1 (foldl_insert_lookup g expected ∅ k Hnd) c Hin (lookup_empty _)).
    unfold g, expectation; simpl. rewrite He. reflexivity.
  - intros k c t Hin He Hv Ht.
    rewrite (proj1 (foldl_insert_lookup g expected ∅ k Hnd) c Hin (lookup_empty _)).
    unfold g, expectation; simpl. rewrite He, Hv, Ht. reflexivity.
  - intros k c Hin He Hv.
    rewrite (proj1 (foldl_insert_lookup g expected ∅ k Hnd) c Hin (lookup_empty _)).
    unfold g, expectation; simpl. rewrite He, Hv. reflexivity.
Qed.

Lemma hash_keyname_run d t :
  describes_table d t ->
  hash_keyname t = (Ok (hash_scan (KeySchema d) None), (hash_keyname t).2).
Proof.
  intros Ht. rewrite <- (hash_keyname_answer d t Ht).
  destruct (hash_keyname t); reflexivity.
Qed.

Lemma range_keyname_run d t :
  describes_table d t ->
  range_keyname t = (Ok (range_scan (KeySchema d) None), (range_keyname t).2).
Proof.
  intros Ht. rewrite <- (range_keyname_answer d t Ht).
  destruct (range_keyname t); reflexivity.
Qed.

Lemma get_attribute_type_run d t o :
  describes_table d t ->
  get_attribute_type o t
  = (match find_type (AttributeDefinitions d) o with
     | Some ty => Ok ty
     | None => Raise (ValueError (format "No attribute {0} in {1}"
                                    [VName o; VStrs (ad_AttributeName <$> AttributeDefinitions d)]))
     end, t).
Proof.
  intros [_ <-]. unfold get_attribute_type, attr_names.
  destruct (find_type _ _); reflexivity.
Qed.

Lemma get_identifier_map_hash_only (d : TableData) (t : MetaTable)
    (h ht : string) (hash_key range_key : value) (key : string) :
  describes_table d t ->
  hash_scan (KeySchema d) None = Some h ->
  find_type (AttributeDefinitions d) (Some h) = Some ht ->
  truthy range_key = false ->
  (get_identifier_map hash_key range_key key t).1
  = Ok {[ pythonic key := VDict {[ h := VDict {[ ht := hash_key ]} ]} ]}.
Proof.
  intros Ht Hh Hht Hr.
  pose proof (keeps_hash_keyname d t Ht) as Ht1.
  unfold get_identifier_map.
  rewrite (bind_ok _ _ t (hash_keyname t).2 (Some h))
    by (rewrite (hash_keyname_run d t Ht) at 1; rewrite Hh; reflexivity).
  rewrite (bind_ok _ _ _ (hash_keyname t).2 ht)
    by (rewrite (get_attribute_type_run d _ _ Ht1), Hht; reflexivity).
  rewrite Hr. reflexivity.
Qed.

(** X6: on a table whose key schema has a HASH entry of a declared name,
    [get_identifier_map] puts under the pythonic key the hash key under its
    type, alone when the range key given is [None] or otherwise false (0,
    the empty string), and together with the range key under its type when
    the range key given is true and the table has a declared RANGE entry;
    when the range key given is true and the table has no RANGE entry, it
    raises the [ValueError] for the attribute [None]. *)
Theorem get_identifier_map_builds (d : TableData) (t : MetaTable)
    (h ht : string) (hash_key range_key : value) (key : string) :
  describes_table d t ->
  hash_scan (KeySchema d) None = Some h ->
  find_type (AttributeDefinitions d) (Some h) = Some ht ->
  (truthy range_key = false ->
   (get_identifier_map hash_key range_key key t).1
   = Ok {[ pythonic key := VDict {[ h := VDict {[ ht := hash_key ]} ]} ]})
  /\ (truthy range_key = true ->
      forall r rt,
        range_scan (KeySchema d) None = Some r ->
        find_type (AttributeDefinitions d) (Some r) = Some rt ->
        (get_identifier_map hash_key range_key key t).1
        = Ok {[ pythonic key :=
                  VDict (<[r := VDict {[ rt := range_key ]}]>
                           {[ h := VDict {[ ht := hash_key ]} ]}) ]})
  /\ (truthy range_key = true ->
      range_scan (KeySchema d) None = None ->
      (get_identifier_map hash_key range_key key t).1
      = Raise (ValueError (format "No attribute {0} in {1}"
                             [VNone; VStrs (ad_AttributeName <$> AttributeDefinitions d)]))).
Proof.
  intros Ht Hh Hht.
  split; [apply (get_identifier_map_hash_only d); assumption|].
  pose proof (keeps_hash_keyname d t Ht) as Ht1.
  assert (Hstart : forall k : option string -> St MetaTable dict,
             (h' ← hash_keyname; k h') t = k (Some h) (hash_keyname t).2).
  { intros k. rewrite (bind_ok _ _ t (hash_keyname t).2 (Some h)); [reflexivity|].
    rewrite (hash_keyname_run d t Ht) at 1. rewrite Hh. reflexivity. }
  unfold get_identifier_map. rewrite Hstart.
  rewrite (bind_ok _ _ _ (hash_keyname t).2 ht)
    by (rewrite (get_attribute_type_run d _ _ Ht1), Hht; reflexivity).
  split.
  - intros -> r rt Hr Hrt.
    pose proof (keeps_range_keyname d _ Ht1) as Ht2.
    rewrite (bind_ok _ _ _ (range_keyname (hash_keyname t).2).2 (Some r))
      by (rewrite (range_keyname_run d _ Ht1) at 1; rewrite Hr; reflexivity).
    rewrite (bind_ok _ _ _ (range_keyname (hash_keyname t).2).2 rt)
      by (rewrite (get_attribute_type_run d _ _ Ht2), Hrt; reflexivity).
    reflexivity.
  - intros -> Hr.
    pose proof (keeps_range_keyname d _ Ht1) as Ht2.
    rewrite (bind_ok _ _ _ (range_keyname (hash_keyname t).2).2 None)
      by (rewrite (range_keyname_run d _ Ht1) at 1; rewrite Hr; reflexivity).
    rewrite (bind_raise _ _ _ (range_keyname (hash_keyname t).2).2
               (ValueError (format "No attribute {0} in {1}"
                              [VNone; VStrs (ad_AttributeName <$> AttributeDefinitions d)])))
      by (rewrite (get_attribute_type_run d _ _ Ht2), find_type_None; reflexivity).
    reflexivity.
Qed.

(** X7: on a table whose key schema has no HASH entry, the maps that need
    the hash key, [get_identifier_map] and [get_exclusive_start_key_map],
    raise the [ValueError] for the attribute [None], with the list of the
    declared names. *)
Theorem maps_need_a_hash_key (d : TableData) (t : MetaTable)
    (hash_key range_key : value) (key : string) (exclusive_start_key : value) :
  describes_table d t ->
  hash_scan (KeySchema d) None = None ->
  (get_identifier_map hash_key range_key key t).1
  = Raise (ValueError (format "No attribute {0} in {1}"
                         [VNone; VStrs (ad_AttributeName <$> AttributeDefinitions d)]))
  /\ (get_exclusive_start_key_map exclusive_start_key t).1
     = Raise (ValueError (format "No attribute {0} in {1}"
                            [VNone; VStrs (ad_AttributeName <$> AttributeDefinitions d)])).
Proof.
  intros Ht Hh.
  pose proof (keeps_hash_keyname d t Ht) as Ht1.
  split.
  - unfold get_identifier_map.
    rewrite (bind_ok _ _ t (hash_keyname t).2 None)
      by (rewrite (hash_keyname_run d t Ht) at 1; rewrite Hh; reflexivity).
    rewrite (bind_raise _ _ _ (hash_keyname t).2
               (ValueError (format "No attribute {0} in {1}"
                              [VNone; VStrs (ad_AttributeName <$> AttributeDefinitions d)])))
      by (rewrite (get_attribute_type_run d _ _ Ht1), find_type_None; reflexivity).
    reflexivity.
  - unfold get_exclusive_start_key_map.
    rewrite (bind_ok _ _ t (hash_keyname t).2 None)
      by (rewrite (hash_keyname_run d t Ht) at 1; rewrite Hh; reflexivity).
    rewrite (bind_raise _ _ _ (hash_keyname t).2
               (ValueError (format "No attribute {0} in {1}"
                              [VNone; VStrs (ad_AttributeName <$> AttributeDefinitions d)])))
      by (rewrite (get_attribute_type_run d _ _ Ht1), find_type_None; reflexivity).
    reflexivity.
Qed.

End ExpectedAndIdentifier.

(** X5, witness: on [users], a condition with [Exists] and [Value], one with
    [Value] only, and one with neither. *)
Lemma get_expected_map_entries_witness :
  exists inner : dict,
    MetaTableM.get_expected_map
      [("age", {[ EXISTS := VBool false; VALUE := VInt 3 ]});
       ("pk", {[ VALUE := VStr "p" ]});
       ("color", ∅)]
      (MetaTableM.init Stub.users)
    = (Ok {[ "expected" := VDict inner ]}, MetaTableM.init Stub.users)
    /\ inner !! "age" = Some (VDict {[ EXISTS := VBool false ]})
    /\ inner !! "pk" = Some (VDict {[ VALUE := VDict {[ "S" := VStr "p" ]} ]})
    /\ inner !! "color" = None.
Proof.
  destruct (get_expected_map_entries (MetaTableM.init Stub.users)
              [("age", {[ EXISTS := VBool false; VALUE := VInt 3 ]});
               ("pk", {[ VALUE := VStr "p" ]});
               ("color", ∅)])
    as (inner & Hrun & _ & Hexists & Hvalue & Hneither).
  - repeat constructor; not_in_list.
  - constructor; [intros H; discriminate H|].
    constructor; [intros _ _; eexists; reflexivity|].
    constructor; [intros _ H; discriminate H|constructor].
  - exists inner. split; [exact Hrun|]. split; [|split].
    + exact (Hexists "age" {[ EXISTS := VBool false; VALUE := VInt 3 ]}
               ltac:(left) eq_refl).
    + exact (Hvalue "pk" {[ VALUE := VStr "p" ]} "S"
               ltac:(right; left) eq_refl eq_refl eq_refl).
    + exact (Hneither "color" ∅ ltac:(right; right; left) eq_refl eq_refl).
Defined.

(** X6, witness: on [users], a range key 0 is left out, a range key [r] is
    put beside the hash key. *)
Lemma get_identifier_map_builds_witness :
  (MetaTableM.get_identifier_map (VStr "h") (VInt 0) KEY (MetaTableM.init Stub.users)).1
  = Ok {[ "key" := VDict {[ "pk" := VDict {[ "S" := VStr "h" ]} ]} ]}
  /\ (MetaTableM.get_identifier_map (VStr "h") (VStr "r") KEY
        (MetaTableM.init Stub.users)).1
     = Ok {[ "key" := VDict {[ "sk" := VDict {[ "S" := VStr "r" ]};
                               "pk" := VDict {[ "S" := VStr "h" ]} ]} ]}.
Proof.
  split.
  - apply (proj1 (get_identifier_map_builds Stub.users (MetaTableM.init Stub.users)
                    "pk" "S" (VStr "h") (VInt 0) KEY
                    (describes_table_init Stub.users) eq_refl eq_refl)).
    reflexivity.
  - apply (proj1 (proj2 (get_identifier_map_builds Stub.users
                           (MetaTableM.init Stub.users) "pk" "S" (VStr "h") (VStr "r") KEY
                           (describes_table_init Stub.users) eq_refl eq_refl))
             eq_refl "sk" "S"); reflexivity.
Defined.

(** X7, witness: the table [no_hash]. *)
Lemma maps_need_a_hash_key_witness :
  (MetaTableM.get_identifier_map (VStr "h") VNone KEY (MetaTableM.init Stub.no_hash)).1
  = Raise (ValueError (format "No attribute {0} in {1}" [VNone; VStrs ["sk"]]))
  /\ (MetaTableM.get_exclusive_start_key_map (VStr "h") (MetaTableM.init Stub.no_hash)).1
     = Raise (ValueError (format "No attribute {0} in {1}" [VNone; VStrs ["sk"]])).
Proof.
  apply (maps_need_a_hash_key Stub.no_hash (MetaTableM.init Stub.no_hash)
           (VStr "h") VNone KEY (VStr "h")).
  - apply (describes_table_init Stub.no_hash).
  - reflexivity.
Defined.

(** ** The table cache *)

Lemma bind_state {A B} (m : St Connection A) (k : A -> St Connection B)
    (P : Connection -> Prop) (s : Connection) :
  P (m s).2 -> (forall a s', P s' -> P (k a s').2) -> P ((m ≫= k) s).2.
Proof.
  intros Hm Hk. unfold mbind, St_bind, bind.
  destruct (m s) as [[a|e] s']; simpl in *; [apply Hk|]; exact Hm.
Qed.

(** X8: the operations on tables other than [describe_table], that is
    [create_table], [delete_table], [update_table] and [list_tables], never
    touch the cache of table metadata: whatever they are given and whatever
    the store answers, the cache after the call is the cache before it. So
    the metadata of a table that was deleted or updated stays in the cache
    as it was. *)
Theorem table_operations_keep_the_cache
    (transport : list call -> string -> dict -> response) (c : Connection) :
  (forall table_name attribute_definitions key_schema read_capacity_units
      write_capacity_units global_secondary_indexes local_secondary_indexes,
      _tables (create_table transport table_name attribute_definitions key_schema
                 read_capacity_units write_capacity_units global_secondary_indexes
                 local_secondary_indexes c).2 = _tables c)
  /\ (forall table_name, _tables (delete_table transport table_name c).2 = _tables c)
  /\ (forall table_name read_capacity_units write_capacity_units
        global_secondary_index_updates,
        _tables (update_table transport table_name read_capacity_units
                   write_capacity_units global_secondary_index_updates c).2
        = _tables c)
  /\ (forall exclusive_start_table_name limit,
        _tables (list_tables transport exclusive_start_table_name limit c).2
        = _tables c).
Proof.
  assert (Hcall : forall A operation kwargs (k : response -> St Connection A),
             (forall r s', _tables s' = _tables c -> _tables (k r s').2 = _tables c) ->
             _tables ((operation_call transport operation kwargs ≫= k) c).2 = _tables c).
  { intros A operation kwargs k Hk.
    apply (bind_state _ _ (fun s => _tables s = _tables c)); [reflexivity|exact Hk]. }
  split; [|split; [|split]].
  - intros. unfold create_table.
    destruct attribute_definitions; [|reflexivity].
    destruct key_schema; [|reflexivity].
    apply Hcall. intros r s' Hs'. destruct (negb _); exact Hs'.
  - intros. unfold delete_table.
    apply Hcall. intros r s' Hs'. destruct (negb _); exact Hs'.
  - intros. unfold update_table.
    destruct (_ || _); [reflexivity|].
    apply Hcall. intros r s' Hs'. destruct (negb _); exact Hs'.
  - intros. unfold list_tables.
    apply Hcall. intros r s' Hs'. destruct (negb _); exact Hs'.
Qed.

Lemma get_meta_table_returns
    (transport : list call -> string -> dict -> response)
    (table_name : string) (refresh : bool) (c : Connection) (t : MetaTable) :
  (get_meta_table transport table_name refresh c).1 = Ok (Some t) ->
  _tables (get_meta_table transport table_name refresh c).2 !! table_name = Some t.
Proof.
  assert (Hfetch :
    forall k : Connection -> result (option MetaTable) * Connection,
      k = (r ← operation_call transport DESCRIBE_TABLE
                 {[ pythonic TABLE_NAME := VStr table_name ]};
           if negb (ok r) then
             if status_code r =? HTTP_BAD_REQUEST then ret None
             else raise (TableError (format "Unable to describe table: {0}"
                                       [VStr (content r)]))
           else
             let t := MetaTableM.init (table_key r) in
             set_table table_name t;; ret (Some t)) ->
      (k c).1 = Ok (Some t) -> _tables (k c).2 !! table_name = Some t).
  { intros k ->.
    unfold mbind, St_bind, bind, operation_call, set_table, raise, ret.
    cbv beta iota zeta.
    destruct (negb _); [destruct (_ =? _); discriminate|].
    cbn [fst snd _tables]. intros [= <-]. apply lookup_insert_eq. }
  unfold get_meta_table.
  destruct (_tables c !! table_name) as [t0|] eqn:Hlook; [destruct refresh|].
  - apply Hfetch. reflexivity.
  - cbn [fst snd]. intros [= <-]. exact Hlook.
  - apply Hfetch. reflexivity.
Qed.

(** X9: a table that [get_meta_table] has returned is in the cache: the
    next call for the same table without [refresh] returns the same object,
    sends nothing to the transport and changes nothing. *)
Theorem get_meta_table_caches
    (transport : list call -> string -> dict -> response)
    (table_name : string) (refresh : bool) (c : Connection) (t : MetaTable) :
  (get_meta_table transport table_name refresh c).1 = Ok (Some t) ->
  get_meta_table transport table_name false
    (get_meta_table transport table_name refresh c).2
  = (Ok (Some t), (get_meta_table transport table_name refresh c).2).
Proof.
  intros Hret. apply get_meta_table_returns in Hret.
  remember (get_meta_table transport table_name refresh c).2 as c' eqn:Hc'.
  unfold get_meta_table. rewrite Hret. reflexivity.
Qed.

(** X9, witness: the first call fetches [users] from the store. *)
Lemma get_meta_table_caches_witness :
  get_meta_table Stub.accept "users" false
    (get_meta_table Stub.accept "users" false Connection_init).2
  = (Ok (Some (MetaTableM.init Stub.users)),
     (get_meta_table Stub.accept "users" false Connection_init).2).
Proof.
  apply (get_meta_table_caches Stub.accept "users" false Connection_init
           (MetaTableM.init Stub.users)).
  reflexivity.
Defined.

(** X10: a refresh that the store does not answer with ok leaves the cache
    as it was. In particular, when [describe_table] returns [None] for a
    table that the store reports with [HTTP_BAD_REQUEST], metadata of that
    table fetched earlier is still in the cache, and [get_meta_table] goes
    on returning it without asking the store. *)
Theorem failed_refresh_keeps_the_cache
    (transport : list call -> string -> dict -> response)
    (table_name : string) (c : Connection) (t : MetaTable) :
  let r := transport (sent c) DESCRIBE_TABLE {[ pythonic TABLE_NAME := VStr table_name ]} in
  ok r = false ->
  _tables c !! table_name = Some t ->
  _tables (describe_table transport table_name c).2 = _tables c
  /\ (status_code r = HTTP_BAD_REQUEST ->
      (describe_table transport table_name c).1 = Ok None
      /\ get_meta_table transport table_name false
           (describe_table transport table_name c).2
         = (Ok (Some t), (describe_table transport table_name c).2)).
Proof.
  intros r Hok Hlook.
  assert (Hrun : describe_table transport table_name c
                 = (if status_code r =? HTTP_BAD_REQUEST then Ok None
                    else Raise (TableError (format "Unable to describe table: {0}"
                                              [VStr (content r)])),
                    {| _tables := _tables c;
                       sent := (sent c ++ [(DESCRIBE_TABLE,
                                  {[ pythonic TABLE_NAME := VStr table_name ]})])%list |})).
  { unfold describe_table, get_meta_table, mbind, St_bind, bind, operation_call,
      raise, ret.
    fold r. clearbody r. rewrite Hlook. cbv beta iota zeta. rewrite Hok.
    cbn [negb]. destruct (status_code r =? HTTP_BAD_REQUEST); reflexivity. }
  rewrite Hrun. split; [reflexivity|].
  intros Hst. rewrite (proj2 (Z.eqb_eq _ _) Hst). split; [reflexivity|].
  unfold get_meta_table. cbn [snd _tables]. rewrite Hlook. reflexivity.
Qed.

(** X10, witness: [users] is in the cache and the store answers 400. *)
Lemma failed_refresh_keeps_the_cache_witness :
  _tables (describe_table (Stub.refuse 400) "users" Stub.warm).2 = _tables Stub.warm
  /\ (describe_table (Stub.refuse 400) "users" Stub.warm).1 = Ok None
  /\ get_meta_table (Stub.refuse 400) "users" false
       (describe_table (Stub.refuse 400) "users" Stub.warm).2
     = (Ok (Some (MetaTableM.init Stub.users)),
        (describe_table (Stub.refuse 400) "users" Stub.warm).2).
Proof.
  destruct (failed_refresh_keeps_the_cache (Stub.refuse 400) "users" Stub.warm
              (MetaTableM.init Stub.users) eq_refl eq_refl) as [Hkeep Hnone].
  split; [exact Hkeep|]. apply Hnone. reflexivity.
Defined.

(** X11: [update_table] wants the two capacities together, a capacity that
    is [None] or 0 counting as not given: with one capacity only it raises a
    [ValueError] and sends nothing; with both, the UpdateTable request has
    them under [provisioned_throughput]; with none, the request has no
    [provisioned_throughput]. *)
Theorem update_table_capacities_together
    (transport : list call -> string -> dict -> response)
    (table_name : string) (read_capacity_units write_capacity_units : value)
    (global_secondary_index_updates : option (list dict)) (c : Connection) :
  let out := update_table transport table_name read_capacity_units
               write_capacity_units global_secondary_index_updates c in
  (truthy read_capacity_units ≠ truthy write_capacity_units ->
   out = (Raise (ValueError (format
                   "read_capacity_units and write_capacity_units are required together"
                   [])), c))
  /\ (truthy read_capacity_units = truthy write_capacity_units ->
      exists kwargs,
        sent out.2 = (sent c ++ [(UPDATE_TABLE, kwargs)])%list
        /\ kwargs !! pythonic PROVISIONED_THROUGHPUT
           = if truthy read_capacity_units
             then Some (VDict {[ READ_CAPACITY_UNITS := read_capacity_units;
                                 WRITE_CAPACITY_UNITS := write_capacity_units ]})
             else None).
Proof.
  intros out. subst out. unfold update_table. split.
  - intros Hne.
    destruct (truthy read_capacity_units), (truthy write_capacity_units);
      try reflexivity; contradiction.
  - intros Heq. rewrite <- Heq.
    destruct (truthy read_capacity_units); cbn [andb orb negb];
      unfold mbind, St_bind, bind, operation_call, raise, ret; cbv beta iota zeta;
      eexists; (split; [destruct (negb _); reflexivity|]).
    + destruct (truthy_list global_secondary_index_updates).
      * rewrite lookup_insert_ne
          by (intros H; vm_compute in H; discriminate H).
        apply lookup_insert_eq.
      * apply lookup_insert_eq.
    + destruct (truthy_list global_secondary_index_updates).
      * rewrite lookup_insert_ne
          by (intros H; vm_compute in H; discriminate H).
        apply lookup_singleton_ne. intros H; vm_compute in H; discriminate H.
      * apply lookup_singleton_ne. intros H; vm_compute in H; discriminate H.
Qed.

(** X11, witness: a read capacity alone, and both capacities. *)
Lemma update_table_capacities_together_witness :
  update_table Stub.accept "users" (VInt 5) VNone None Connection_init
  = (Raise (ValueError (format
              "read_capacity_units and write_capacity_units are required together"
              [])), Connection_init)
  /\ exists kwargs,
       sent (update_table Stub.accept "users" (VInt 5) (VInt 2) None
               Connection_init).2 = [(UPDATE_TABLE, kwargs)]
       /\ kwargs !! "provisioned_throughput"
          = Some (VDict {[ READ_CAPACITY_UNITS := VInt 5;
                           WRITE_CAPACITY_UNITS := VInt 2 ]}).
Proof.
  split.
  - apply (proj1 (update_table_capacities_together Stub.accept "users" (VInt 5) VNone
                    None Connection_init)).
    discriminate.
  - apply (proj2 (update_table_capacities_together Stub.accept "users" (VInt 5) (VInt 2)
                    None Connection_init)).
    reflexivity.
Defined.

(** ** What goes to the transport *)

Lemma truthy_list_false_items {A} (o : option (list A)) :
  truthy_list o = false -> items o = [].
Proof. destruct o as [[|x l]|]; simpl; [reflexivity|discriminate|reflexivity]. Qed.

Lemma sends_only_describe operation P table_name :
  sends_only operation P (DESCRIBE_TABLE, {[ pythonic TABLE_NAME := VStr table_name ]}).
Proof. left. reflexivity. Qed.

Lemma sends_only_may_fetch operation P table_name :
  may_fetch anywhere (sends_only operation P) any_error table_name.
Proof. right. split; [apply sends_only_describe|]. split; intros; exact Logic.I. Qed.

Lemma sends_only_new operation (P : dict -> Prop) (new : list call) :
  operation ≠ DESCRIBE_TABLE ->
  Forall (sends_only operation P) new ->
  Forall (fun rq : call => rq.1 = operation -> P rq.2) new.
Proof.
  intros Hop Hall. eapply Forall_impl; [exact Hall|].
  intros rq [Hd|[_ HP]] Heq; [|exact HP].
  rewrite Hd in Heq. symmetry in Heq. contradiction.
Qed.

Section Sends.

Variable transport : list call -> string -> dict -> response.
Variable operation : string.
Variable P : dict -> Prop.

Lemma run_sends_on_meta_table {A} table_name (m : St MetaTable A) :
  run anywhere (sends_only operation P) any_error
    (on_meta_table transport table_name m) (fun _ => True).
Proof.
  apply (run_on_meta_table _ _ _ _ anywhere_sent anywhere_table);
    [apply sends_only_may_fetch|].
  intros t e _. exact Logic.I.
Qed.

Lemma run_sends_update_if_str o f kwargs :
  run anywhere (sends_only operation P) any_error
    (update_if_str o f kwargs) (fun _ => True).
Proof.
  apply run_update_if_str; [exact Logic.I | intros; exact Logic.I |].
  intros x e _. exact Logic.I.
Qed.

Lemma run_sends_update_if_str_keeps o f (kwargs : dict) (k : string) (v : value) :
  kwargs !! k = Some v ->
  (forall s d, f s = Ok d -> d !! k = None) ->
  run anywhere (sends_only operation P) any_error
    (update_if_str o f kwargs) (fun kwargs' => kwargs' !! k = Some v).
Proof.
  intros Hk Hf.
  apply run_update_if_str; [exact Hk | | intros x e _; exact Logic.I].
  intros s d Hd. unfold dict_update.
  rewrite lookup_union_r by (eapply Hf; exact Hd). exact Hk.
Qed.

Lemma run_sends_invalid o f kwargs :
  truthy_str o = true ->
  (exists e, f (str o) = Raise e) ->
  run anywhere (sends_only operation P) any_error
    (update_if_str o f kwargs) (fun _ => False).
Proof.
  intros Ho [e He]. unfold update_if_str. rewrite Ho.
  apply (run_bind _ _ _ _ _ (fun _ => False)); [|intros d []].
  apply run_lift. rewrite He. exact Logic.I.
Qed.

Lemma run_sends_for_each_exists {A B} (bad : A -> Prop) (l : list A) (acc : B)
    (body : B -> A -> St Connection B) :
  Exists bad l ->
  (forall acc x, bad x ->
     run anywhere (sends_only operation P) any_error (body acc x) (fun _ => False)) ->
  (forall acc x,
     run anywhere (sends_only operation P) any_error (body acc x) (fun _ => True)) ->
  run anywhere (sends_only operation P) any_error (for_each l acc body) (fun _ => False).
Proof.
  intros Hbad Hstop Hgo. revert acc.
  induction Hbad as [x l Hx|x l _ IH]; intros acc; simpl.
  - apply (run_bind _ _ _ _ _ (fun _ => False)); [apply Hstop; exact Hx|intros a []].
  - apply (run_bind _ _ _ _ _ (fun _ => True)); [apply Hgo|intros a _; apply IH].
Qed.

Lemma run_sends_collect table_name (key tag : string)
    (l : list (list (string * value))) (acc : list value) :
  run anywhere (sends_only operation P) any_error
    (for_each l acc (fun acc item =>
       m ← get_item_attribute_map transport table_name item key false;
       ret (acc ++ [VDict {[ tag := VDict m ]}])%list))
    (fun r => exists new, r = (acc ++ new)%list /\ length new = length l
                          /\ Forall (tagged_request tag) new).
Proof.
  revert acc. induction l as [|item l IH]; intros acc; simpl.
  - apply run_ret. exists []. rewrite app_nil_r. repeat split. constructor.
  - apply (run_bind _ _ _ _ _
             (fun r => exists x, r = (acc ++ [x])%list /\ tagged_request tag x)).
    + apply (run_bind _ _ _ _ _ (fun _ => True)); [apply run_sends_on_meta_table|].
      intros m _. apply run_ret. eexists. split; [reflexivity|]. eexists; reflexivity.
    + intros r (x & -> & Hx).
      eapply run_weaken; [apply IH|].
      intros r' (new & -> & Hlen & Hall). exists (x :: new).
      split; [rewrite <- app_assoc; reflexivity|].
      split; [simpl; rewrite Hlen; reflexivity|].
      constructor; assumption.
Qed.

End Sends.

Lemma batch_write_item_order_run
    (transport : list call -> string -> dict -> response) (table_name : string)
    (put_items delete_items : option (list (list (string * value))))
    (return_consumed_capacity return_item_collection_metrics : option string) :
  run anywhere
    (sends_only BATCH_WRITE_ITEM
       (deletes_then_puts table_name (length (items delete_items))
          (length (items put_items))))
    any_error
    (batch_write_item transport table_name put_items delete_items
       return_consumed_capacity return_item_collection_metrics)
    (fun _ => True).
Proof.
  set (Q := deletes_then_puts table_name (length (items delete_items))
              (length (items put_items))).
  assert (Hputs : run anywhere (sends_only BATCH_WRITE_ITEM Q) any_error
    (if truthy_list put_items then
       for_each (items put_items) [] (fun put_items_list item =>
         m ← get_item_attribute_map transport table_name item ITEM false;
         ret (put_items_list ++ [VDict {[ PUT_REQUEST := VDict m ]}])%list)
     else ret [])
    (fun r => length r = length (items put_items)
              /\ Forall (tagged_request PUT_REQUEST) r)).
  { destruct (truthy_list put_items) eqn:Hp.
    - eapply run_weaken; [apply run_sends_collect|].
      intros r (new & -> & Hlen & Hall). split; assumption.
    - apply run_ret. rewrite (truthy_list_false_items _ Hp). split; [reflexivity|constructor]. }
  assert (Hdeletes : run anywhere (sends_only BATCH_WRITE_ITEM Q) any_error
    (if truthy_list delete_items then
       for_each (items delete_items) [] (fun delete_items_list item =>
         m ← get_item_attribute_map transport table_name item KEY false;
         ret (delete_items_list ++ [VDict {[ DELETE_REQUEST := VDict m ]}])%list)
     else ret [])
    (fun r => length r = length (items delete_items)
              /\ Forall (tagged_request DELETE_REQUEST) r)).
  { destruct (truthy_list delete_items) eqn:Hd.
    - eapply run_weaken; [apply run_sends_collect|].
      intros r (new & -> & Hlen & Hall). split; assumption.
    - apply run_ret. rewrite (truthy_list_false_items _ Hd). split; [reflexivity|constructor]. }
  assert (Hrest : forall kwargs0 : dict,
    run anywhere (sends_only BATCH_WRITE_ITEM Q) any_error
      (operation_kwargs ←
          update_if_str return_consumed_capacity get_consumed_capacity_map kwargs0;
        operation_kwargs ←
          update_if_str return_item_collection_metrics get_item_collection_map operation_kwargs;
        put_items_list ←
          (if truthy_list put_items then
             for_each (items put_items) [] (fun put_items_list item =>
               m ← get_item_attribute_map transport table_name item ITEM false;
               ret (put_items_list ++ [VDict {[ PUT_REQUEST := VDict m ]}])%list)
           else ret []);
        delete_items_list ←
          (if truthy_list delete_items then
             for_each (items delete_items) [] (fun delete_items_list item =>
               m ← get_item_attribute_map transport table_name item KEY false;
               ret (delete_items_list ++ [VDict {[ DELETE_REQUEST := VDict m ]}])%list)
           else ret []);
        let operation_kwargs :=
          <[pythonic REQUEST_ITEMS :=
              VDict {[ table_name := VList (delete_items_list ++ put_items_list)%list ]}]>
            operation_kwargs in
        r ← operation_call transport BATCH_WRITE_ITEM operation_kwargs;
        if negb (ok r) then
          raise (PutError (format "Failed to batch write items: {0}" [VStr (content r)]))
        else ret (body r))
      (fun _ => True)).
  { intros kwargs0.
    apply (run_bind _ _ _ _ _ (fun _ => True)); [apply run_sends_update_if_str|].
    intros kwargs1 _.
    apply (run_bind _ _ _ _ _ (fun _ => True)); [apply run_sends_update_if_str|].
    intros kwargs2 _.
    eapply run_bind; [exact Hputs|]. intros puts [Hplen Hpall].
    eapply run_bind; [exact Hdeletes|]. intros deletes [Hdlen Hdall].
    cbv zeta.
    apply (run_bind _ _ _ _ _ (fun _ => True)).
    { apply (run_operation_call _ _ _ _ anywhere_sent).
      right. split; [reflexivity|]. exists deletes, puts.
      split; [|repeat split; assumption].
      cbn [lookup_path snd]. rewrite lookup_insert_eq, lookup_singleton_eq. reflexivity. }
    intros r _. destruct (negb (ok r)); [apply run_raise|apply run_ret]; exact Logic.I. }
  unfold batch_write_item.
  destruct put_items as [puts|], delete_items as [deletes|]; try apply Hrest.
  apply run_raise. exact Logic.I.
Qed.

(** X12: every BatchWriteItem request that [batch_write_item] sends has, for
    the table, one request per item given: a [DeleteRequest] for each item of
    [delete_items] first, then a [PutRequest] for each item of
    [put_items]; whatever else it sends describes a table. *)
Theorem batch_write_item_deletes_first
    (transport : list call -> string -> dict -> response) (table_name : string)
    (put_items delete_items : option (list (list (string * value))))
    (return_consumed_capacity return_item_collection_metrics : option string)
    (c : Connection) :
  exists new,
    sent (batch_write_item transport table_name put_items delete_items
            return_consumed_capacity return_item_collection_metrics c).2
    = (sent c ++ new)%list
    /\ Forall (fun rq : call => rq.1 = DESCRIBE_TABLE \/ rq.1 = BATCH_WRITE_ITEM) new
    /\ Forall (fun rq : call =>
                 rq.1 = BATCH_WRITE_ITEM ->
                 deletes_then_puts table_name (length (items delete_items))
                   (length (items put_items)) rq.2) new.
Proof.
  destruct (batch_write_item_order_run transport table_name put_items delete_items
              return_consumed_capacity return_item_collection_metrics c Logic.I)
    as (_ & (new & Hnew & Hall) & _).
  exists new. split; [exact Hnew|]. split.
  - eapply Forall_impl; [exact Hall|]. intros rq [Hd|[Hb _]]; [left|right]; assumption.
  - apply sends_only_new; [discriminate|exact Hall].
Qed.

(** The spec's example of a batch: one item to put and one to delete. *)
Example batch_write_item_one_put_one_delete :
  exists kwargs,
    sent (batch_write_item Stub.accept "users" (Some [[("pk", VStr "a")]])
            (Some [[("pk", VStr "b")]]) None None Stub.warm).2
    = [(BATCH_WRITE_ITEM, kwargs)]
    /\ lookup_path ["request_items"; "users"] (VDict kwargs)
       = Some (VList
           [VDict {[ DELETE_REQUEST :=
                       VDict {[ KEY := VDict {[ "pk" := VDict {[ "S" := VStr "b" ]} ]} ]} ]};
            VDict {[ PUT_REQUEST :=
                       VDict {[ ITEM := VDict {[ "pk" := VDict {[ "S" := VStr "a" ]} ]} ]} ]}]).
Proof. eexists. split; vm_compute; reflexivity. Qed.

Section Checks.

Variable transport : list call -> string -> dict -> response.

Lemma run_bad_condition operation allowed table_name conditions kc :
  bad_operator allowed kc ->
  run anywhere (sends_only operation never) any_error
    (condition_entry transport allowed table_name conditions kc) (fun _ => False).
Proof.
  intros Hbad. unfold condition_entry.
  apply (run_bind _ _ _ _ _ (fun _ => True)); [apply run_sends_on_meta_table|].
  intros attr_type _. unfold bad_operator in Hbad. rewrite Hbad. cbn [negb].
  apply run_raise. exact Logic.I.
Qed.

Lemma run_any_condition operation P allowed table_name conditions kc :
  run anywhere (sends_only operation P) any_error
    (condition_entry transport allowed table_name conditions kc) (fun _ => True).
Proof.
  unfold condition_entry.
  apply (run_bind _ _ _ _ _ (fun _ => True)); [apply run_sends_on_meta_table|].
  intros attr_type _. destruct (negb _); [apply run_raise; exact Logic.I|].
  apply (run_bind _ _ _ _ _ (fun _ => True)); [|intros; apply run_ret; exact Logic.I].
  apply run_lift. destruct (attribute_value_list _ _); exact Logic.I.
Qed.

Lemma Exists_truthy_list {A} (bad : A -> Prop) (l : list A) :
  Exists bad l -> truthy_list (Some l) = true.
Proof. destruct 1; reflexivity. Qed.

Lemma scan_bad_operator_run SCAN_FILTER_VALUES table_name attributes_to_get limit
    scan_filter return_consumed_capacity exclusive_start_key segment total_segments :
  Exists (bad_operator SCAN_FILTER_VALUES) scan_filter ->
  run anywhere (sends_only SCAN never) any_error
    (scan transport SCAN_FILTER_VALUES table_name attributes_to_get limit
       (Some scan_filter) return_consumed_capacity exclusive_start_key segment
       total_segments)
    (fun _ => False).
Proof.
  intros Hbad. unfold scan. cbv zeta.
  apply (run_bind _ _ _ _ _ (fun _ => True)); [apply run_sends_update_if_str|].
  intros kwargs1 _.
  apply (run_bind _ _ _ _ _ (fun _ => True)).
  { destruct (truthy exclusive_start_key); [|apply run_ret; exact Logic.I].
    apply (run_bind _ _ _ _ _ (fun _ => True)); [|intros; apply run_ret; exact Logic.I].
    apply run_sends_on_meta_table. }
  intros kwargs2 _.
  apply (run_bind _ _ _ _ _ (fun _ => False)); [|intros a []].
  rewrite (Exists_truthy_list _ _ Hbad).
  apply (run_bind _ _ _ _ _ (fun _ => False)); [|intros a []].
  apply (run_sends_for_each_exists _ _ _ _ _ _ Hbad).
  - intros acc kc Hkc. apply run_bad_condition. exact Hkc.
  - intros acc kc. apply run_any_condition.
Qed.

Lemma query_bad_operator_run COMPARISON_OPERATOR_VALUES table_name hash_key
    attributes_to_get consistent_read exclusive_start_key index_name key_conditions
    limit return_consumed_capacity scan_index_forward select :
  Exists (bad_operator COMPARISON_OPERATOR_VALUES) key_conditions ->
  run anywhere (sends_only QUERY never) any_error
    (query transport COMPARISON_OPERATOR_VALUES table_name hash_key attributes_to_get
       consistent_read exclusive_start_key index_name (Some key_conditions) limit
       return_consumed_capacity scan_index_forward select)
    (fun _ => False).
Proof.
  intros Hbad. unfold query. cbv zeta.
  apply (run_bind _ _ _ _ _ (fun _ => True)).
  { destruct (truthy exclusive_start_key); [|apply run_ret; exact Logic.I].
    apply (run_bind _ _ _ _ _ (fun _ => True)); [|intros; apply run_ret; exact Logic.I].
    apply run_sends_on_meta_table. }
  intros kwargs1 _.
  apply (run_bind _ _ _ _ _ (fun _ => True)); [apply run_sends_update_if_str|].
  intros kwargs2 _.
  apply (run_bind _ _ _ _ _ (fun _ => True)).
  { destruct (truthy_str select); [|apply run_ret; exact Logic.I].
    destruct (negb _); [apply run_raise|apply run_ret]; exact Logic.I. }
  intros kwargs3 _.
  apply (run_bind _ _ _ _ _ (fun _ => True)); [apply run_sends_on_meta_table|].
  intros hash_keyname _.
  apply (run_bind _ _ _ _ _ (fun _ => True)); [apply run_sends_on_meta_table|].
  intros hash_type _.
  apply (run_bind _ _ _ _ _ (fun _ => False)); [|intros a []].
  rewrite (Exists_truthy_list _ _ Hbad).
  apply (run_sends_for_each_exists _ _ _ _ _ _ Hbad).
  - intros acc kc Hkc. apply run_bad_condition. exact Hkc.
  - intros acc kc. apply run_any_condition.
Qed.

End Checks.

Lemma never_sent (operation : string) (new : list call) :
  Forall (sends_only operation never) new ->
  Forall (fun rq : call => rq.1 = DESCRIBE_TABLE) new.
Proof.
  intros Hall. eapply Forall_impl; [exact Hall|].
  intros rq [Hd|[_ []]]. exact Hd.
Qed.

(** X13: the operator of every condition is checked, as it is written,
    before anything is asked of the store: when a condition of the scan
    filter of [scan], or a key condition of [query], has an operator that is
    not among the allowed ones, the call returns nothing and no Scan or
    Query request is sent; all it may have sent are requests to describe the
    table. *)
Theorem operators_are_checked_first
    (transport : list call -> string -> dict -> response)
    (COMPARISON_OPERATOR_VALUES SCAN_FILTER_VALUES : list string) (c : Connection) :
  (forall table_name attributes_to_get limit scan_filter return_consumed_capacity
      exclusive_start_key segment total_segments,
      Exists (bad_operator SCAN_FILTER_VALUES) scan_filter ->
      let out := scan transport SCAN_FILTER_VALUES table_name attributes_to_get limit
                   (Some scan_filter) return_consumed_capacity exclusive_start_key
                   segment total_segments c in
      (forall v, out.1 ≠ Ok v)
      /\ exists new, sent out.2 = (sent c ++ new)%list
           /\ Forall (fun rq : call => rq.1 = DESCRIBE_TABLE) new)
  /\ (forall table_name hash_key attributes_to_get consistent_read
        exclusive_start_key index_name key_conditions limit
        return_consumed_capacity scan_index_forward select,
        Exists (bad_operator COMPARISON_OPERATOR_VALUES) key_conditions ->
        let out := query transport COMPARISON_OPERATOR_VALUES table_name hash_key
                     attributes_to_get consistent_read exclusive_start_key index_name
                     (Some key_conditions) limit return_consumed_capacity
                     scan_index_forward select c in
        (forall v, out.1 ≠ Ok v)
        /\ exists new, sent out.2 = (sent c ++ new)%list
             /\ Forall (fun rq : call => rq.1 = DESCRIBE_TABLE) new).
Proof.
  split.
  - intros table_name attributes_to_get limit scan_filter return_consumed_capacity
      exclusive_start_key segment total_segments Hbad out.
    destruct (scan_bad_operator_run transport SCAN_FILTER_VALUES table_name
                attributes_to_get limit scan_filter return_consumed_capacity
                exclusive_start_key segment total_segments Hbad c Logic.I)
      as (_ & (new & Hnew & Hall) & Hr).
    fold out in Hnew, Hr. split.
    + intros v Hv. rewrite Hv in Hr. exact Hr.
    + exists new. split; [exact Hnew|]. eapply never_sent. exact Hall.
  - intros table_name hash_key attributes_to_get consistent_read exclusive_start_key
      index_name key_conditions limit return_consumed_capacity scan_index_forward
      select Hbad out.
    destruct (query_bad_operator_run transport COMPARISON_OPERATOR_VALUES table_name
                hash_key attributes_to_get consistent_read exclusive_start_key
                index_name key_conditions limit return_consumed_capacity
                scan_index_forward select Hbad c Logic.I)
      as (_ & (new & Hnew & Hall) & Hr).
    fold out in Hnew, Hr. split.
    + intros v Hv. rewrite Hv in Hr. exact Hr.
    + exists new. split; [exact Hnew|]. eapply never_sent. exact Hall.
Qed.

(** X13, witness: a scan filter and a key condition with the operator [between],
    in lowercase. *)
Lemma operators_are_checked_first_witness :
  (forall v, (scan Stub.accept Stub.operators "users" VNone VNone
                (Some [("sk", {[ COMPARISON_OPERATOR := VStr "between";
                                 ATTR_VALUE_LIST := VList [VStr "a"; VStr "b"] ]})])
                None VNone VNone VNone Stub.warm).1 ≠ Ok v)
  /\ (forall v, (query Stub.accept Stub.operators "users" (VStr "h") VNone VNone VNone
                   VNone
                   (Some [("sk", {[ COMPARISON_OPERATOR := VStr "between";
                                    ATTR_VALUE_LIST := VList [VStr "a"; VStr "b"] ]})])
                   VNone None VNone None Stub.warm).1 ≠ Ok v).
Proof.
  destruct (operators_are_checked_first Stub.accept Stub.operators Stub.operators
              Stub.warm) as [Hscan Hquery].
  split.
  - apply (Hscan "users" VNone VNone
             [("sk", {[ COMPARISON_OPERATOR := VStr "between";
                        ATTR_VALUE_LIST := VList [VStr "a"; VStr "b"] ]})]
             None VNone VNone VNone).
    constructor. reflexivity.
  - apply (Hquery "users" (VStr "h") VNone VNone VNone VNone
             [("sk", {[ COMPARISON_OPERATOR := VStr "between";
                        ATTR_VALUE_LIST := VList [VStr "a"; VStr "b"] ]})]
             VNone None VNone None).
    constructor. reflexivity.
Defined.

Section ItemChecks.

Variable transport : list call -> string -> dict -> response.
Variable DeleteError : message -> exn.

Lemma invalid_return_values (s : string) :
  s ≠ "" -> upper s ∉ RETURN_VALUES_VALUES ->
  truthy_str (Some s) = true
  /\ exists e, get_return_values_map (str (Some s)) = Raise e.
Proof.
  intros Hs Hnot. split.
  - simpl. destruct (String.eqb_spec s ""); [contradiction|reflexivity].
  - unfold get_return_values_map; simpl.
    rewrite bool_decide_eq_false_2 by exact Hnot. eexists. reflexivity.
Qed.

Lemma run_merge_item operation P kwargs attrs :
  run anywhere (sends_only operation P) any_error (merge_item kwargs attrs)
    (fun _ => True).
Proof.
  unfold merge_item.
  destruct (dict_get kwargs (pythonic ITEM)), (dict_get attrs (pythonic ITEM));
    first [apply run_ret | apply run_raise]; exact Logic.I.
Qed.

Lemma run_expected operation P table_name (expected : option (list (string * dict)))
    (kwargs : dict) :
  run anywhere (sends_only operation P) any_error
    (if truthy_list expected then
       e ← get_expected_map transport table_name (items expected);
       ret (dict_update kwargs e)
     else ret kwargs)
    (fun _ => True).
Proof.
  destruct (truthy_list expected); [|apply run_ret; exact Logic.I].
  apply (run_bind _ _ _ _ _ (fun _ => True)); [|intros; apply run_ret; exact Logic.I].
  apply run_sends_on_meta_table.
Qed.

Lemma put_item_invalid_run table_name hash_key range_key attributes expected s
    return_consumed_capacity return_item_collection_metrics :
  s ≠ "" -> upper s ∉ RETURN_VALUES_VALUES ->
  run anywhere (sends_only PUT_ITEM never) any_error
    (put_item transport table_name hash_key range_key attributes expected (Some s)
       return_consumed_capacity return_item_collection_metrics)
    (fun _ => False).
Proof.
  intros Hs Hnot. destruct (invalid_return_values s Hs Hnot) as [Htruthy Hraise].
  unfold put_item. cbv zeta.
  apply (run_bind _ _ _ _ _ (fun _ => True)); [apply run_sends_on_meta_table|].
  intros ident _.
  apply (run_bind _ _ _ _ _ (fun _ => True)).
  { destruct (truthy_list attributes); [|apply run_ret; exact Logic.I].
    apply (run_bind _ _ _ _ _ (fun _ => True)); [apply run_sends_on_meta_table|].
    intros attrs _. apply run_merge_item. }
  intros kwargs1 _.
  apply (run_bind _ _ _ _ _ (fun _ => True)); [apply run_sends_update_if_str|].
  intros kwargs2 _.
  apply (run_bind _ _ _ _ _ (fun _ => True)); [apply run_sends_update_if_str|].
  intros kwargs3 _.
  apply (run_bind _ _ _ _ _ (fun _ => False)); [|intros a []].
  apply run_sends_invalid; assumption.
Qed.

Lemma update_item_invalid_run table_name hash_key range_key attribute_updates expected
    return_consumed_capacity return_item_collection_metrics s :
  s ≠ "" -> upper s ∉ RETURN_VALUES_VALUES ->
  run anywhere (sends_only UPDATE_ITEM never) any_error
    (update_item transport table_name hash_key range_key attribute_updates expected
       return_consumed_capacity return_item_collection_metrics (Some s))
    (fun _ => False).
Proof.
  intros Hs Hnot. destruct (invalid_return_values s Hs Hnot) as [Htruthy Hraise].
  unfold update_item. cbv zeta.
  apply (run_bind _ _ _ _ _ (fun _ => True)); [apply run_sends_on_meta_table|].
  intros ident _.
  apply (run_bind _ _ _ _ _ (fun _ => True)); [apply run_expected|].
  intros kwargs1 _.
  apply (run_bind _ _ _ _ _ (fun _ => True)); [apply run_sends_update_if_str|].
  intros kwargs2 _.
  apply (run_bind _ _ _ _ _ (fun _ => True)); [apply run_sends_update_if_str|].
  intros kwargs3 _.
  apply (run_bind _ _ _ _ _ (fun _ => False)); [|intros a []].
  apply run_sends_invalid; assumption.
Qed.

Lemma delete_item_invalid_run table_name hash_key range_key expected s
    return_consumed_capacity return_item_collection_metrics :
  s ≠ "" -> upper s ∉ RETURN_VALUES_VALUES ->
  run anywhere (sends_only DELETE_ITEM never) any_error
    (delete_item transport DeleteError table_name hash_key range_key expected
       (Some s) return_consumed_capacity return_item_collection_metrics)
    (fun _ => False).
Proof.
  intros Hs Hnot. destruct (invalid_return_values s Hs Hnot) as [Htruthy Hraise].
  unfold delete_item. cbv zeta.
  apply (run_bind _ _ _ _ _ (fun _ => True)); [apply run_sends_on_meta_table|].
  intros ident _.
  apply (run_bind _ _ _ _ _ (fun _ => True)); [apply run_expected|].
  intros kwargs1 _.
  apply (run_bind _ _ _ _ _ (fun _ => False)); [|intros a []].
  apply run_sends_invalid; assumption.
Qed.

Lemma run_update_entry table_name (updates : dict) (ku : string * dict) :
  allowed_updates updates ->
  run anywhere (sends_only UPDATE_ITEM carries_allowed_updates) any_error
    (attr_type ← get_attribute_type transport table_name (Some ku.1);
     let action := dict_get ku.2 ACTION in
     if negb (value_in action ATTR_UPDATE_ACTIONS) then
       raise (ValueError (format "{0} must be one of {1}"
                            [VStr ACTION; VStrs ATTR_UPDATE_ACTIONS]))
     else
       ret (<[ku.1 := VDict {[ ACTION := action;
                               VALUE := VDict {[ attr_type := dict_get ku.2 VALUE ]} ]}]>
              updates))
    allowed_updates.
Proof.
  intros Hupd.
  apply (run_bind _ _ _ _ _ (fun _ => True)); [apply run_sends_on_meta_table|].
  intros attr_type _. cbv zeta.
  destruct (value_in (dict_get ku.2 ACTION) ATTR_UPDATE_ACTIONS) eqn:Hin; cbn [negb];
    [|apply run_raise; exact Logic.I].
  apply run_ret. intros k v Hkv.
  destruct (decide (ku.1 = k)) as [<-|Hne].
  - rewrite lookup_insert_eq in Hkv. injection Hkv as <-.
    destruct (dict_get ku.2 ACTION) as [| | |a| |]; try discriminate Hin.
    exists a, attr_type, (dict_get ku.2 VALUE). split; [reflexivity|].
    simpl in Hin. apply bool_decide_eq_true_1 in Hin. exact Hin.
  - rewrite lookup_insert_ne in Hkv by exact Hne. apply (Hupd k v Hkv).
Qed.

Lemma update_item_actions_run table_name hash_key range_key attribute_updates expected
    return_consumed_capacity return_item_collection_metrics return_values :
  run anywhere (sends_only UPDATE_ITEM carries_allowed_updates) any_error
    (update_item transport table_name hash_key range_key attribute_updates expected
       return_consumed_capacity return_item_collection_metrics return_values)
    (fun _ => True).
Proof.
  unfold update_item. cbv zeta.
  apply (run_bind _ _ _ _ _ (fun _ => True)); [apply run_sends_on_meta_table|].
  intros ident _.
  apply (run_bind _ _ _ _ _ (fun _ => True)); [apply run_expected|].
  intros kwargs1 _.
  apply (run_bind _ _ _ _ _ (fun _ => True)); [apply run_sends_update_if_str|].
  intros kwargs2 _.
  apply (run_bind _ _ _ _ _ (fun _ => True)); [apply run_sends_update_if_str|].
  intros kwargs3 _.
  apply (run_bind _ _ _ _ _ (fun _ => True)); [apply run_sends_update_if_str|].
  intros kwargs4 _.
  destruct (negb (truthy_list attribute_updates)); [apply run_raise; exact Logic.I|].
  apply (run_bind _ _ _ _ _ allowed_updates).
  { apply run_for_each.
    - intros k v Hkv. rewrite lookup_empty in Hkv. discriminate Hkv.
    - intros acc ku Hacc. apply run_update_entry. exact Hacc. }
  intros updates Hupd.
  apply (run_bind _ _ _ _ _ (fun _ => True)).
  { apply (run_operation_call _ _ _ _ anywhere_sent).
    right. split; [reflexivity|]. exists updates.
    split; [apply lookup_insert_eq|exact Hupd]. }
  intros r _. destruct (negb (ok r)); [apply run_raise|apply run_ret]; exact Logic.I.
Qed.

End ItemChecks.

(** X14: [return_values] is checked before the item request is sent: with a
    value whose uppercase is not one of the five allowed, [put_item],
    [update_item] and [delete_item] return nothing and send no PutItem,
    UpdateItem or DeleteItem request; all they may have sent are requests to
    describe the table. *)
Theorem invalid_return_values_send_nothing
    (transport : list call -> string -> dict -> response)
    (DeleteError : message -> exn) (s : string) (c : Connection) :
  s ≠ "" -> upper s ∉ RETURN_VALUES_VALUES ->
  (forall table_name hash_key range_key attributes expected
      return_consumed_capacity return_item_collection_metrics,
      let out := put_item transport table_name hash_key range_key attributes expected
                   (Some s) return_consumed_capacity return_item_collection_metrics c in
      (forall v, out.1 ≠ Ok v)
      /\ exists new, sent out.2 = (sent c ++ new)%list
           /\ Forall (fun rq : call => rq.1 = DESCRIBE_TABLE) new)
  /\ (forall table_name hash_key range_key attribute_updates expected
        return_consumed_capacity return_item_collection_metrics,
        let out := update_item transport table_name hash_key range_key
                     attribute_updates expected return_consumed_capacity
                     return_item_collection_metrics (Some s) c in
        (forall v, out.1 ≠ Ok v)
        /\ exists new, sent out.2 = (sent c ++ new)%list
             /\ Forall (fun rq : call => rq.1 = DESCRIBE_TABLE) new)
  /\ (forall table_name hash_key range_key expected
        return_consumed_capacity return_item_collection_metrics,
        let out := delete_item transport DeleteError table_name hash_key range_key
                     expected (Some s) return_consumed_capacity
                     return_item_collection_metrics c in
        (forall v, out.1 ≠ Ok v)
        /\ exists new, sent out.2 = (sent c ++ new)%list
             /\ Forall (fun rq : call => rq.1 = DESCRIBE_TABLE) new).
Proof.
  intros Hs Hnot.
  assert (Hend : forall (operation : string) (m : St Connection value),
             run anywhere (sends_only operation never) any_error m (fun _ => False) ->
             (forall v, (m c).1 ≠ Ok v)
             /\ exists new, sent (m c).2 = (sent c ++ new)%list
                  /\ Forall (fun rq : call => rq.1 = DESCRIBE_TABLE) new).
  { intros operation m Hm. destruct (Hm c Logic.I) as (_ & (new & Hnew & Hall) & Hr).
    split.
    - intros v Hv. rewrite Hv in Hr. exact Hr.
    - exists new. split; [exact Hnew|]. eapply never_sent. exact Hall. }
  split; [|split]; intros.
  - apply (Hend PUT_ITEM). apply put_item_invalid_run; assumption.
  - apply (Hend UPDATE_ITEM). apply update_item_invalid_run; assumption.
  - apply (Hend DELETE_ITEM). apply delete_item_invalid_run; assumption.
Qed.

(** X14, witness: [return_values="BOGUS"] on [users], for a put. *)
Lemma invalid_return_values_send_nothing_witness :
  (forall v, (put_item Stub.accept "users" (VStr "h") VNone None None (Some "BOGUS")
                None None Stub.warm).1 ≠ Ok v)
  /\ exists new,
       sent (put_item Stub.accept "users" (VStr "h") VNone None None (Some "BOGUS")
               None None Stub.warm).2 = (sent Stub.warm ++ new)%list
       /\ Forall (fun rq : call => rq.1 = DESCRIBE_TABLE) new.
Proof.
  apply (proj1 (invalid_return_values_send_nothing Stub.accept TableError "BOGUS"
                  Stub.warm ltac:(discriminate) ltac:(not_in_list))
           "users" (VStr "h") VNone None None None None).
Defined.

(** X15: every UpdateItem request that [update_item] sends has under
    [attribute_updates] only entries of the form
    [{Action: a, Value: {type: value}}] whose action [a] is, as it is
    written, one of the allowed actions; whatever else it sends describes the
    table. *)
Theorem update_item_sends_allowed_actions
    (transport : list call -> string -> dict -> response)
    (table_name : string) (hash_key range_key : value)
    (attribute_updates expected : option (list (string * dict)))
    (return_consumed_capacity return_item_collection_metrics
       return_values : option string) (c : Connection) :
  exists new,
    sent (update_item transport table_name hash_key range_key attribute_updates
            expected return_consumed_capacity return_item_collection_metrics
            return_values c).2 = (sent c ++ new)%list
    /\ Forall (fun rq : call => rq.1 = DESCRIBE_TABLE \/ rq.1 = UPDATE_ITEM) new
    /\ Forall (fun rq : call => rq.1 = UPDATE_ITEM -> carries_allowed_updates rq.2) new.
Proof.
  destruct (update_item_actions_run transport table_name hash_key range_key
              attribute_updates expected return_consumed_capacity
              return_item_collection_metrics return_values c Logic.I)
    as (_ & (new & Hnew & Hall) & _).
  exists new. split; [exact Hnew|]. split.
  - eapply Forall_impl; [exact Hall|]. intros rq [Hd|[Hb _]]; [left|right]; assumption.
  - apply sends_only_new; [discriminate|exact Hall].
Qed.

(** ** The order of a key schema *)

Lemma ascii_compare_Lt_trans (a b c : ascii) :
  Ascii.compare a b = Lt -> Ascii.compare b c = Lt -> Ascii.compare a c = Lt.
Proof. unfold Ascii.compare. rewrite !N.compare_lt_iff. lia. Qed.

Lemma string_compare_Lt_trans (a : string) : forall b c,
  String.compare a b = Lt -> String.compare b c = Lt -> String.compare a c = Lt.
Proof.
  induction a as [|x a IH]; intros [|y b] [|z c]; simpl; try congruence.
  destruct (Ascii.compare x y) eqn:Hxy; try discriminate.
  - apply Ascii.compare_eq_iff in Hxy as ->.
    destruct (Ascii.compare y z) eqn:Hyz; try discriminate; [apply IH|reflexivity].
  - intros _. destruct (Ascii.compare y z) eqn:Hyz; try discriminate.
    + apply Ascii.compare_eq_iff in Hyz as <-. rewrite Hxy. reflexivity.
    + rewrite (ascii_compare_Lt_trans _ _ _ Hxy Hyz). reflexivity.
Qed.

Lemma string_ltb_asym (x y : string) :
  String.ltb y x = true -> String.ltb x y = false.
Proof.
  unfold String.ltb. rewrite (String.compare_antisym x y).
  destruct (String.compare y x); simpl; congruence.
Qed.

(** If [y] is not below [x] and [z] is not below [y], then [z] is not below
    [x]. *)
Lemma string_ltb_false_trans (x y z : string) :
  String.ltb y x = false -> String.ltb z y = false -> String.ltb z x = false.
Proof.
  unfold String.ltb. intros Hyx Hzy.
  destruct (String.compare z x) eqn:Hzx; try reflexivity. exfalso.
  destruct (String.compare y x) eqn:Hyx'; try discriminate.
  - apply String.compare_eq_iff in Hyx' as ->. rewrite Hzx in Hzy. discriminate.
  - assert (Hxy : String.compare x y = Lt).
    { rewrite (String.compare_antisym x y), Hyx'. reflexivity. }
    rewrite (string_compare_Lt_trans _ _ _ Hzx Hxy) in Hzy. discriminate.
Qed.

Section SortedByKey.

Context {A : Type} (key : A -> value).

Lemma insert_by_Permutation (x : A) (l : list A) : insert_by key x l ≡ₚ x :: l.
Proof.
  induction l as [|y l IH]; simpl; [reflexivity|].
  destruct (value_ltb (key y) (key x)); [|reflexivity].
  rewrite IH. apply Permutation_swap.
Qed.

Lemma sorted_Permutation (l : list A) : sorted l key ≡ₚ l.
Proof.
  induction l as [|x l IH]; simpl; [reflexivity|].
  rewrite insert_by_Permutation, IH. reflexivity.
Qed.

Lemma insert_by_ascending (x : A) (l : list A) :
  (exists s, key x = VStr s) ->
  Forall (fun y => exists s, key y = VStr s) l ->
  StronglySorted (fun a b => value_ltb (key b) (key a) = false) l ->
  StronglySorted (fun a b => value_ltb (key b) (key a) = false) (insert_by key x l).
Proof.
  intros [sx Hx] Hkeys Hl. induction Hl as [|y l Hl IH Hy]; simpl.
  - constructor; constructor.
  - apply Forall_cons in Hkeys as [[sy Hsy] Hkeys].
    destruct (value_ltb (key y) (key x)) eqn:Hyx.
    + constructor; [apply IH; exact Hkeys|].
      rewrite insert_by_Permutation. constructor; [|exact Hy].
      rewrite Hx, Hsy in *. simpl in *. apply string_ltb_asym. exact Hyx.
    + constructor; [constructor; assumption|].
      constructor; [exact Hyx|].
      apply Forall_forall. intros z Hz.
      destruct (proj1 (Forall_forall _ _) Hkeys z Hz) as [sz Hsz].
      pose proof (proj1 (Forall_forall _ _) Hy z Hz) as Hyz.
      rewrite Hx, Hsy, Hsz in *. simpl in *.
      eapply string_ltb_false_trans; eassumption.
Qed.

Lemma sorted_ascending (l : list A) :
  Forall (fun y => exists s, key y = VStr s) l ->
  StronglySorted (fun a b => value_ltb (key b) (key a) = false) (sorted l key).
Proof.
  induction 1 as [|x l Hx Hl IH]; simpl; [constructor|].
  apply insert_by_ascending; [exact Hx| |exact IH].
  rewrite sorted_Permutation. exact Hl.
Qed.

End SortedByKey.

(** X16: for every key schema, whatever the roles of its entries (written
    in any case, or left out), the request that [create_table] sends has
    under [key_schema] the same entries, none lost and none added, with the
    role in uppercase, in ascending order of that role. *)
Theorem create_table_key_schema_any_roles
    (transport : list call -> string -> dict -> response)
    (table_name : string) (attribute_definitions : list dict)
    (key_schema : list KeySchemaArg)
    (read_capacity_units write_capacity_units : value)
    (global_secondary_indexes local_secondary_indexes : option (list dict))
    (c : Connection) :
  exists (kwargs : dict) (out : list dict),
    sent (create_table transport table_name (Some attribute_definitions)
            (Some key_schema) read_capacity_units write_capacity_units
            global_secondary_indexes local_secondary_indexes c).2
    = (sent c ++ [(CREATE_TABLE, kwargs)])%list
    /\ kwargs !! pythonic KEY_SCHEMA = Some (VList (VDict <$> out))
    /\ out ≡ₚ key_schema_entry <$> key_schema
    /\ role_ascending out.
Proof.
  unfold create_table, mbind, St_bind, bind, operation_call, raise, ret.
  cbv beta iota zeta.
  eexists. eexists. split; [|split; [|split]].
  - destruct (negb _); cbn [fst snd sent]; reflexivity.
  - destruct (truthy_list local_secondary_indexes).
    + rewrite lookup_insert_ne
        by (intros Heq; vm_compute in Heq; discriminate Heq).
      rewrite lookup_insert_eq. reflexivity.
    + rewrite lookup_insert_eq. reflexivity.
  - apply sorted_Permutation.
  - unfold role_ascending. apply sorted_ascending.
    apply Forall_fmap, Forall_forall. intros item _. simpl.
    rewrite key_schema_entry_key. eexists. reflexivity.
Qed.

(** ** Reading items *)

Section Reads.

Variable transport : list call -> string -> dict -> response.
Variable GetError : message -> exn.

Lemma run_sends_collect_keys operation P table_name
    (l : list (list (string * value))) (acc : list value) :
  run anywhere (sends_only operation P) any_error
    (for_each l acc (fun keys_list key =>
       m ← get_item_attribute_map transport table_name key ITEM true;
       ret (keys_list ++ [dict_get m (pythonic ITEM)])%list))
    (fun r => exists new, r = (acc ++ new)%list /\ length new = length l).
Proof.
  revert acc. induction l as [|key l IH]; intros acc; simpl.
  - apply run_ret. exists []. rewrite app_nil_r. split; reflexivity.
  - apply (run_bind _ _ _ _ _ (fun r => exists x, r = (acc ++ [x])%list)).
    + apply (run_bind _ _ _ _ _ (fun _ => True)); [apply run_sends_on_meta_table|].
      intros m _. apply run_ret. eexists. reflexivity.
    + intros r (x & ->).
      eapply run_weaken; [apply IH|].
      intros r' (new & -> & Hlen). exists (x :: new).
      split; [rewrite <- app_assoc; reflexivity|].
      simpl; rewrite Hlen; reflexivity.
Qed.

Lemma batch_get_item_run table_name keys consistent_read return_consumed_capacity
    attributes_to_get :
  run anywhere (sends_only BATCH_GET_ITEM (carries_keys table_name (length keys)))
    any_error
    (batch_get_item transport GetError table_name keys consistent_read
       return_consumed_capacity attributes_to_get)
    (fun _ => True).
Proof.
  unfold batch_get_item. cbv zeta.
  apply (run_bind _ _ _ _ _ (fun _ => True)); [apply run_sends_update_if_str|].
  intros kwargs1 _.
  eapply run_bind; [apply (run_sends_collect_keys _ _ table_name keys [])|].
  intros ks (new & -> & Hlen).
  apply (run_bind _ _ _ _ _ (fun _ => True)).
  { apply (run_operation_call _ _ _ _ anywhere_sent).
    right. split; [reflexivity|]. exists new. split; [|exact Hlen].
    cbn [lookup_path snd app].
    rewrite lookup_insert_eq, lookup_singleton_eq, lookup_insert_eq. reflexivity. }
  intros r _. destruct (negb (ok r)); [apply run_raise|apply run_ret]; exact Logic.I.
Qed.

End Reads.

(** X17: every BatchGetItem request that [batch_get_item] sends has, for the
    table, as many keys under [Keys] as the caller gave; whatever else it
    sends describes the table. *)
Theorem batch_get_item_sends_all_keys
    (transport : list call -> string -> dict -> response)
    (GetError : message -> exn) (table_name : string)
    (keys : list (list (string * value))) (consistent_read : value)
    (return_consumed_capacity : option string) (attributes_to_get : value)
    (c : Connection) :
  exists new,
    sent (batch_get_item transport GetError table_name keys consistent_read
            return_consumed_capacity attributes_to_get c).2 = (sent c ++ new)%list
    /\ Forall (fun rq : call => rq.1 = DESCRIBE_TABLE \/ rq.1 = BATCH_GET_ITEM) new
    /\ Forall (fun rq : call =>
                 rq.1 = BATCH_GET_ITEM -> carries_keys table_name (length keys) rq.2)
         new.
Proof.
  destruct (batch_get_item_run transport GetError table_name keys consistent_read
              return_consumed_capacity attributes_to_get c Logic.I)
    as (_ & (new & Hnew & Hall) & _).
  exists new. split; [exact Hnew|]. split.
  - eapply Forall_impl; [exact Hall|]. intros rq [Hd|[Hb _]]; [left|right]; assumption.
  - apply sends_only_new; [discriminate|exact Hall].
Qed.

(** ** Requests on a table of the cache *)

Lemma on_meta_table_cached {A}
    (transport : list call -> string -> dict -> response)
    (table_name : string) (m : St MetaTable A) (c : Connection) (t : MetaTable) :
  _tables c !! table_name = Some t ->
  on_meta_table transport table_name m c
  = ((m t).1,
     {| _tables := <[table_name := (m t).2]> (_tables c); sent := sent c |}).
Proof.
  intros Hlook. unfold on_meta_table, get_meta_table, mbind, St_bind, bind.
  rewrite Hlook. destruct (m t) as [[a|e] t']; reflexivity.
Qed.

Section CachedRequests.

Variable transport : list call -> string -> dict -> response.
Variable GetError : message -> exn.

(** X18: on a connection that has the table in its cache, for a table with
    a declared hash key and a range key that is [None] (or otherwise false),
    [get_item] sends exactly one request, a GetItem request with the table
    name, the [consistent_read] flag as given, the hash key under its type
    as [key], and [attributes_to_get] unless it is [None]; it returns the
    data of the response when the response is ok and raises [GetError] with
    the content of the response otherwise. *)
Theorem get_item_request (table_name : string)
    (hash_key range_key consistent_read attributes_to_get : value)
    (c : Connection) (t : MetaTable) (d : TableData) (h ht : string) :
  _tables c !! table_name = Some t ->
  describes_table d t ->
  MetaTableM.hash_scan (KeySchema d) None = Some h ->
  MetaTableM.find_type (AttributeDefinitions d) (Some h) = Some ht ->
  truthy range_key = false ->
  exists kwargs : dict,
    let r := transport (sent c) GET_ITEM kwargs in
    let out := get_item transport GetError table_name hash_key range_key
                 consistent_read attributes_to_get c in
    sent out.2 = (sent c ++ [(GET_ITEM, kwargs)])%list
    /\ out.1 = (if ok r then Ok (body r)
                else Raise (GetError (format "Failed to get item: {0}"
                                        [VStr (content r)])))
    /\ kwargs !! "table_name" = Some (VStr table_name)
    /\ kwargs !! "consistent_read" = Some consistent_read
    /\ kwargs !! "key" = Some (VDict {[ h := VDict {[ ht := hash_key ]} ]})
    /\ kwargs !! "attributes_to_get"
       = match attributes_to_get with VNone => None | v => Some v end
    /\ dom kwargs ⊆ {[ "table_name"; "consistent_read"; "key"; "attributes_to_get" ]}.
Proof.
  intros Hlook Ht Hh Hht Hrange.
  pose proof (get_identifier_map_hash_only d t h ht hash_key range_key KEY
                Ht Hh Hht Hrange) as Hident.
  eexists. cbv zeta.
  unfold get_item, get_identifier_map. cbv zeta.
  rewrite (bind_ok _ _ c _ _ (eq_trans
             (on_meta_table_cached transport table_name _ c t Hlook)
             (f_equal (fun x => (x, _)) Hident))).
  unfold mbind, St_bind, bind, operation_call, raise, ret. cbv beta iota zeta.
  cbn [sent].
  split; [destruct (negb _); reflexivity|].
  split; [destruct (ok _); reflexivity|].
  unfold dict_update, set_if_not_None.
  change (pythonic KEY) with "key". change (pythonic TABLE_NAME) with "table_name".
  change (pythonic CONSISTENT_READ) with "consistent_read".
  change (pythonic ATTRS_TO_GET) with "attributes_to_get".
  repeat split.
  - rewrite lookup_union_r by (apply lookup_singleton_ne; discriminate).
    apply lookup_insert_eq.
  - rewrite lookup_union_r by (apply lookup_singleton_ne; discriminate).
    rewrite lookup_insert_ne by discriminate. apply lookup_insert_eq.
  - rewrite lookup_union_l' by (rewrite lookup_singleton_eq; eexists; reflexivity).
    apply lookup_singleton_eq.
  - rewrite lookup_union_r by (apply lookup_singleton_ne; discriminate).
    rewrite !lookup_insert_ne by discriminate.
    destruct attributes_to_get; try apply lookup_insert_eq. apply lookup_empty.
  - rewrite dom_union_L, dom_singleton_L, !dom_insert_L.
    destruct attributes_to_get; rewrite ?dom_insert_L, dom_empty_L;
      intros x; rewrite !elem_of_union, !elem_of_singleton, ?elem_of_empty; tauto.
Qed.

End CachedRequests.

Section CachedWrites.

Variable transport : list call -> string -> dict -> response.

Lemma bind_ret_l {S A B} (a : A) (k : A -> St S B) (s : S) :
  (ret a ≫= k) s = k a s.
Proof. reflexivity. Qed.

Lemma describes_table_declared d t k :
  describes_table d t ->
  declared_type t k = MetaTableM.find_type (AttributeDefinitions d) (Some k).
Proof. intros [_ <-]. reflexivity. Qed.

(** X19: on a connection that has the table in its cache, for a table with
    a declared hash key, [query] without key conditions of the caller, start
    key, consumed capacity or select sends exactly one request, a Query
    request whose [key_conditions] is the one condition that the hash key
    attribute equals the hash key given, under its type. *)
Theorem query_hash_key_condition (COMPARISON_OPERATOR_VALUES : list string)
    (table_name : string)
    (hash_key attributes_to_get consistent_read index_name limit
       scan_index_forward : value)
    (c : Connection) (t : MetaTable) (d : TableData) (h ht : string) :
  _tables c !! table_name = Some t ->
  describes_table d t ->
  MetaTableM.hash_scan (KeySchema d) None = Some h ->
  MetaTableM.find_type (AttributeDefinitions d) (Some h) = Some ht ->
  exists kwargs : dict,
    sent (query transport COMPARISON_OPERATOR_VALUES table_name hash_key
            attributes_to_get consistent_read VNone index_name None limit None
            scan_index_forward None c).2
    = (sent c ++ [(QUERY, kwargs)])%list
    /\ kwargs !! "key_conditions"
       = Some (VDict {[ h := VDict {[ ATTR_VALUE_LIST := VList [VDict {[ ht := hash_key ]}];
                                      COMPARISON_OPERATOR := VStr EQ ]} ]}).
Proof.
  intros Hlook Ht Hh Hht.
  pose proof (keeps_hash_keyname d t Ht) as Ht1.
  eexists.
  unfold query, update_if_str, hash_keyname, get_attribute_type. cbv zeta.
  cbn [truthy truthy_str truthy_list].
  rewrite !bind_ret_l.
  rewrite (bind_ok _ _ c _ (Some h)
             (eq_trans (on_meta_table_cached transport table_name _ c t Hlook)
                (f_equal (fun x => (x, _))
                   (eq_trans (hash_keyname_answer d t Ht) (f_equal Ok Hh))))).
  rewrite (bind_ok _ _ _ _ ht
             (eq_trans (on_meta_table_cached transport table_name _ _ _
                          (lookup_insert_eq _ _ _))
                (f_equal (fun x => (x, _))
                   (eq_trans (f_equal fst (get_attribute_type_run d _ (Some h) Ht1))
                      (f_equal (fun o => match o with
                                         | Some ty => Ok ty
                                         | None => Raise _
                                         end) Hht))))).
  rewrite bind_ret_l.
  unfold mbind, St_bind, bind, operation_call, raise, ret. cbv beta iota zeta.
  cbn [sent].
  split; [destruct (negb _); reflexivity|].
  apply lookup_insert_eq.
Qed.

(** X20: on a connection that has the table in its cache, for a table with
    a declared hash key, [put_item] with attributes (each name once, each a
    dict or of a declared name) and nothing else sends exactly one request,
    a PutItem request whose [item] has every attribute given, a dict as it
    was given and any other value under its declared type, and the hash key
    under its type unless an attribute has the name of the hash key: that
    attribute then stands in the place of the key. *)
Theorem put_item_merges_attributes (table_name : string) (hash_key : value)
    (attributes : list (string * value))
    (c : Connection) (t : MetaTable) (d : TableData) (h ht : string) :
  _tables c !! table_name = Some t ->
  describes_table d t ->
  MetaTableM.hash_scan (KeySchema d) None = Some h ->
  MetaTableM.find_type (AttributeDefinitions d) (Some h) = Some ht ->
  NoDup attributes.*1 ->
  Forall (fun kv => is_dict kv.2
                    \/ is_Some (MetaTableM.find_type (AttributeDefinitions d) (Some kv.1)))
    attributes ->
  exists kwargs item : dict,
    sent (put_item transport table_name hash_key VNone (Some attributes) None
            None None None c).2
    = (sent c ++ [(PUT_ITEM, kwargs)])%list
    /\ kwargs !! "table_name" = Some (VStr table_name)
    /\ kwargs !! "item" = Some (VDict item)
    /\ (forall k dd, (k, VDict dd) ∈ attributes -> item !! k = Some (VDict dd))
    /\ (forall k v ty, (k, v) ∈ attributes -> ~ is_dict v ->
          MetaTableM.find_type (AttributeDefinitions d) (Some k) = Some ty ->
          item !! k = Some (VDict {[ ty := v ]}))
    /\ (h ∉ attributes.*1 -> item !! h = Some (VDict {[ ht := hash_key ]}))
    /\ (forall k, k ≠ h -> k ∉ attributes.*1 -> item !! k = None).
Proof.
  intros Hlook Ht Hh Hht Hnd Hall.
  pose proof (get_identifier_map_hash_only d t h ht hash_key VNone ITEM
                Ht Hh Hht eq_refl) as Hident.
  pose proof (keeps_get_identifier_map d hash_key VNone ITEM t Ht) as Ht1.
  set (t1 := (MetaTableM.get_identifier_map hash_key VNone ITEM t).2) in *.
  assert (Hstart : forall k : dict -> St Connection value,
             (ident ← get_identifier_map transport table_name hash_key VNone ITEM;
              k ident) c
             = k {[ pythonic ITEM := VDict {[ h := VDict {[ ht := hash_key ]} ]} ]}
                 {| _tables := <[table_name := t1]> (_tables c); sent := sent c |}).
  { intros k. unfold get_identifier_map.
    apply (bind_ok _ _ c). rewrite (on_meta_table_cached transport table_name _ c t Hlook).
    fold t1. rewrite Hident. reflexivity. }
  assert (Htable : forall item : dict,
             <[pythonic ITEM := VDict item]>
               (dict_update {[ pythonic TABLE_NAME := VStr table_name ]}
                  {[ pythonic ITEM := VDict {[ h := VDict {[ ht := hash_key ]} ]} ]})
             !! "table_name" = Some (VStr table_name)).
  { intros item. rewrite lookup_insert_ne by discriminate.
    unfold dict_update. rewrite lookup_union_r by (apply lookup_singleton_ne; discriminate).
    apply lookup_singleton_eq. }
  destruct attributes as [|kv attributes'].
  - exists (dict_update {[ pythonic TABLE_NAME := VStr table_name ]}
              {[ pythonic ITEM := VDict {[ h := VDict {[ ht := hash_key ]} ]} ]}).
    exists {[ h := VDict {[ ht := hash_key ]} ]}.
    split; [|split; [|split; [|split; [|split; [|split]]]]].
    + unfold put_item. cbv zeta. rewrite Hstart.
      unfold update_if_str. cbn [truthy_str truthy_list]. rewrite !bind_ret_l.
      unfold mbind, St_bind, bind, operation_call, raise, ret. cbv beta iota zeta.
      cbn [sent]. destruct (negb _); reflexivity.
    + unfold dict_update. rewrite lookup_union_r by (apply lookup_singleton_ne; discriminate).
      apply lookup_singleton_eq.
    + unfold dict_update. rewrite lookup_union_l' by (rewrite lookup_singleton_eq; eexists; reflexivity).
      apply lookup_singleton_eq.
    + intros k dd Hin. apply elem_of_nil in Hin. contradiction.
    + intros k v ty Hin. apply elem_of_nil in Hin. contradiction.
    + intros _. apply lookup_singleton_eq.
    + intros k Hk _. apply lookup_singleton_ne. congruence.
  - set (attributes := kv :: attributes') in *.
    assert (Hall1 : Forall (fun kv => is_dict kv.2 \/ is_Some (declared_type t1 kv.1))
                      attributes).
    { eapply Forall_impl; [exact Hall|]. intros x [Hd|Hd]; [left; exact Hd|right].
      rewrite (describes_table_declared d t1 _ Ht1). exact Hd. }
    destruct (get_item_attribute_map_inner t1 attributes ITEM true Hnd Hall1)
      as (inner & Hrun & Hout & Htag).
    assert (Hdict : forall k dd, (k, VDict dd) ∈ attributes ->
                                 inner !! k = Some (VDict dd)).
    { intros k dd Hk. rewrite (Htag k _ Hk). reflexivity. }
    assert (Hraw : forall k v ty, (k, v) ∈ attributes -> ~ is_dict v ->
                     declared_type t1 k = Some ty ->
                     inner !! k = Some (VDict {[ ty := v ]})).
    { intros k v ty Hk Hv Hty. rewrite (Htag k v Hk). apply tagged_raw; assumption. }
    exists (<[pythonic ITEM := VDict (dict_update {[ h := VDict {[ ht := hash_key ]} ]} inner)]>
              (dict_update {[ pythonic TABLE_NAME := VStr table_name ]}
                 {[ pythonic ITEM := VDict {[ h := VDict {[ ht := hash_key ]} ]} ]})).
    exists (dict_update {[ h := VDict {[ ht := hash_key ]} ]} inner).
    split; [|split; [|split; [|split; [|split; [|split]]]]].
    + unfold put_item. cbv zeta. rewrite Hstart.
      unfold update_if_str, get_item_attribute_map.
      cbn [truthy_str truthy_list items default]. unfold id.
      change (match attributes with [] => false | _ :: _ => true end) with true.
      cbv iota.
      rewrite (bind_ok _ _ _
                 {| _tables := <[table_name := t1]> (<[table_name := t1]> (_tables c));
                    sent := sent c |}
                 (<[pythonic ITEM := VDict (dict_update {[ h := VDict {[ ht := hash_key ]} ]} inner)]>
                    (dict_update {[ pythonic TABLE_NAME := VStr table_name ]}
                       {[ pythonic ITEM := VDict {[ h := VDict {[ ht := hash_key ]} ]} ]}))).
      * rewrite !bind_ret_l.
        unfold mbind, St_bind, bind, operation_call, raise, ret. cbv beta iota zeta.
        cbn [sent]. destruct (negb _); reflexivity.
      * rewrite (bind_ok _ _ _
                   {| _tables := <[table_name := t1]> (<[table_name := t1]> (_tables c));
                      sent := sent c |} {[ pythonic ITEM := VDict inner ]}).
        -- unfold merge_item, dict_get, dict_update.
           rewrite lookup_union_l' by (rewrite lookup_singleton_eq; eexists; reflexivity).
           rewrite !lookup_singleton_eq. reflexivity.
        -- rewrite (on_meta_table_cached transport table_name _ _ t1
                      (lookup_insert_eq _ _ _)).
           rewrite Hrun. reflexivity.
    + apply Htable.
    + apply lookup_insert_eq.
    + intros k dd Hin. unfold dict_update.
      rewrite lookup_union_l' by (rewrite (Hdict k dd Hin); eexists; reflexivity).
      apply Hdict. exact Hin.
    + intros k v ty Hin Hv Hty.
      assert (Hk : inner !! k = Some (VDict {[ ty := v ]})).
      { apply (Hraw k v ty Hin Hv).
        rewrite (describes_table_declared d t1 _ Ht1). exact Hty. }
      unfold dict_update.
      rewrite lookup_union_l' by (rewrite Hk; eexists; reflexivity). exact Hk.
    + intros Hh'. unfold dict_update.
      rewrite lookup_union_r by (apply Hout; exact Hh').
      apply lookup_singleton_eq.
    + intros k Hk Hk'. unfold dict_update.
      rewrite lookup_union_r by (apply Hout; exact Hk').
      apply lookup_singleton_ne. congruence.
Qed.

End CachedWrites.

(** X18, witness: [users] is in the cache; the item [h] is read with
    [consistent_read=False] and all its attributes. *)
Lemma get_item_request_witness :
  exists kwargs : dict,
    sent (get_item Stub.accept QueryError "users" (VStr "h") VNone (VBool false) VNone
            Stub.warm).2 = [(GET_ITEM, kwargs)]
    /\ (get_item Stub.accept QueryError "users" (VStr "h") VNone (VBool false) VNone
          Stub.warm).1 = Ok (VDict ∅)
    /\ kwargs !! "consistent_read" = Some (VBool false)
    /\ kwargs !! "key" = Some (VDict {[ "pk" := VDict {[ "S" := VStr "h" ]} ]})
    /\ kwargs !! "attributes_to_get" = None.
Proof.
  destruct (get_item_request Stub.accept QueryError "users" (VStr "h") VNone
              (VBool false) VNone Stub.warm (MetaTableM.init Stub.users) Stub.users
              "pk" "S" eq_refl (describes_table_init Stub.users)
              eq_refl eq_refl eq_refl)
    as (kwargs & Hsent & Hout & _ & Hread & Hkey & Hattrs & _).
  exists kwargs. repeat split; assumption.
Defined.

(** X19, witness: a query of [users] for the hash key [h]. *)
Lemma query_hash_key_condition_witness :
  exists kwargs : dict,
    sent (query Stub.accept Stub.operators "users" (VStr "h") VNone VNone VNone
            VNone None VNone None VNone None Stub.warm).2 = [(QUERY, kwargs)]
    /\ kwargs !! "key_conditions"
       = Some (VDict {[ "pk" := VDict {[ ATTR_VALUE_LIST :=
                                           VList [VDict {[ "S" := VStr "h" ]}];
                                         COMPARISON_OPERATOR := VStr EQ ]} ]}).
Proof.
  apply (query_hash_key_condition Stub.accept Stub.operators "users" (VStr "h") VNone
           VNone VNone VNone VNone Stub.warm (MetaTableM.init Stub.users) Stub.users
           "pk" "S" eq_refl (describes_table_init Stub.users) eq_refl eq_refl).
Defined.

(** X20, witness: an item of [users] is put with an age, and with an
    attribute [pk] of its own, which takes the place of the hash key. *)
Lemma put_item_merges_attributes_witness :
  exists kwargs item : dict,
    sent (put_item Stub.accept "users" (VStr "h") VNone
            (Some [("age", VInt 7); ("pk", VStr "other")]) None None None None
            Stub.warm).2 = [(PUT_ITEM, kwargs)]
    /\ kwargs !! "item" = Some (VDict item)
    /\ item !! "age" = Some (VDict {[ "N" := VInt 7 ]})
    /\ item !! "pk" = Some (VDict {[ "S" := VStr "other" ]}).
Proof.
  destruct (put_item_merges_attributes Stub.accept "users" (VStr "h")
              [("age", VInt 7); ("pk", VStr "other")] Stub.warm
              (MetaTableM.init Stub.users) Stub.users "pk" "S"
              eq_refl (describes_table_init Stub.users) eq_refl eq_refl)
    as (kwargs & item & Hsent & _ & Hitem & _ & Hraw & _).
  - repeat constructor; not_in_list.
  - constructor; [right; eexists; reflexivity|].
    constructor; [right; eexists; reflexivity|constructor].
  - exists kwargs, item. split; [exact Hsent|]. split; [exact Hitem|]. split.
    + apply (Hraw "age" (VInt 7) "N"); [left | intros [x Hx]; discriminate Hx | reflexivity].
    + apply (Hraw "pk" (VStr "other") "S");
        [right; left | intros [x Hx]; discriminate Hx | reflexivity].
Defined.

(** ** Enumerated options, in the requests *)












Section Options.

Variable transport : list call -> string -> dict -> response.
Variable operation : string.
Variable P : dict -> Prop.








End Options.




Section OptionsOfOperations.

Variable transport : list call -> string -> dict -> response.
Variable DeleteError : message -> exn.
Variable GetError : message -> exn.
Variable COMPARISON_OPERATOR_VALUES : list string.
Variable SCAN_FILTER_VALUES : list string.








End OptionsOfOperations.




